(** * media_manager: the file-processing pipeline and its backup store

    A shallow embedding of the Python sources
      - [utils/file_utils.py]    ([sanitize_filename], [get_unique_filename]
                                  and the safe file operations),
      - [core/file_renamer.py]   ([FileRenamer]),
      - [core/metadata_handler.py], [core/validator.py],
      - [utils/backup.py]        ([BackupManager]),
      - [core/file_processor.py] ([FileProcessor]),
      - [media/format_detector.py] ([FormatDetector], as [FormatChecks]),
      - [utils/config.py]        ([ConfigManager]),
      - [cli/commands.py]        ([process_files]),
    followed by the properties of the specification that were checked
    against them, and by further properties of the code.

    Conventions of the embedding.
      - A Python [str] is a [string] (a sequence of 8-bit characters).
      - A [pathlib.Path] is a record of an anchor flag and its components.
      - A [dict] is a [gmap]; the result of a call that may raise is an
        [Exc]; code that also changes the file system or the ledger runs
        in the monad [M].
      - The tag codecs (mutagen), the format sniffers (magic, mimetypes,
        ffmpeg), MD5 and the JSON codec are parameters of the sections
        that use them. *)

From Stdlib Require Import ZArith Ascii String List Lia.
From stdpp Require Import base option list gmap sets strings pretty.

Local Arguments String.append : simpl nomatch.

(** ** Python exceptions *)

(** The exception classes that the modelled code can meet.  [OSError]
    stands for the operating-system errors that have no class of their
    own, [shutil.Error] among them.  [Unmodelled] marks an input on which
    the embedding does not follow Python (it is never caught as a
    [KeyError]). *)
Inductive PyErr :=
  | KeyError (key : string)
  | IndexError
  | ValueError
  | TypeError
  | AttributeError
  | FileNotFoundError
  | FileExistsError
  | IsADirectoryError
  | NotADirectoryError
  | PermissionError
  | SameFileError
  | OSError (msg : string)
  | Unmodelled.

(** [str(e)], as [process_file] records it. *)
Definition err_str (e : PyErr) : string :=
  match e with
  | KeyError k => "'" +:+ k +:+ "'"
  | IndexError => "Replacement index out of range for positional args tuple"
  | ValueError => "invalid format string"
  | TypeError => "expected str, bytes or os.PathLike object"
  | AttributeError => "'list' object has no attribute 'get'"
  | FileNotFoundError => "[Errno 2] No such file or directory"
  | FileExistsError => "[Errno 17] File exists"
  | IsADirectoryError => "[Errno 21] Is a directory"
  | NotADirectoryError => "[Errno 20] Not a directory"
  | PermissionError => "[Errno 13] Permission denied"
  | SameFileError => "source and destination are the same file"
  | OSError msg => msg
  | Unmodelled => "unmodelled"
  end.

(** A pure computation that may raise. *)
Inductive Exc (A : Type) :=
  | Ret (a : A)
  | Raise (e : PyErr).
Arguments Ret {A} a.
Arguments Raise {A} e.

Global Instance exc_ret : MRet Exc := λ A a, Ret a.
Global Instance exc_bind : MBind Exc := λ A B k m,
  match m with
  | Ret a => k a
  | Raise e => Raise e
  end.

(** ** Strings *)

Module Str.

(** [c in chars], for a one-character [c]. *)
Fixpoint mem (c : ascii) (chars : string) : bool :=
  match chars with
  | "" => false
  | String a r => if decide (a = c) then true else mem c r
  end.

(** [s.replace(c, r)], for a one-character [c]. *)
Fixpoint replace (c : ascii) (r : string) (s : string) : string :=
  match s with
  | "" => ""
  | String a s' =>
      if decide (a = c) then r +:+ replace c r s'
      else String a (replace c r s')
  end.

(** [s.lstrip(chars)] *)
Fixpoint lstrip (chars : string) (s : string) : string :=
  match s with
  | "" => ""
  | String a s' => if mem a chars then lstrip chars s' else s
  end.

(** [s.rstrip(chars)] *)
Fixpoint rstrip (chars : string) (s : string) : string :=
  match s with
  | "" => ""
  | String a s' =>
      match rstrip chars s' with
      | "" => if mem a chars then "" else String a ""
      | r => String a r
      end
  end.

(** [s.strip(chars)] *)
Definition strip (chars : string) (s : string) : string :=
  rstrip chars (lstrip chars s).

Definition lower_char (a : ascii) : ascii :=
  let n := nat_of_ascii a in
  if (65 <=? n)%nat && (n <=? 90)%nat then ascii_of_nat (n + 32) else a.

(** [s.lower()] on the ASCII letters. *)
Fixpoint lower (s : string) : string :=
  match s with
  | "" => ""
  | String a s' => String (lower_char a) (lower s')
  end.

(** [s.rfind(c)], with [None] for [-1]. *)
Fixpoint rfind (c : ascii) (s : string) : option nat :=
  match s with
  | "" => None
  | String a s' =>
      match rfind c s' with
      | Some i => Some (S i)
      | None => if decide (a = c) then Some 0%nat else None
      end
  end.

(** [s[:i]] and [s[i:]] *)
Fixpoint take (i : nat) (s : string) : string :=
  match i, s with
  | S i', String a s' => String a (take i' s')
  | _, _ => ""
  end.

Fixpoint drop (i : nat) (s : string) : string :=
  match i, s with
  | S i', String _ s' => drop i' s'
  | _, _ => s
  end.

(** [s.split(c)] *)
Fixpoint split (c : ascii) (s : string) : list string :=
  match s with
  | "" => [""]
  | String a s' =>
      if decide (a = c) then "" :: split c s'
      else match split c s' with
           | h :: t => String a h :: t
           | [] => [String a ""]
           end
  end.

(** [sep.join(l)] *)
Fixpoint join (sep : string) (l : list string) : string :=
  match l with
  | [] => ""
  | [x] => x
  | x :: r => x +:+ sep +:+ join sep r
  end.


Definition startswith (s t : string) : bool :=
  bool_decide (take (String.length t) s = t).

(** Every character of [s] satisfies [P]. *)
Fixpoint all (P : ascii → bool) (s : string) : bool :=
  match s with
  | "" => true
  | String a s' => P a && all P s'
  end.

Definition is_digit (a : ascii) : bool :=
  let n := nat_of_ascii a in (48 <=? n)%nat && (n <=? 57)%nat.

End Str.

(** ** [utils/file_utils.py]: sanitising a file name *)

(** The literal of [sanitize_filename]: less-than, bar, greater-than, colon,
    double quote, slash, backslash, bar (a second time), question mark,
    star. *)
Definition invalid_chars : string :=
  "<|>:" +:+ String "034"%char "/\|?*".

Definition sanitize_filename (filename : string) (replace_chars : string) : string :=
  (* for char in invalid_chars: filename = filename.replace(char, replace_chars) *)
  let filename :=
    fold_left (λ f char, Str.replace char replace_chars f)
              (list_ascii_of_string invalid_chars) filename in
  (* filename = filename.strip(' .') *)
  let filename := Str.strip " ." filename in
  (* if not filename: filename = "unnamed_file" *)
  if decide (filename = "") then "unnamed_file" else filename.

(** ** [pathlib]: pure paths *)

Module Pathlib.

(** A POSIX path: whether it starts at the root, and its components
    from the outermost directory to the final name. *)
Record Path := mkPath { anchored : bool; parts : list string }.

Global Instance Path_eq_dec : EqDecision Path.
Proof. solve_decision. Defined.

Global Instance Path_countable : Countable Path.
Proof.
  apply (inj_countable' (λ p, (anchored p, parts p))
                        (λ ap, mkPath ap.1 ap.2)).
  by intros [].
Defined.

Definition is_component (s : string) : bool :=
  negb (bool_decide (s = "")) && negb (bool_decide (s = ".")).

(** [Path(s)]: empty and single-dot components are dropped. *)
Definition of_str (s : string) : Path :=
  mkPath (match s with String "/" _ => true | _ => false end)
         (filter (λ c, is_component c = true) (Str.split "/" s)).

(** [str(p)] *)
Definition to_str (p : Path) : string :=
  match parts p with
  | [] => if anchored p then "/" else "."
  | ps => (if anchored p then "/" else "") +:+ Str.join "/" ps
  end.

(** [p / s] *)
Definition joinpath (p : Path) (s : string) : Path :=
  let q := of_str s in
  if anchored q then q else mkPath (anchored p) (parts p ++ parts q).

(** [p.name] *)
Definition name (p : Path) : string := List.last (parts p) "".

(** [p.parent] *)
Definition parent (p : Path) : Path :=
  mkPath (anchored p) (removelast (parts p)).

(** The index at which [p.suffix] starts: [i = name.rfind('.')] when
    [0 < i < len(name) - 1]. *)
Definition suffix_index (n : string) : option nat :=
  match Str.rfind "." n with
  | Some i =>
      if (0 <? i)%nat && (i <? String.length n - 1)%nat then Some i else None
  | None => None
  end.

(** [p.suffix] *)
Definition suffix (p : Path) : string :=
  match suffix_index (name p) with
  | Some i => Str.drop i (name p)
  | None => ""
  end.

(** [p.stem] *)
Definition stem (p : Path) : string :=
  match suffix_index (name p) with
  | Some i => Str.take i (name p)
  | None => name p
  end.

(** The invariant of a [Path] value: no component is empty, a single
    dot, or contains a slash. *)
Definition wf (p : Path) : Prop :=
  Forall (λ c, is_component c = true ∧ Str.mem "/" c = false) (parts p).

End Pathlib.
Export Pathlib (Path, mkPath).
Notation "p // s" := (Pathlib.joinpath p s) (at level 40, left associativity).

(** ** Configuration and metadata *)

(** [config['supported_formats']] occurs in two shapes in the repository:
    the flat list of [utils/config.py], and the mapping from a kind to
    its extensions that [FileRenamer] and [MetadataHandler] read. *)
Inductive Formats :=
  | FmtList (exts : list string)
  | FmtDict (kinds : gmap string (list string)).

(** The keys of the configuration dictionary that the modelled code
    reads; [None] is an absent key. *)
Record Config := mkConfig {
  cfg_backup_enabled : option bool;            (* config['backup_enabled'] *)
  cfg_update_metadata : option bool;           (* config['update_metadata'] *)
  cfg_processing_backup_enabled : option bool; (* config['processing']['backup_enabled'] *)
  cfg_processing_backup_directory : option string;
  cfg_naming_audio_pattern : option string;    (* config['naming']['audio_pattern'] *)
  cfg_naming_video_pattern : option string;
  cfg_supported_formats : option Formats;
}.

(** A metadata value, as far as [str.format] looks at it: a string, an
    integer, or anything else given by its [str()]. *)
Inductive Value :=
  | VStr (s : string)
  | VInt (n : Z)
  | VOther (shown : string).

Global Instance Value_eq_dec : EqDecision Value.
Proof. solve_decision. Defined.

Definition py_str (v : Value) : string :=
  match v with
  | VStr s => s
  | VInt n => pretty n
  | VOther shown => shown
  end.

Abbreviation Metadata := (gmap string Value).

(** [x in config.get('supported_formats', [])]: membership in a list, or
    among the keys of a mapping. *)
Definition in_formats (x : string) (fmts : option Formats) : bool :=
  match fmts with
  | None => false
  | Some (FmtList exts) => bool_decide (x ∈ exts)
  | Some (FmtDict kinds) => bool_decide (is_Some (kinds !! x))
  end.

(** [config.get('supported_formats', {}).get(kind, [])]; a list has no
    [get]. *)
Definition formats_of_kind (cfg : Config) (kind : string) : Exc (list string) :=
  match cfg_supported_formats cfg with
  | None => Ret []
  | Some (FmtDict kinds) => Ret (default [] (kinds !! kind))
  | Some (FmtList _) => Raise AttributeError
  end.

(** ** [str.format] with keyword arguments only *)

(** The pieces of a format string, read from left to right.  Python
    reports a malformed replacement field when it reaches it, so the
    scan ends in [Bad] at the first such field. *)
Inductive FmtItem :=
  | Lit (c : ascii)
  | Field (key : string)
  | Bad (e : PyErr).

(** A replacement field [{key}]: an empty or all-digit name is a
    positional index, and there are no positional arguments. *)
Definition field_item (key : string) : FmtItem :=
  if Str.all Str.is_digit key then Bad IndexError else Field key.

(** [cur] is [Some acc] inside a replacement field, with [acc] the
    characters of the field name read so far.  Doubled braces are
    literal braces.  Conversions, format specifications, attribute and
    index lookups are outside the embedding. *)
Fixpoint fmt_scan (s : string) (cur : option string) : list FmtItem :=
  match cur, s with
  | None, "" => []
  | None, String c r =>
      if decide (c = "{"%char) then
        match r with
        | String "{" r' => Lit "{" :: fmt_scan r' None
        | _ => fmt_scan r (Some "")
        end
      else if decide (c = "}"%char) then
        match r with
        | String "}" r' => Lit "}" :: fmt_scan r' None
        | _ => [Bad ValueError]
        end
      else Lit c :: fmt_scan r None
  | Some acc, "" => [Bad ValueError]
  | Some acc, String c r =>
      if decide (c = "}"%char) then field_item acc :: fmt_scan r None
      else if decide (c = "{"%char) then [Bad ValueError]
      else if Str.mem c "!:.[" then [Bad Unmodelled]
      else fmt_scan r (Some (acc +:+ String c ""))
  end.

Fixpoint fmt_render (md : Metadata) (items : list FmtItem) : Exc string :=
  match items with
  | [] => Ret ""
  | Lit c :: r => s ← fmt_render md r; mret (String c s)
  | Field key :: r =>
      match md !! key with
      | None => Raise (KeyError key)
      | Some v => s ← fmt_render md r; mret (py_str v +:+ s)
      end
  | Bad e :: _ => Raise e
  end.

(** [pattern.format] applied to the metadata as keyword arguments. *)
Definition str_format (pattern : string) (md : Metadata) : Exc string :=
  fmt_render md (fmt_scan pattern None).

(** The placeholders of a pattern made of text and [{key}] fields only. *)
Fixpoint item_keys (items : list FmtItem) : option (list string) :=
  match items with
  | [] => Some []
  | Lit _ :: r => item_keys r
  | Field key :: r => ks ← item_keys r; Some (key :: ks)
  | Bad _ :: _ => None
  end.

Definition placeholders (pattern : string) : option (list string) :=
  item_keys (fmt_scan pattern None).

(** ** Stateful computations that may raise *)

(** The outcome of running a piece of code from a state: a value or an
    exception, and in both cases the state that the code left behind. *)
Inductive Res (S A : Type) :=
  | Done (a : A) (s : S)
  | Fail (e : PyErr) (s : S).
Arguments Done {S A} a s.
Arguments Fail {S A} e s.

Definition M (S A : Type) : Type := S → Res S A.

Global Instance M_ret {S} : MRet (M S) := λ A a s, Done a s.
Global Instance M_bind {S} : MBind (M S) := λ A B k m s,
  match m s with
  | Done a s' => k a s'
  | Fail e s' => Fail e s'
  end.

Definition raise {S A} (e : PyErr) : M S A := λ s, Fail e s.

(** [try: m  except Exception as e: handler e] *)
Definition try_except {S A} (m : M S A) (handler : PyErr → M S A) : M S A :=
  λ s, match m s with
       | Done a s' => Done a s'
       | Fail e s' => handler e s'
       end.

Definition gets {S A} (f : S → A) : M S A := λ s, Done (f s) s.
Definition modify {S} (f : S → S) : M S unit := λ s, Done tt (f s).

Definition lift_exc {S A} (x : Exc A) : M S A :=
  match x with
  | Ret a => mret a
  | Raise e => raise e
  end.

(** Run a computation on a component of the state. *)
Definition zoom {S T A} (get : T → S) (set : S → T → T) (m : M S A) : M T A :=
  λ t, match m (get t) with
       | Done a s => Done a (set s t)
       | Fail e s => Fail e (set s t)
       end.

Definition res_state {S A} (r : Res S A) : S :=
  match r with Done _ s => s | Fail _ s => s end.

(** ** The file system and the clock *)

Inductive Kind :=
  | KFile (data : string)
  | KDir.

(** Modification times are whole numbers (the source compares the
    floating-point seconds of [st_mtime] and [timestamp()]). *)
Record Node := mkNode { n_kind : Kind; n_mtime : Z }.

(** One reading of [datetime.now()], seen through the three methods the
    code calls on it. *)
Record Instant := mkInstant {
  i_epoch : Z;        (* .timestamp() *)
  i_stamp : string;   (* .strftime of year, month, day, hour, minute, second *)
  i_iso : string;     (* .isoformat() *)
}.

(** The world outside the program.  [w_nodes] lists every file and every
    directory, the root and the working directory included; a relative
    path lives under its own anchor.  [w_denied] holds the paths on which
    the operating system refuses to open, create, move or remove.
    [w_clock] gives the successive readings of the clock and [w_reads]
    counts the readings taken so far.  [w_readonly] holds the files whose
    permission bits forbid writing: such a file can be read, moved and
    removed, but not opened for writing, and a copy made by
    [shutil.copy2] inherits the bits.

    Two things are left out.  The modification time of a directory is
    the time at which it was made: it is not brought up to date when an
    entry is made or removed in it (the code reads it in one place,
    [cleanup_old_backups], where the outcome does not depend on it), so a
    property may rely on the modification time of a file only.  A call
    either takes effect as a whole or fails without a trace. *)
Record World := mkWorld {
  w_nodes : gmap Path Node;
  w_denied : gset Path;
  w_clock : nat → Instant;
  w_reads : nat;
  w_readonly : gset Path;
}.

Module Fs.

Definition set_nodes (f : gmap Path Node → gmap Path Node) (w : World) : World :=
  mkWorld (f (w_nodes w)) (w_denied w) (w_clock w) (w_reads w) (w_readonly w).

Definition set_readonly (f : gset Path → gset Path) (w : World) : World :=
  mkWorld (w_nodes w) (w_denied w) (w_clock w) (w_reads w) (f (w_readonly w)).

(** [p.exists()], [p.is_file()], [p.is_dir()] *)
Definition path_exists (w : World) (p : Path) : bool :=
  bool_decide (is_Some (w_nodes w !! p)).

Definition is_file (w : World) (p : Path) : bool :=
  match w_nodes w !! p with
  | Some (mkNode (KFile _) _) => true
  | _ => false
  end.

Definition is_dir (w : World) (p : Path) : bool :=
  match w_nodes w !! p with
  | Some (mkNode KDir _) => true
  | _ => false
  end.

Definition file_data (w : World) (p : Path) : option string :=
  match w_nodes w !! p with
  | Some (mkNode (KFile data) _) => Some data
  | _ => None
  end.

(** The time now, without taking a reading. *)
Definition current_time (w : World) : Z := i_epoch (w_clock w (w_reads w)).

(** [datetime.now()] *)
Definition now : M World Instant :=
  λ w, Done (w_clock w (w_reads w))
            (mkWorld (w_nodes w) (w_denied w) (w_clock w) (S (w_reads w))
                     (w_readonly w)).

(** [p.stat().st_size], for a regular file. *)
Definition stat_size (p : Path) : M World Z :=
  λ w, match w_nodes w !! p with
       | Some (mkNode (KFile data) _) => Done (Z.of_nat (String.length data)) w
       | Some (mkNode KDir _) => Fail Unmodelled w
       | None => Fail FileNotFoundError w
       end.

(** [p.stat().st_mtime] *)
Definition stat_mtime (p : Path) : M World Z :=
  λ w, match w_nodes w !! p with
       | Some n => Done (n_mtime n) w
       | None => Fail FileNotFoundError w
       end.

(** [open(p, 'rb').read()] *)
Definition read_bytes (p : Path) : M World string :=
  λ w, match w_nodes w !! p with
       | Some (mkNode (KFile data) _) =>
           if decide (p ∈ w_denied w) then Fail PermissionError w
           else Done data w
       | Some (mkNode KDir _) => Fail IsADirectoryError w
       | None => Fail FileNotFoundError w
       end.

(** Checks shared by every call that creates or replaces the entry [p]. *)
Definition check_target (w : World) (p : Path) : option PyErr :=
  if is_dir w p then Some IsADirectoryError
  else if negb (is_dir w (Pathlib.parent p)) then
    Some (if is_file w (Pathlib.parent p) then NotADirectoryError
          else FileNotFoundError)
  else if decide (p ∈ w_denied w) then Some PermissionError
  else None.

(** The checks of a call that opens [p] for writing: a file that is
    there must not be read-only. *)
Definition check_write (w : World) (p : Path) : option PyErr :=
  match check_target w p with
  | Some e => Some e
  | None =>
      if is_file w p && bool_decide (p ∈ w_readonly w) then Some PermissionError
      else None
  end.

(** [open(p, 'w').write(data)]; a file that is made gets the default
    permission bits. *)
Definition write_text (p : Path) (data : string) : M World unit :=
  λ w, match check_write w p with
       | Some e => Fail e w
       | None =>
           Done tt (set_readonly (λ ro, ro ∖ {[p]})
                      (set_nodes <[p := mkNode (KFile data) (current_time w)]> w))
       end.

(** [p.unlink()] *)
Definition unlink (p : Path) : M World unit :=
  λ w, match w_nodes w !! p with
       | Some (mkNode (KFile _) _) =>
           if decide (p ∈ w_denied w) then Fail PermissionError w
           else Done tt (set_readonly (λ ro, ro ∖ {[p]}) (set_nodes (delete p) w))
       | Some (mkNode KDir _) => Fail IsADirectoryError w
       | None => Fail FileNotFoundError w
       end.

(** The permission bits of [src] given to [dst]. *)
Definition copy_mode (src dst : Path) (ro : gset Path) : gset Path :=
  if decide (src ∈ ro) then ro ∪ {[dst]} else ro ∖ {[dst]}.

(** [shutil.copy2(src, dst)]: into [dst] when it is a directory; the
    content, the modification time and the permission bits are copied. *)
Definition copy2 (src dst : Path) : M World unit :=
  λ w, match w_nodes w !! src with
       | Some (mkNode (KFile data) mtime) =>
           let target :=
             if is_dir w dst then (dst // Pathlib.name src) else dst in
           if decide (target = src) then Fail SameFileError w
           else if decide (src ∈ w_denied w) then Fail PermissionError w
           else match check_write w target with
                | Some e => Fail e w
                | None =>
                    Done tt (set_readonly (copy_mode src target)
                               (set_nodes <[target := mkNode (KFile data) mtime]> w))
                end
       | Some (mkNode KDir _) => Fail IsADirectoryError w
       | None => Fail FileNotFoundError w
       end.

(** [q] is [d] or lies below it. *)
Definition within (d q : Path) : bool :=
  bool_decide (Pathlib.anchored d = Pathlib.anchored q)
  && bool_decide (Pathlib.parts d `prefix_of` Pathlib.parts q).

(** The place of [q], an entry of the tree at [src], once the tree is at
    [dst]. *)
Definition rebase (src dst q : Path) : Path :=
  mkPath (Pathlib.anchored dst)
         (Pathlib.parts dst ++ drop (length (Pathlib.parts src)) (Pathlib.parts q)).

Definition move_tree (src dst : Path) (m : gmap Path Node) : gmap Path Node :=
  list_to_map (prod_map (rebase src dst) id
                 <$> filter (λ kv, within src kv.1 = true) (map_to_list m))
  ∪ filter (λ kv, within src kv.1 = false) m.

Definition move_paths (src dst : Path) (X : gset Path) : gset Path :=
  set_map (rebase src dst) (filter (λ q, within src q = true) X)
  ∪ filter (λ q, within src q = false) X.

(** The directory [d] has an entry. *)
Definition has_entries (w : World) (d : Path) : bool :=
  existsb (λ q, within d q && negb (bool_decide (q = d))) (map_to_list (w_nodes w)).*1.

(** [src.rename(dst)], that is [os.rename(src, dst)].  A file replaces
    the file at [dst], if there is one, and keeps its permission bits.  A
    directory goes to [dst] with all that is below it; [dst] must then be
    free, or an empty directory, and must not lie in [src]. *)
Definition rename (src dst : Path) : M World unit :=
  λ w, match w_nodes w !! src with
       | Some (mkNode (KFile data) mtime) =>
           if decide (src ∈ w_denied w) then Fail PermissionError w
           else match check_target w dst with
                | Some e => Fail e w
                | None =>
                    Done tt (set_readonly (λ ro, copy_mode src dst ro ∖ ({[src]} ∖ {[dst]}))
                               (set_nodes (λ m, <[dst := mkNode (KFile data) mtime]>
                                                  (delete src m)) w))
                end
       | Some (mkNode KDir _) =>
           if decide (src ∈ w_denied w) then Fail PermissionError w
           else if decide (dst = src) then Done tt w
           else if negb (is_dir w (Pathlib.parent dst)) then
             Fail (if is_file w (Pathlib.parent dst) then NotADirectoryError
                   else FileNotFoundError) w
           else if within src dst then Fail (OSError "[Errno 22] Invalid argument") w
           else if is_file w dst then Fail NotADirectoryError w
           else if is_dir w dst && has_entries w dst then
             Fail (OSError "[Errno 39] Directory not empty") w
           else if decide (dst ∈ w_denied w) then Fail PermissionError w
           else Done tt (mkWorld (move_tree src dst (w_nodes w))
                                 (move_paths src dst (w_denied w))
                                 (w_clock w) (w_reads w)
                                 (move_paths src dst (w_readonly w)))
       | None => Fail FileNotFoundError w
       end.

(** [os.mkdir(p)] *)
Definition os_mkdir (p : Path) : M World unit :=
  λ w, if path_exists w p then Fail FileExistsError w
       else if decide (Pathlib.parts p = []) then Fail FileNotFoundError w
       else if is_file w (Pathlib.parent p) then Fail NotADirectoryError w
       else if negb (is_dir w (Pathlib.parent p)) then Fail FileNotFoundError w
       else if decide (p ∈ w_denied w) then Fail PermissionError w
       else Done tt (set_nodes <[p := mkNode KDir (current_time w)]> w).

(** [p.mkdir(parents=False, exist_ok=True)] *)
Definition mkdir_exist_ok (p : Path) : M World unit :=
  try_except (os_mkdir p) (λ e,
    match e with
    | FileNotFoundError => raise e
    | _ => λ w, if is_dir w p then Done tt w else Fail e w
    end).

(** [p.mkdir(parents=True, exist_ok=True)], for the path whose
    components are [rev up_parts]: a missing parent is created first,
    by the same call on the parent. *)
Fixpoint mkdir_rev (anchored : bool) (up_parts : list string) : M World unit :=
  let p := mkPath anchored (rev up_parts) in
  try_except (os_mkdir p) (λ e,
    match e, up_parts with
    | FileNotFoundError, _ :: up =>
        _ ← mkdir_rev anchored up; mkdir_exist_ok p
    | FileNotFoundError, [] => raise e
    | _, _ => λ w, if is_dir w p then Done tt w else Fail e w
    end).

Definition mkdir_parents (p : Path) : M World unit :=
  mkdir_rev (Pathlib.anchored p) (rev (Pathlib.parts p)).

End Fs.

(** ** [utils/file_utils.py]: a name that is not taken *)

(** The candidate that [get_unique_filename] tries at [counter]. *)
Definition unique_candidate (file_path : Path) (counter : nat) : Path :=
  let stem := Pathlib.stem file_path in
  let suffix := Pathlib.suffix file_path in
  let parent := Pathlib.parent file_path in
  let new_name := stem +:+ "_" +:+ pretty counter +:+ suffix in
  parent // new_name.

(** The [while True] loop, for at most [fuel] rounds. *)
Fixpoint unique_loop (w : World) (file_path : Path) (fuel counter : nat) : option Path :=
  match fuel with
  | O => None
  | S fuel' =>
      let new_path := unique_candidate file_path counter in
      if negb (Fs.path_exists w new_path) then Some new_path
      else unique_loop w file_path fuel' (S counter)
  end.

(** [None] stands for a loop that has not returned within [fuel] rounds. *)
Definition get_unique_filename_fuel (fuel : nat) (w : World) (file_path : Path) : option Path :=
  if negb (Fs.path_exists w file_path) then Some file_path
  else unique_loop w file_path fuel 1.

(** One round more than there are entries in the file system is enough
    (see [get_unique_filename_total]). *)
Definition get_unique_filename (w : World) (file_path : Path) : option Path :=
  get_unique_filename_fuel (S (size (w_nodes w))) w file_path.

(** ** [core/file_renamer.py]: the file name generator *)

Module FileRenamer.

Definition _is_audio (cfg : Config) (file_path : Path) : Exc bool :=
  exts ← formats_of_kind cfg "audio";
  mret (bool_decide (Str.lower (Pathlib.suffix file_path) ∈ exts)).

Definition _is_video (cfg : Config) (file_path : Path) : Exc bool :=
  exts ← formats_of_kind cfg "video";
  mret (bool_decide (Str.lower (Pathlib.suffix file_path) ∈ exts)).

Definition audio_pattern (cfg : Config) : string :=
  default "{artist} - {title}" (cfg_naming_audio_pattern cfg).

Definition video_pattern (cfg : Config) : string :=
  default "{title} ({year})" (cfg_naming_video_pattern cfg).

(** The body of [generate_filename] once the pattern is chosen: only a
    [KeyError] is caught. *)
Definition fill_pattern (pattern : string) (file_path : Path) (md : Metadata) : Exc string :=
  match str_format pattern md with
  | Ret new_name =>
      Ret (sanitize_filename (new_name +:+ Pathlib.suffix file_path) "_")
  | Raise (KeyError _) => Ret (Pathlib.name file_path)
  | Raise e => Raise e
  end.

Definition generate_filename (cfg : Config) (file_path : Path) (md : Metadata) : Exc string :=
  a ← _is_audio cfg file_path;
  if a : bool then fill_pattern (audio_pattern cfg) file_path md
  else
    v ← _is_video cfg file_path;
    if v : bool then fill_pattern (video_pattern cfg) file_path md
    else Ret (Pathlib.name file_path).

Definition rename_file (old_path : Path) (new_name : string) : M World Path :=
  let new_path := Pathlib.parent old_path // new_name in
  new_path ← (λ w, match get_unique_filename w new_path with
                   | Some q => Done q w
                   | None => Fail Unmodelled w
                   end);
  _ ← Fs.rename old_path new_path;
  mret new_path.

End FileRenamer.

(** ** [media/format_detector.py] and [core/validator.py] *)

Module FormatDetector.
Section WithSniffers.

(** The verdict of [detect_format] followed by
    [_validate_format_specific] (mimetypes, magic, mutagen, ffmpeg) on a
    readable, non-empty file. *)
Variable format_ok : Path → string → bool.

(** [validate_file], without the list of reasons that comes with the
    verdict.  It catches every exception. *)
Definition validate_file (file_path : Path) : M World bool :=
  gets (λ w,
    if negb (Fs.path_exists w file_path) then false
    else if negb (Fs.is_file w file_path) then false
    else match Fs.file_data w file_path with
         | Some data =>
             if decide (String.length data = 0%nat) then false
             else if decide (file_path ∈ w_denied w) then false
             else format_ok file_path data
         | None => false
         end).

End WithSniffers.
End FormatDetector.

Module FileValidator.

Definition validate_file (format_ok : Path → string → bool) (file_path : Path)
  : M World bool :=
  FormatDetector.validate_file format_ok file_path.

End FileValidator.

(** ** [media/audio_processor.py] and [media/video_processor.py] *)

Module AudioProcessor.
Section WithMutagen.

(** [mutagen]: the tags read from a file, and the content of the file
    after the tags are written ([None] when that fails). *)
Variable audio_tags : Path → string → Metadata.
Variable audio_retag : Path → string → Metadata → option string.

(** Both methods catch every exception. *)
Definition extract_metadata (file_path : Path) : M World Metadata :=
  try_except (data ← Fs.read_bytes file_path; mret (audio_tags file_path data))
             (λ _, mret ∅).

Definition update_metadata (file_path : Path) (md : Metadata) : M World bool :=
  try_except
    (data ← Fs.read_bytes file_path;
     match audio_retag file_path data md with
     | Some data' => _ ← Fs.write_text file_path data'; mret true
     | None => mret false
     end)
    (λ _, mret false).

End WithMutagen.
End AudioProcessor.

Module VideoProcessor.

Definition extract_metadata (file_path : Path) : M World Metadata := mret ∅.

Definition update_metadata (file_path : Path) (md : Metadata) : M World bool :=
  mret false.

End VideoProcessor.

(** ** [core/metadata_handler.py]: dispatch on the kind of a file *)

Module MetadataHandler.
Section WithMutagen.

Variable audio_tags : Path → string → Metadata.
Variable audio_retag : Path → string → Metadata → option string.

Definition _is_audio (cfg : Config) (file_path : Path) : Exc bool :=
  exts ← formats_of_kind cfg "audio";
  mret (bool_decide (Str.lower (Pathlib.suffix file_path) ∈ exts)).

Definition _is_video (cfg : Config) (file_path : Path) : Exc bool :=
  exts ← formats_of_kind cfg "video";
  mret (bool_decide (Str.lower (Pathlib.suffix file_path) ∈ exts)).

Definition extract_metadata (cfg : Config) (file_path : Path) : M World Metadata :=
  a ← lift_exc (_is_audio cfg file_path);
  if a : bool then AudioProcessor.extract_metadata audio_tags file_path
  else
    v ← lift_exc (_is_video cfg file_path);
    if v : bool then VideoProcessor.extract_metadata file_path else mret ∅.

Definition update_metadata (cfg : Config) (file_path : Path) (md : Metadata)
  : M World bool :=
  a ← lift_exc (_is_audio cfg file_path);
  if a : bool then AudioProcessor.update_metadata audio_retag file_path md
  else
    v ← lift_exc (_is_video cfg file_path);
    if v : bool then VideoProcessor.update_metadata file_path md else mret false.

End WithMutagen.
End MetadataHandler.

(** ** The backup ledger *)

(** A JSON value of the ledger file. *)
Inductive JVal :=
  | JStr (s : string)
  | JNum (n : Z)
  | JNull.

Global Instance JVal_eq_dec : EqDecision JVal.
Proof. solve_decision. Defined.

Abbreviation Entry := (gmap string JVal).

(** The state that a [BackupManager] works on: the world and its own
    [backup_metadata] list. *)
Record Store := mkStore {
  st_world : World;
  st_backup_metadata : list Entry;
}.

Definition in_world {A} (m : M World A) : M Store A :=
  zoom st_world (λ w st, mkStore w (st_backup_metadata st)) m.

Definition set_backup_metadata (l : list Entry) : M Store unit :=
  modify (λ st, mkStore (st_world st) l).

(** [l.remove(x)]: the first equal element goes; [ValueError] when there
    is none. *)
Fixpoint list_remove (x : Entry) (l : list Entry) : option (list Entry) :=
  match l with
  | [] => None
  | y :: r => if decide (y = x) then Some r
              else (y ::.) <$> list_remove x r
  end.

Module BackupManager.
Section WithCodecs.

(** [hashlib.md5(data).hexdigest()], [json.dumps] and [json.loads]. *)
Variable md5_hexdigest : string → string.
Variable json_dump : list Entry → string.
Variable json_load : string → option (list Entry).

(** The attributes set once by [__init__]. *)
Record t := mk {
  backup_dir : Path;
  backup_enabled : bool;
  metadata_file : Path;
}.

Global Instance t_eq_dec : EqDecision t.
Proof. solve_decision. Defined.

Definition _load_backup_metadata (metadata_file : Path) : M World (list Entry) :=
  exists_ ← gets (λ w, Fs.path_exists w metadata_file);
  if exists_ : bool then
    try_except
      (text ← Fs.read_bytes metadata_file;
       match json_load text with
       | Some l => mret l
       | None => raise ValueError
       end)
      (λ _, mret [])
  else mret [].

Definition __init__ (cfg : Config) : M Store t :=
  let backup_dir :=
    Pathlib.of_str (default "./backups" (cfg_processing_backup_directory cfg)) in
  let backup_enabled := default true (cfg_processing_backup_enabled cfg) in
  (* Ensure backup directory exists *)
  _ ← (if backup_enabled then in_world (Fs.mkdir_parents backup_dir) else mret tt);
  let metadata_file := backup_dir // "backup_metadata.json" in
  l ← in_world (_load_backup_metadata metadata_file);
  _ ← set_backup_metadata l;
  mret (mk backup_dir backup_enabled metadata_file).

Definition _save_backup_metadata (self : t) : M Store unit :=
  try_except
    (l ← gets st_backup_metadata;
     in_world (Fs.write_text (metadata_file self) (json_dump l)))
    (λ _, mret tt).

Definition _calculate_file_hash (file_path : Path) : M World (option string) :=
  try_except
    (data ← Fs.read_bytes file_path; mret (Some (md5_hexdigest data)))
    (λ _, mret None).

(** The dictionary literal of [_add_backup_entry]. *)
Definition new_entry (original_path backup_path : Path) (created_at : Instant)
    (file_size : Z) (file_hash : option string) : Entry :=
  {[ "original_path" := JStr (Pathlib.to_str original_path);
     "backup_path" := JStr (Pathlib.to_str backup_path);
     "created_at" := JStr (i_iso created_at);
     "file_size" := JNum file_size;
     "file_hash" := from_option JStr JNull file_hash ]}.

Definition _add_backup_entry (self : t) (original_path backup_path : Path) : M Store unit :=
  created_at ← in_world Fs.now;
  file_size ← in_world (Fs.stat_size original_path);
  file_hash ← in_world (_calculate_file_hash original_path);
  let entry := new_entry original_path backup_path created_at file_size file_hash in
  l ← gets st_backup_metadata;
  _ ← set_backup_metadata (l ++ [entry]);
  _save_backup_metadata self.

Definition create_backup (self : t) (file_path : Path) : M Store (option Path) :=
  if negb (backup_enabled self) then mret None
  else
    try_except
      (timestamp ← in_world Fs.now;
       let backup_filename :=
         Pathlib.stem file_path +:+ "_" +:+ i_stamp timestamp
           +:+ Pathlib.suffix file_path in
       let backup_path := backup_dir self // backup_filename in
       _ ← in_world (Fs.copy2 file_path backup_path);
       _ ← _add_backup_entry self file_path backup_path;
       mret (Some backup_path))
      (λ _, mret None).

(** [Path(entry[key])] *)
Definition entry_path (entry : Entry) (key : string) : Exc Path :=
  match entry !! key with
  | Some (JStr s) => Ret (Pathlib.of_str s)
  | Some _ => Raise TypeError
  | None => Raise (KeyError key)
  end.

Fixpoint _get_original_path (l : list Entry) (backup_path : Path) : Exc (option Path) :=
  match l with
  | [] => Ret None
  | entry :: r =>
      if decide (entry !! "backup_path" = Some (JStr (Pathlib.to_str backup_path)))
      then p ← entry_path entry "original_path"; mret (Some p)
      else _get_original_path r backup_path
  end.

Definition restore_backup (self : t) (backup_path : Path) (restore_path : option Path)
  : M Store bool :=
  try_except
    (l ← gets st_backup_metadata;
     original_path ← lift_exc (_get_original_path l backup_path);
     match original_path with
     | None => mret false
     | Some original_path =>
         let restore_path := default original_path restore_path in
         _ ← in_world (Fs.mkdir_parents (Pathlib.parent restore_path));
         _ ← in_world (Fs.copy2 backup_path restore_path);
         mret true
     end)
    (λ _, mret false).

Definition list_backups (file_path : option Path) : M Store (list Entry) :=
  l ← gets st_backup_metadata;
  match file_path with
  | Some p =>
      mret (filter (λ entry : Entry,
                      entry !! "original_path" = Some (JStr (Pathlib.to_str p))) l)
  | None => mret l
  end.

(** The body of the loop of [cleanup_old_backups], for one entry. *)
Definition cleanup_entry (cutoff_time : Z) (entry : Entry) (removed_count : nat)
  : M Store nat :=
  backup_path ← lift_exc (entry_path entry "backup_path");
  exists_ ← gets (λ st, Fs.path_exists (st_world st) backup_path);
  if exists_ : bool then
    mtime ← in_world (Fs.stat_mtime backup_path);
    if (mtime <? cutoff_time)%Z then
      try_except
        (_ ← in_world (Fs.unlink backup_path);
         l ← gets st_backup_metadata;
         match list_remove entry l with
         | Some l' => _ ← set_backup_metadata l'; mret (S removed_count)
         | None => raise ValueError
         end)
        (λ _, mret removed_count)
    else mret removed_count
  else mret removed_count.

(** The loop over the copy [backup_metadata[:]]. *)
Fixpoint cleanup_loop (cutoff_time : Z) (entries : list Entry) (removed_count : nat)
  : M Store nat :=
  match entries with
  | [] => mret removed_count
  | entry :: r =>
      removed_count ← cleanup_entry cutoff_time entry removed_count;
      cleanup_loop cutoff_time r removed_count
  end.

Definition cleanup_old_backups (self : t) (max_age_days : Z) : M Store nat :=
  if negb (backup_enabled self) then mret 0%nat
  else
    now ← in_world Fs.now;
    let cutoff_time := (i_epoch now - max_age_days * 24 * 3600)%Z in
    snapshot ← gets st_backup_metadata;
    removed_count ← cleanup_loop cutoff_time snapshot 0%nat;
    _ ← _save_backup_metadata self;
    mret removed_count.

End WithCodecs.

Global Arguments new_entry : simpl never.

End BackupManager.

(** ** [core/file_processor.py] and its collaborators *)

Record ProcessingResult := mkResult {
  success : bool;
  original_path : Path;
  new_path : option Path;
  metadata : Metadata;
  errors : list string;
  warnings : list string;
}.

(** The state of one run of [process_file]: the store, and the result
    object that the steps fill in place. *)
Record Proc := mkProc {
  pr_store : Store;
  pr_result : ProcessingResult;
}.

Definition in_store {A} (m : M Store A) : M Proc A :=
  zoom pr_store (λ st p, mkProc st (pr_result p)) m.

Definition io {A} (m : M World A) : M Proc A := in_store (in_world m).

Definition update_result (f : ProcessingResult → ProcessingResult) : M Proc unit :=
  modify (λ p, mkProc (pr_store p) (f (pr_result p))).

(** [result.errors.append(msg)] and the other updates of the result. *)
Definition add_error (msg : string) : M Proc unit :=
  update_result (λ r, mkResult (success r) (original_path r) (new_path r)
                               (metadata r) (errors r ++ [msg]) (warnings r)).
Definition add_warning (msg : string) : M Proc unit :=
  update_result (λ r, mkResult (success r) (original_path r) (new_path r)
                               (metadata r) (errors r) (warnings r ++ [msg])).
Definition set_metadata (md : Metadata) : M Proc unit :=
  update_result (λ r, mkResult (success r) (original_path r) (new_path r)
                               md (errors r) (warnings r)).
Definition set_new_path (p : Path) : M Proc unit :=
  update_result (λ r, mkResult (success r) (original_path r) (Some p)
                               (metadata r) (errors r) (warnings r)).
Definition set_success : M Proc unit :=
  update_result (λ r, mkResult true (original_path r) (new_path r)
                               (metadata r) (errors r) (warnings r)).

Module FileProcessor.
Section WithCollaborators.

(** The collaborators that are not part of the repository: the format
    sniffers, mutagen, MD5 and the JSON codec. *)
Variable format_ok : Path → string → bool.
Variable audio_tags : Path → string → Metadata.
Variable audio_retag : Path → string → Metadata → option string.
Variable md5_hexdigest : string → string.
Variable json_dump : list Entry → string.
Variable json_load : string → option (list Entry).

(** The attributes of a [FileProcessor]. *)
Record t := mk {
  config : Config;
  backup_manager : BackupManager.t;
}.

(** The collaborators are made in the order validator, metadata handler,
    renamer, backup manager; [AudioProcessor.__init__] reads the audio
    extensions, which raises when [supported_formats] is a list. *)
Definition __init__ (cfg : Config) : M Store t :=
  _ ← lift_exc (formats_of_kind cfg "audio");
  bm ← BackupManager.__init__ json_load cfg;
  mret (mk cfg bm).

(** The body of the [try] block of [process_file]. *)
Definition process_file_steps (self : t) (file_path : Path) : M Proc unit :=
  let cfg := config self in
  (* Step 1: Validate file *)
  valid ← io (FileValidator.validate_file format_ok file_path);
  if negb valid then add_error "File validation failed"
  else
    (* Step 2: Create backup *)
    _ ← (if default true (cfg_backup_enabled cfg) then
           backup_path ← in_store
             (BackupManager.create_backup md5_hexdigest json_dump
                (backup_manager self) file_path);
           match backup_path with
           | None => add_warning "Failed to create backup"
           | Some _ => mret tt
           end
         else mret tt);
    (* Step 3: Extract metadata *)
    md ← io (MetadataHandler.extract_metadata audio_tags cfg file_path);
    _ ← set_metadata md;
    (* Step 4: Generate new filename *)
    new_filename ← lift_exc (FileRenamer.generate_filename cfg file_path md);
    if decide (new_filename = "") then add_error "Failed to generate new filename"
    else
      (* Step 5: Rename file; a Path is never falsy *)
      new_path ← io (FileRenamer.rename_file file_path new_filename);
      _ ← set_new_path new_path;
      (* Step 6: Update metadata *)
      _ ← (if default true (cfg_update_metadata cfg) then
             ok ← io (MetadataHandler.update_metadata audio_retag cfg new_path md);
             if negb ok then add_warning "Failed to update metadata" else mret tt
           else mret tt);
      (* Step 7: Validate final result *)
      valid ← io (FileValidator.validate_file format_ok new_path);
      if valid : bool then set_success else add_error "Final validation failed".

Definition process_file (self : t) (file_path : Path) (st : Store)
  : ProcessingResult * Store :=
  let result := mkResult false file_path None ∅ [] [] in
  let p := res_state
    (try_except (process_file_steps self file_path)
                (λ e, add_error (err_str e))
                (mkProc st result)) in
  (pr_result p, pr_store p).

(** [directory_path.rglob('*')]: every entry below the directory. *)
Definition is_below (d p : Path) : bool :=
  bool_decide (Pathlib.anchored d = Pathlib.anchored p)
  && bool_decide (Pathlib.parts d `prefix_of` Pathlib.parts p)
  && negb (bool_decide (d = p)).

Definition rglob (w : World) (directory_path : Path) : list Path :=
  filter (λ p, is_below directory_path p = true) (map_to_list (w_nodes w)).*1.

Definition _is_media_file (file_path : Path) (supported_formats : option Formats) : bool :=
  in_formats (Str.lower (Pathlib.suffix file_path)) supported_formats.

Definition _find_media_files (self : t) (w : World) (directory_path : Path) : list Path :=
  let supported_formats := cfg_supported_formats (config self) in
  filter (λ file_path,
            Fs.is_file w file_path && _is_media_file file_path supported_formats = true)
         (rglob w directory_path).

Fixpoint process_all (self : t) (media_files : list Path) (st : Store)
  : list ProcessingResult * Store :=
  match media_files with
  | [] => ([], st)
  | file_path :: r =>
      let '(result, st1) := process_file self file_path st in
      let '(results, st2) := process_all self r st1 in
      (result :: results, st2)
  end.

Definition process_directory (self : t) (directory_path : Path) (st : Store)
  : list ProcessingResult * Store :=
  let media_files := _find_media_files self (st_world st) directory_path in
  process_all self media_files st.

End WithCollaborators.
End FileProcessor.

(** ** [utils/file_utils.py]: the other helpers *)

(** [except OSError]: the classes of [PyErr] that are operating-system
    errors. *)
Definition is_os_error (e : PyErr) : bool :=
  match e with
  | FileNotFoundError | FileExistsError | IsADirectoryError
  | NotADirectoryError | PermissionError | SameFileError | OSError _ => true
  | _ => false
  end.

(** [try: m  except OSError as e: handler e] *)
Definition try_except_os {S A} (m : M S A) (handler : PyErr → M S A) : M S A :=
  λ s, match m s with
       | Done a s' => Done a s'
       | Fail e s' => if is_os_error e then handler e s' else Fail e s'
       end.

Definition get_file_size (file_path : Path) : M World Z :=
  try_except_os (Fs.stat_size file_path) (λ _, mret 0%Z).

Section WithHashlib.

(** [hashlib.new(algorithm)]: the digest of a known algorithm, from the
    bytes fed to it to the hexadecimal string; an unknown name is a
    [ValueError]. *)
Variable hashlib_new : string → option (string → string).

Definition calculate_file_hash (file_path : Path) (algorithm : string)
  : M World (option string) :=
  try_except
    (match hashlib_new algorithm with
     | Some hexdigest =>
         data ← Fs.read_bytes file_path; mret (Some (hexdigest data))
     | None => raise ValueError
     end)
    (λ _, mret None).

End WithHashlib.


Definition copy_file_safe (source destination : Path) (overwrite : bool) : M World bool :=
  try_except
    (exists_ ← gets (λ w, Fs.path_exists w destination);
     if exists_ && negb overwrite then mret false
     else
       (* Ensure destination directory exists *)
       _ ← Fs.mkdir_parents (Pathlib.parent destination);
       _ ← Fs.copy2 source destination;
       mret true)
    (λ _, mret false).

(** [shutil.copytree(src, real_dst)] followed by [shutil.rmtree(src)],
    as far as the first step of the copy fails: the source cannot be
    listed, or [os.makedirs(real_dst)] raises.  The copy of a tree is
    outside the embedding; [shutil.move] comes to it only when the
    directory of [real_dst] is missing. *)
Definition copytree_rmtree (src real_dst : Path) : M World unit :=
  λ w, if decide (src ∈ w_denied w) then Fail PermissionError w
       else if Fs.path_exists w real_dst then Fail FileExistsError w
       else if Fs.is_file w (Pathlib.parent real_dst) then Fail NotADirectoryError w
       else if decide (real_dst ∈ w_denied w) then Fail PermissionError w
       else Fail Unmodelled w.

(** The move proper of [shutil.move]: [os.rename], and when that raises
    an [OSError], a copy followed by the removal of the source.  A
    directory is not moved into itself. *)
Definition rename_or_copy (src dst real_dst : Path) : M World unit :=
  try_except_os (Fs.rename src real_dst)
    (λ _,
       is_dir ← gets (λ w, Fs.is_dir w src);
       if is_dir : bool then
         if Fs.within src dst then
           raise (OSError "Cannot move a directory into itself")
         else copytree_rmtree src real_dst
       else _ ← Fs.copy2 src real_dst; Fs.unlink src).

(** [shutil.move(src, dst)]: into [dst] when that is a directory, under
    the name of [src], which must be free there.  The result is the path
    at which the source is, or none when source and destination are the
    same directory. *)
Definition shutil_move (src dst : Path) : M World (option Path) :=
  is_dir ← gets (λ w, Fs.is_dir w dst);
  if is_dir : bool then
    if decide (src = dst) then _ ← Fs.rename src dst; mret None
    else
      let real_dst := dst // Pathlib.name src in
      taken ← gets (λ w, Fs.path_exists w real_dst);
      if taken : bool then raise (OSError "Destination path already exists")
      else _ ← rename_or_copy src dst real_dst; mret (Some real_dst)
  else _ ← rename_or_copy src dst dst; mret (Some dst).

Definition move_file_safe (source destination : Path) (overwrite : bool) : M World bool :=
  try_except
    (exists_ ← gets (λ w, Fs.path_exists w destination);
     if exists_ && negb overwrite then mret false
     else
       (* Ensure destination directory exists *)
       _ ← Fs.mkdir_parents (Pathlib.parent destination);
       _ ← shutil_move source destination;
       mret true)
    (λ _, mret false).

(** ** [media/format_detector.py], with the reasons of a verdict *)

Module FormatChecks.

(** What a call into a sniffing library comes back with: a value, a
    result that counts as nothing, or an exception with its message. *)
Inductive Probe (A : Type) :=
  | Found (a : A)
  | Nothing
  | Raises (msg : string).
Arguments Found {A} a.
Arguments Nothing {A}.
Arguments Raises {A} msg.

(** The dictionary literal of [_mime_to_format]. *)
Definition mime_to_format : list (string * string) :=
  [ ("audio/mpeg", ".mp3"); ("audio/flac", ".flac"); ("audio/wav", ".wav");
    ("audio/aac", ".aac"); ("audio/ogg", ".ogg"); ("audio/mp4", ".m4a");
    ("video/mp4", ".mp4"); ("video/x-msvideo", ".avi");
    ("video/x-matroska", ".mkv"); ("video/quicktime", ".mov");
    ("video/x-ms-wmv", ".wmv"); ("video/x-flv", ".flv") ].

Definition _mime_to_format (mime_type : string) : option string :=
  snd <$> find (λ kv, bool_decide (kv.1 = mime_type)) mime_to_format.

(** The two list literals of [_validate_format_specific]. *)
Definition audio_formats : list string :=
  [".mp3"; ".flac"; ".wav"; ".aac"; ".ogg"; ".m4a"].
Definition video_formats : list string :=
  [".mp4"; ".avi"; ".mkv"; ".mov"; ".wmv"; ".flv"].

(** A string, or an optional string, that counts as true. *)
Definition nonempty (s : string) : bool := negb (bool_decide (s = "")).

Definition truthy_format (f : option string) : bool :=
  match f with
  | Some s => nonempty s
  | None => false
  end.

(** [any(s['codec_type'] == 'video' for s in streams)], over the
    [codec_type] of each stream ([None] where the key is missing). *)
Fixpoint any_video (streams : list (option string)) : Exc bool :=
  match streams with
  | [] => Ret false
  | None :: _ => Raise (KeyError "codec_type")
  | Some codec_type :: r =>
      if decide (codec_type = "video") then Ret true else any_video r
  end.

Section WithLibraries.

(** [mimetypes.guess_type(name)[0]]; [magic.from_buffer(header,
    mime=True)], with [None] when it raises; whether [import mutagen] and
    [import ffmpeg] succeed; [mutagen.File] and [ffmpeg.probe] on a file
    and its content, the latter giving the [codec_type] of each stream
    when the result has the key [streams]. *)
Variable guess_type : string → option string.
Variable magic_from_buffer : string → option string.
Variable mutagen_available : bool.
Variable ffmpeg_available : bool.
Variable mutagen_file : Path → string → Probe unit.
Variable ffmpeg_probe : Path → string → Probe (list (option string)).

(** A library that opens the file itself fails when the file cannot be
    read. *)
Definition probe_file {A} (probe : Path → string → Probe A)
    (file_path : Path) (w : World) : Probe A :=
  match Fs.read_bytes file_path w with
  | Done data _ => probe file_path data
  | Fail e _ => Raises (err_str e)
  end.

(** [detect_format]; [supported_formats] is what [__init__] has read
    from the configuration. *)
Definition detect_format (supported_formats : option Formats) (file_path : Path)
    (w : World) : option string :=
  (* Method 1: File extension *)
  let extension := Str.lower (Pathlib.suffix file_path) in
  if in_formats extension supported_formats then Some extension
  else
    (* Method 2: MIME type detection *)
    let format_from_mime :=
      match guess_type (Pathlib.to_str file_path) with
      | Some mime_type =>
          if nonempty mime_type then _mime_to_format mime_type else None
      | None => None
      end in
    if truthy_format format_from_mime then format_from_mime
    else
      (* Method 3: Magic number detection *)
      let format_from_magic :=
        match Fs.read_bytes file_path w with
        | Done data _ =>
            match magic_from_buffer (Str.take 1024 data) with
            | Some magic_result => _mime_to_format magic_result
            | None => None
            end
        | Fail _ _ => None
        end in
      if truthy_format format_from_magic then format_from_magic else None.

Definition _validate_audio_file (file_path : Path) (format_type : string) (w : World)
  : list string :=
  if decide (format_type = ".mp3") then
    if negb mutagen_available then
      ["Required library not available for " +:+ format_type +:+ " validation"]
    else
      match probe_file mutagen_file file_path w with
      | Found _ => []
      | Nothing => ["Invalid MP3 file format"]
      | Raises msg => ["MP3 validation failed: " +:+ msg]
      end
  else if decide (format_type = ".flac") then
    if negb mutagen_available then
      ["Required library not available for " +:+ format_type +:+ " validation"]
    else
      match probe_file mutagen_file file_path w with
      | Found _ => []
      | Nothing => ["Invalid FLAC file format"]
      | Raises msg => ["FLAC validation failed: " +:+ msg]
      end
  else [].

Definition _validate_video_file (file_path : Path) (format_type : string) (w : World)
  : list string :=
  if negb ffmpeg_available then
    ["FFmpeg library not available for video validation"]
  else
    match probe_file ffmpeg_probe file_path w with
    | Raises msg => ["Video validation failed: " +:+ msg]
    | Nothing => ["Invalid video file format"]
    | Found streams =>
        match any_video streams with
        | Ret true => []
        | Ret false => ["No video stream found"]
        | Raise e => ["Video validation failed: " +:+ err_str e]
        end
    end.

Definition _validate_format_specific (file_path : Path) (format_type : string)
    (w : World) : list string :=
  if bool_decide (format_type ∈ audio_formats) then
    _validate_audio_file file_path format_type w
  else if bool_decide (format_type ∈ video_formats) then
    _validate_video_file file_path format_type w
  else [].

(** [validate_file]: the verdict and the list of reasons. *)
Definition validate_file (supported_formats : option Formats) (file_path : Path)
    (w : World) : bool * list string :=
  if negb (Fs.path_exists w file_path) then (false, ["File does not exist"])
  else if negb (Fs.is_file w file_path) then (false, ["Path is not a file"])
  else
    match Fs.stat_size file_path w with
    | Fail e _ => (false, ["Validation error: " +:+ err_str e])
    | Done file_size _ =>
        if decide (file_size = 0%Z) then (false, ["File is empty"])
        else
          match Fs.read_bytes file_path w with
          | Fail PermissionError _ => (false, ["File is not readable"])
          | Fail e _ => (false, ["Validation error: " +:+ err_str e])
          | Done _ _ =>
              let detected_format := detect_format supported_formats file_path w in
              if negb (truthy_format detected_format) then
                (false, ["Could not detect file format"])
              else
                let errors :=
                  _validate_format_specific file_path (default "" detected_format) w in
                ((length errors =? 0)%nat, errors)
          end
    end.

End WithLibraries.
End FormatChecks.

(** ** [utils/config.py]: the configuration dictionary *)

(** The values that a YAML file and the environment can put in the
    configuration.  A dictionary keeps its keys in the order in which
    they were first set. *)
Local Unset Elimination Schemes.
Inductive PyVal :=
  | PNone
  | PBool (b : bool)
  | PInt (n : Z)
  | PStr (s : string)
  | PList (l : list PyVal)
  | PDict (d : list (string * PyVal)).
Local Set Elimination Schemes.

Abbreviation Dict := (list (string * PyVal)).

(** [bool(v)] *)
Definition truthy (v : PyVal) : bool :=
  match v with
  | PNone => false
  | PBool b => b
  | PInt n => negb (n =? 0)%Z
  | PStr s => negb (bool_decide (s = ""))
  | PList l => match l with [] => false | _ => true end
  | PDict d => match d with [] => false | _ => true end
  end.

(** [d.get(key)] and [d[key] = value] *)
Fixpoint dict_get (key : string) (d : Dict) : option PyVal :=
  match d with
  | [] => None
  | (k, v) :: r => if decide (k = key) then Some v else dict_get key r
  end.

Fixpoint dict_set (key : string) (value : PyVal) (d : Dict) : Dict :=
  match d with
  | [] => [(key, value)]
  | (k, v) :: r =>
      if decide (k = key) then (k, value) :: r
      else (k, v) :: dict_set key value r
  end.

Definition dict_keys (d : Dict) : list string := d.*1.

(** [deep_merge(base, override)] of [_merge_configs], for [override]
    given as a value; the result is [base] after the loop.  (The writes
    go to the dictionary objects of [base], which [merged] shares with
    [default] below its top level.) *)
Fixpoint deep_merge_value (base : Dict) (override : PyVal) {struct override} : Dict :=
  match override with
  | PDict items =>
      (fix loop (items : Dict) (base : Dict) {struct items} : Dict :=
         match items with
         | [] => base
         | (key, value) :: rest =>
             loop rest
               (match dict_get key base, value with
                | Some (PDict b), PDict _ =>
                    dict_set key (PDict (deep_merge_value b value)) base
                | _, _ => dict_set key value base
                end)
         end) items base
  | _ => base
  end.

Definition deep_merge (base override : Dict) : Dict :=
  deep_merge_value base (PDict override).

(** [str.isdigit] and [int] on ASCII text. *)
Definition isdigit (s : string) : bool :=
  negb (bool_decide (s = "")) && Str.all Str.is_digit s.

Definition int_of_digits (s : string) : Z :=
  fold_left (λ acc a, (10 * acc + (Z.of_nat (nat_of_ascii a) - 48))%Z)
            (list_ascii_of_string s) 0%Z.

Module ConfigManager.

(** The attributes of a [ConfigManager]. *)
Record t := mk {
  config_dir : Path;
  config : option Dict;
}.

(** [__init__]; [package_dir] is the directory three levels above the
    module file. *)
Definition __init__ (package_dir : Path) (config_dir : option Path) : t :=
  mk (default (package_dir // "config") config_dir) None.

Definition _get_default_config_dict : Dict :=
  [ ("processing", PDict
       [ ("backup_enabled", PBool true);
         ("backup_directory", PStr "./backups");
         ("parallel_processing", PBool false);
         ("max_workers", PInt 4);
         ("update_metadata", PBool true);
         ("create_backups", PBool true) ]);
    ("naming", PDict
       [ ("audio_pattern", PStr "{artist} - {title} ({year})");
         ("video_pattern", PStr "{title} ({year}) - {quality}");
         ("replace_special_chars", PBool true);
         ("case_standardization", PStr "title") ]);
    ("metadata", PDict
       [ ("audio_required_fields",
          PList [PStr "artist"; PStr "title"; PStr "album"; PStr "year"]);
         ("audio_optional_fields",
          PList [PStr "genre"; PStr "track"; PStr "bpm"; PStr "key"]);
         ("video_required_fields", PList [PStr "title"; PStr "year"]);
         ("video_optional_fields",
          PList [PStr "genre"; PStr "director"; PStr "cast"; PStr "description"]) ]);
    ("supported_formats", PList
       [ PStr ".mp3"; PStr ".flac"; PStr ".wav"; PStr ".aac"; PStr ".ogg"; PStr ".m4a";
         PStr ".mp4"; PStr ".avi"; PStr ".mkv"; PStr ".mov"; PStr ".wmv"; PStr ".flv" ]);
    ("log_level", PStr "INFO");
    ("log_file", PNone) ].

Definition _merge_configs (default user : Dict) : Dict :=
  (* merged = default.copy() *)
  let merged := default in
  deep_merge merged user.

Definition env_prefix : string := "MEDIA_MANAGER_".

(** The value that an environment variable gives to a key. *)
Definition env_value (value : string) : PyVal :=
  if bool_decide (Str.lower value ∈ ["true"; "false"]) then
    PBool (bool_decide (Str.lower value = "true"))
  else if isdigit value then PInt (int_of_digits value)
  else PStr value.

(** [_apply_environment_overrides], over [os.environ.items()]. *)
Definition _apply_environment_overrides (environ : list (string * string))
    (config : Dict) : Dict :=
  fold_left
    (λ config kv,
       let '(key, value) := kv in
       if Str.startswith key env_prefix then
         let config_key := Str.lower (Str.drop (String.length env_prefix) key) in
         dict_set config_key (env_value value) config
       else config)
    environ config.

Section WithYaml.

(** [yaml.safe_load] on the text of a file, and [os.environ.items()]. *)
Variable yaml_safe_load : string → Exc PyVal.
Variable environ : list (string * string).

(** [yaml.safe_load(f) or {}].  A document that is neither empty nor a
    mapping is outside the embedding. *)
Definition load_yaml (path : Path) : M World Dict :=
  text ← Fs.read_bytes path;
  v ← lift_exc (yaml_safe_load text);
  match v with
  | PDict d => mret d
  | _ => if truthy v then raise Unmodelled else mret []
  end.

Definition _load_default_config (self : t) : M World Dict :=
  let default_config_path := config_dir self // "default_config.yaml" in
  exists_ ← gets (λ w, Fs.path_exists w default_config_path);
  if exists_ : bool then load_yaml default_config_path
  else mret _get_default_config_dict.

Definition _load_user_config (self : t) : M World Dict :=
  let user_config_path := config_dir self // "user_config.yaml" in
  exists_ ← gets (λ w, Fs.path_exists w user_config_path);
  if exists_ : bool then load_yaml user_config_path
  else mret [].

(** [load_config] returns the configuration and leaves it in
    [self.config]; the manager after the call is the second component. *)
Definition load_config (self : t) : M World (Dict * t) :=
  match config self with
  | Some c => mret (c, self)
  | None =>
      (* Load default configuration *)
      default_config ← _load_default_config self;
      (* Load user configuration (overrides defaults) *)
      user_config ← _load_user_config self;
      (* Merge configurations *)
      let merged_config := _merge_configs default_config user_config in
      (* Apply environment variable overrides *)
      let merged_config := _apply_environment_overrides environ merged_config in
      (* Validate configuration: nothing is checked *)
      mret (merged_config, mk (config_dir self) (Some merged_config))
  end.

End WithYaml.
End ConfigManager.

(** ** [cli/commands.py] *)

Module Commands.
Section WithCollaborators.

Variable format_ok : Path → string → bool.
Variable audio_tags : Path → string → Metadata.
Variable audio_retag : Path → string → Metadata → option string.
Variable md5_hexdigest : string → string.
Variable json_dump : list Entry → string.
Variable json_load : string → option (list Entry).

(** [process_files]; the results of the processor are dropped. *)
Definition process_files (path : Path) (cfg : Config) : M Store unit :=
  file_processor ← FileProcessor.__init__ json_load cfg;
  is_dir ← gets (λ st, Fs.is_dir (st_world st) path);
  if is_dir : bool then
    modify (λ st, (FileProcessor.process_directory format_ok audio_tags audio_retag
                     md5_hexdigest json_dump file_processor path st).2)
  else
    modify (λ st, (FileProcessor.process_file format_ok audio_tags audio_retag
                     md5_hexdigest json_dump file_processor path st).2).

End WithCollaborators.
End Commands.

(** * The vocabulary of the properties *)

(** The pattern that [generate_filename] picks for a file: the audio
    pattern for an audio file, the video pattern for a video file that is
    not an audio file, none otherwise. *)
Definition pattern_of_kind (cfg : Config) (file_path : Path) : option string :=
  match FileRenamer._is_audio cfg file_path with
  | Ret true => Some (FileRenamer.audio_pattern cfg)
  | Ret false =>
      match FileRenamer._is_video cfg file_path with
      | Ret true => Some (FileRenamer.video_pattern cfg)
      | _ => None
      end
  | Raise _ => None
  end.

(** The name that [get_unique_filename] tries at [counter]. *)
Definition unique_name (p : Path) (counter : nat) : string :=
  Pathlib.stem p +:+ "_" +:+ pretty counter +:+ Pathlib.suffix p.

(** [w'] is [w] with some directories added, all of them on the way
    from the anchor to the path with the components [ps]. *)
Definition adds_dirs (anchored : bool) (ps : list string) (w w' : World) : Prop :=
  w_denied w' = w_denied w ∧ w_clock w' = w_clock w ∧ w_reads w' = w_reads w
  ∧ ∀ q, w_nodes w' !! q = w_nodes w !! q
         ∨ (w_nodes w !! q = None
            ∧ (∃ m, w_nodes w' !! q = Some (mkNode KDir m))
            ∧ Pathlib.anchored q = anchored
            ∧ Pathlib.parts q ≠ []
            ∧ Pathlib.parts q `prefix_of` ps).

(** Where [copy2] writes. *)
Definition copy_target (w : World) (src dst : Path) : Path :=
  if Fs.is_dir w dst then (dst // Pathlib.name src) else dst.

(** An entry records the backup path [b]. *)
Definition records (e : Entry) (b : Path) : Prop :=
  e !! "backup_path" = Some (JStr (Pathlib.to_str b)).


(** The world after [n] more readings of the clock. *)
Definition ticked (n : nat) (w : World) : World :=
  mkWorld (w_nodes w) (w_denied w) (w_clock w) (n + w_reads w) (w_readonly w).

(** The backup directory that [__init__] reads from the configuration. *)
Definition config_backup_dir (cfg : Config) : Path :=
  Pathlib.of_str (default "./backups" (cfg_processing_backup_directory cfg)).

(** The calls that a client can make on a [BackupManager]. *)
Inductive StoreOp :=
  | OpCreateBackup (file_path : Path)
  | OpRestoreBackup (backup_path : Path) (restore_path : option Path)
  | OpListBackups (file_path : option Path)
  | OpCleanupOldBackups (max_age_days : Z).

(** Every entry but the anchors lies in a directory. *)
Definition consistent (w : World) : Prop :=
  ∀ q, is_Some (w_nodes w !! q) → Pathlib.parts q ≠ [] →
       Fs.is_dir w (Pathlib.parent q) = true.


(** The two fields of the result that decide the outcome. *)
Definition flags (p : Proc) : bool * list string :=
  (success (pr_result p), errors (pr_result p)).

(** A step that leaves [success] and [errors] as they are, whether it
    returns or raises. *)
Definition keeps_flags {A} (m : M Proc A) : Prop :=
  ∀ p, flags (res_state (m p)) = flags p.

(** A run of steps from a result with no error and no success yet: it
    returns with success and no error, or returns with an error and no
    success, or raises with the two fields untouched. *)
Definition settles (m : M Proc unit) : Prop :=
  ∀ p, flags p = (false, []) →
    match m p with
    | Done _ p' =>
        flags p' = (true, [])
        ∨ (success (pr_result p') = false ∧ errors (pr_result p') ≠ [])
    | Fail _ p' => flags p' = (false, [])
    end.

Section CodecVocabulary.

Context (md5_hexdigest : string → string) (json_dump : list Entry → string).

(** The entry that [_add_backup_entry] builds for a file it can read. *)
Definition backup_entry (p bp : Path) (created_at : Instant) (data : string) : Entry :=
  BackupManager.new_entry p bp created_at
    (Z.of_nat (String.length data)) (Some (md5_hexdigest data)).

(** The state after one call, whatever it returned. *)
Definition run_op (self : BackupManager.t) (st : Store) (op : StoreOp) : Store :=
  match op with
  | OpCreateBackup p =>
      res_state (BackupManager.create_backup md5_hexdigest json_dump self p st)
  | OpRestoreBackup b rp => res_state (BackupManager.restore_backup self b rp st)
  | OpListBackups p => res_state (BackupManager.list_backups p st)
  | OpCleanupOldBackups days =>
      res_state (BackupManager.cleanup_old_backups json_dump self days st)
  end.

Definition run_ops (self : BackupManager.t) (ops : list StoreOp) (st : Store) : Store :=
  fold_left (run_op self) ops st.

End CodecVocabulary.

(** ** The vocabulary of the further properties *)

(** An entry that is as it was: a file with the same content and
    modification time, or a directory that is still a directory (the
    modification time of a directory changes when an entry is made or
    removed in it). *)
Definition same_entry (n n' : Node) : Prop :=
  match n_kind n with
  | KFile _ => n' = n
  | KDir => n_kind n' = KDir
  end.

(** What is at [q] in [w] is kept in [w']. *)
Definition kept (w w' : World) (q : Path) : Prop :=
  ∀ n, w_nodes w !! q = Some n →
       ∃ n', w_nodes w' !! q = Some n' ∧ same_entry n n'.

(** The state of a run with another world. *)
Definition with_world (w : World) (p : Proc) : Proc :=
  mkProc (mkStore w (st_backup_metadata (pr_store p))) (pr_result p).

(** A step that leaves a field of the result as it is, whether it returns
    or raises. *)
Definition keeps_field {A B} (f : ProcessingResult → B) (m : M Proc A) : Prop :=
  ∀ p, f (pr_result (res_state (m p))) = f (pr_result p).


(** What [deep_merge] leaves under a key that the override gives the
    value [value]: the merge of the two when both are dictionaries, the
    value of the override otherwise. *)
Definition merged_value (old : option PyVal) (value : PyVal) : PyVal :=
  match old, value with
  | Some (PDict b), PDict o => PDict (deep_merge b o)
  | _, _ => value
  end.

(** The value of the last variable of the environment that names a key
    of the configuration. *)
Fixpoint env_override (environ : list (string * string)) (config_key : string)
  : option string :=
  match environ with
  | [] => None
  | (key, value) :: rest =>
      match env_override rest config_key with
      | Some later => Some later
      | None =>
          if Str.startswith key ConfigManager.env_prefix
             && bool_decide (Str.lower (Str.drop (String.length ConfigManager.env_prefix) key)
                             = config_key)
          then Some value else None
      end
  end.

(** * Worlds, configurations and codecs of the examples *)

(** A configuration in the shape that the renamer reads, used by the
    examples below. *)
Definition example_config (audio_pattern : string) : Config :=
  mkConfig (Some false) (Some true) (Some false) None (Some audio_pattern) None
           (Some (FmtDict {[ "audio" := [".mp3"; ".flac"]; "video" := [".mp4"; ".mkv"] ]})).

(** A clock that shows the same instant at every reading. *)
Definition example_clock (n : nat) : Instant :=
  mkInstant 1700000000 "20231114_221320" "2023-11-14T22:13:20.000001".

Definition dir_node : Node := mkNode KDir 1600000000.
Definition file_node (data : string) (mtime : Z) : Node := mkNode (KFile data) mtime.

Definition example_manager (enabled : bool) : BackupManager.t :=
  BackupManager.mk (Pathlib.of_str "/backups") enabled
    (Pathlib.of_str "/backups/backup_metadata.json").

Definition example_entry (original backup : string) : Entry :=
  {[ "original_path" := JStr original;
     "backup_path" := JStr backup;
     "created_at" := JStr "2023-11-14T22:13:20.000001";
     "file_size" := JNum 3;
     "file_hash" := JStr "d41d8cd98f00b204e9800998ecf8427e" ]}.

(** A backup directory with one backup of [/music/album/song.mp3]; the
    directory [/music] is gone. *)
Definition world_with_backup : World :=
  mkWorld {[ Pathlib.of_str "/" := dir_node;
             Pathlib.of_str "/backups" := dir_node;
             Pathlib.of_str "/backups/song_20231114_221320.mp3" := file_node "ID3" 1650000000 ]}
          ∅ example_clock 0 ∅.


(** The same backup, kept read-only (as the copy of a read-only file
    is). *)
Definition store_with_readonly_backup : Store :=
  mkStore (mkWorld (w_nodes world_with_backup) ∅ example_clock 0
                   {[ Pathlib.of_str "/backups/song_20231114_221320.mp3" ]})
    [example_entry "/music/album/song.mp3" "/backups/song_20231114_221320.mp3"].


(** Stand-ins for MD5 and the JSON codec in the examples. *)
Definition example_md5 (data : string) : string := "md5 of " +:+ data.
Definition example_dump (l : list Entry) : string := "[ledger]".
Definition example_load (text : string) : option (list Entry) := None.

(** A working directory with one song and an empty backup directory;
    all paths are relative, as with the default [./backups]. *)
Definition relative_manager : BackupManager.t :=
  BackupManager.mk (Pathlib.of_str "./backups") true
    (Pathlib.of_str "./backups" // "backup_metadata.json").

Definition relative_store : Store :=
  mkStore (mkWorld {[ Pathlib.of_str "." := dir_node;
                      Pathlib.of_str "backups" := dir_node;
                      Pathlib.of_str "song.mp3" := file_node "ID3" 1650000000 ]}
                   ∅ example_clock 0 ∅)
          [].

(** A music directory in which [A - B.mp3] and [A - B_1.mp3] are taken. *)
Definition world_with_collisions : World :=
  mkWorld {[ Pathlib.of_str "/" := dir_node;
             Pathlib.of_str "/music" := dir_node;
             Pathlib.of_str "/music/song.mp3" := file_node "ID3" 1650000000;
             Pathlib.of_str "/music/A - B.mp3" := file_node "x" 1650000000;
             Pathlib.of_str "/music/A - B_1.mp3" := file_node "y" 1650000000 ]}
          ∅ example_clock 0 ∅.

(** Backups enabled, in the default directory. *)
Definition enabled_config : Config :=
  mkConfig None None (Some true) (Some "./backups") None None
           (Some (FmtDict {[ "audio" := [".mp3"]; "video" := [".mp4"] ]})).

(** A working directory with one song and nothing else. *)
Definition fresh_store : Store :=
  mkStore (mkWorld {[ Pathlib.of_str "." := dir_node;
                      Pathlib.of_str "song.mp3" := file_node "ID3" 1650000000 ]}
                   ∅ example_clock 0 ∅)
          [].


(** A format detector that accepts every readable, non-empty file. *)
Definition example_format_ok (p : Path) (data : string) : bool := true.

(** A codec that finds an artist and a title, and one that finds no
    tag, only the bit rate of the stream. *)
Definition example_tags (p : Path) (data : string) : Metadata :=
  {[ "artist" := VStr "A"; "title" := VStr "B" ]}.
Definition example_no_tags (p : Path) (data : string) : Metadata :=
  {[ "bitrate" := VInt 128000 ]}.

(** A tag writer that leaves the content as it is, and one that fails. *)
Definition example_retag (p : Path) (data : string) (md : Metadata) : option string :=
  Some data.
Definition example_retag_fails (p : Path) (data : string) (md : Metadata)
  : option string := None.

(** The top-level [backup_enabled] is absent (so [process_file] asks for
    a backup) while [processing.backup_enabled] is off (so the manager
    makes none). *)
Definition warning_config : Config :=
  mkConfig None None (Some false) None (Some "{artist} - {title}") None
           (Some (FmtDict {[ "audio" := [".mp3"; ".flac"]; "video" := [".mp4"; ".mkv"] ]})).

(** A loader that knows the ledger of the examples by its text. *)
Definition known_ledger : list Entry :=
  [backup_entry example_md5 (Pathlib.of_str "song.mp3")
     (Pathlib.of_str "backups/song_20231114_221320.mp3") (example_clock 1) "ID3"].

Definition example_load_known (text : string) : option (list Entry) :=
  if decide (text = "[ledger]") then Some known_ledger else None.

(** A configuration directory with a user file and no default file, and
    the reading of that file by the YAML parser. *)
Definition config_world : World :=
  mkWorld {[ Pathlib.of_str "/" := dir_node;
             Pathlib.of_str "/app" := dir_node;
             Pathlib.of_str "/app/config" := dir_node;
             Pathlib.of_str "/app/config/user_config.yaml"
               := file_node "{log_level: WARNING, processing: {max_workers: 8}}"
                            1650000000 ]}
          ∅ example_clock 0 ∅.

Definition example_yaml (text : string) : Exc PyVal :=
  if decide (text = "{log_level: WARNING, processing: {max_workers: 8}}") then
    Ret (PDict [ ("log_level", PStr "WARNING");
                 ("processing", PDict [("max_workers", PInt 8)]) ])
  else Raise ValueError.

(** The configuration of [AppConfig]: [supported_formats] is a list. *)
Definition list_config : Config :=
  mkConfig None None (Some true) (Some "./backups") None None
           (Some (FmtList [".mp3"; ".flac"; ".mp4"])).

(** * Properties *)

(** ** The embedding on small inputs *)

Example sanitize_ex1 : sanitize_filename "A: B?.mp3" "_" = "A_ B_.mp3".
Proof. vm_compute. reflexivity. Qed.
Example sanitize_ex2 : sanitize_filename " . ." "_" = "unnamed_file".
Proof. vm_compute. reflexivity. Qed.
Example sanitize_ex3 : sanitize_filename "..mp3" "_" = "mp3".
Proof. vm_compute. reflexivity. Qed.
Example suffix_ex1 : Pathlib.suffix (Pathlib.of_str "/music/My.Song.MP3") = ".MP3".
Proof. vm_compute. reflexivity. Qed.
Example suffix_ex2 : Pathlib.suffix (Pathlib.of_str ".bashrc") = "".
Proof. vm_compute. reflexivity. Qed.
Example stem_ex1 : Pathlib.stem (Pathlib.of_str "a//b/./song.mp3") = "song".
Proof. vm_compute. reflexivity. Qed.
Example to_str_ex1 :
  Pathlib.to_str (Pathlib.of_str "./backups" // "song_1.mp3") = "backups/song_1.mp3".
Proof. vm_compute. reflexivity. Qed.
Example placeholders_ex1 :
  placeholders "{artist} - {title} ({year})" = Some ["artist"; "title"; "year"].
Proof. vm_compute. reflexivity. Qed.
Example placeholders_ex2 : placeholders "{0} - {title}" = None.
Proof. vm_compute. reflexivity. Qed.
Example str_format_ex1 :
  str_format "{artist} - {title}"
    {[ "artist" := VStr "A"; "title" := VStr "B"; "year" := VInt 2024 ]}
  = Ret "A - B".
Proof. vm_compute. reflexivity. Qed.
Example str_format_ex2 :
  str_format "{artist} - {title}" {[ "artist" := VStr "A" ]} = Raise (KeyError "title").
Proof. vm_compute. reflexivity. Qed.
Example str_format_ex3 : str_format "{{{year}}}" {[ "year" := VInt 2024 ]} = Ret "{2024}".
Proof. vm_compute. reflexivity. Qed.

(** ** Strings *)

Section StringFacts.

Implicit Types (s t u : string) (c d : ascii).

Lemma app_empty_r s : s +:+ "" = s.
Proof. induction s; simpl; congruence. Qed.


Lemma app_length s t : String.length (s +:+ t) = (String.length s + String.length t)%nat.
Proof. induction s; simpl; congruence. Qed.

Lemma app_inj_r s t u : s +:+ u = t +:+ u → s = t.
Proof.
  revert t. induction s as [|a s IH]; intros [|b t] H; simpl in *.
  - done.
  - apply (f_equal String.length) in H. simpl in H. rewrite app_length in H. lia.
  - apply (f_equal String.length) in H. simpl in H. rewrite app_length in H. lia.
  - injection H as -> H. f_equal. by apply IH.
Qed.

Lemma mem_app c s t : Str.mem c (s +:+ t) = Str.mem c s || Str.mem c t.
Proof. induction s as [|a s IH]; simpl; [done|]. by case_decide. Qed.


Lemma take_drop i s : Str.take i s +:+ Str.drop i s = s.
Proof.
  revert s. induction i as [|i IH]; intros [|a s]; simpl; try done.
  by rewrite IH.
Qed.


Lemma mem_take c i s : Str.mem c s = false → Str.mem c (Str.take i s) = false.
Proof.
  revert s. induction i as [|i IH]; intros [|a s]; simpl; try done.
  case_decide; [done|]. apply IH.
Qed.

Lemma mem_drop c i s : Str.mem c s = false → Str.mem c (Str.drop i s) = false.
Proof.
  revert s. induction i as [|i IH]; intros [|a s]; simpl; try done.
  case_decide; [done|]. apply IH.
Qed.

(** *** [replace] *)


Lemma replace_absent c r s : Str.mem c s = false → Str.replace c r s = s.
Proof.
  induction s as [|a s IH]; simpl; [done|].
  case_decide; [done|]. intros. by rewrite IH.
Qed.

Lemma replace_removes c r s :
  Str.mem c r = false → Str.mem c (Str.replace c r s) = false.
Proof.
  intros Hr. induction s as [|a s IH]; simpl; [done|].
  case_decide.
  - rewrite mem_app, Hr, IH. done.
  - simpl. by case_decide.
Qed.

Lemma replace_keeps_absent c d r s :
  Str.mem d r = false → Str.mem d s = false →
  Str.mem d (Str.replace c r s) = false.
Proof.
  intros Hr. induction s as [|a s IH]; simpl; [done|].
  case_decide; [done|]. intros Hs. case_decide.
  - rewrite mem_app, Hr. by apply IH.
  - simpl. case_decide; [done|]. by apply IH.
Qed.

(** *** [strip] *)

Lemma lstrip_absent chars c s :
  Str.mem c s = false → Str.mem c (Str.lstrip chars s) = false.
Proof.
  induction s as [|a s IH]; simpl; [done|].
  case_decide; [done|]. intros Hs.
  destruct (Str.mem a chars); [by apply IH|].
  simpl. by case_decide.
Qed.

Lemma rstrip_absent chars c s :
  Str.mem c s = false → Str.mem c (Str.rstrip chars s) = false.
Proof.
  induction s as [|a s IH]; simpl; [done|].
  case_decide; [done|]. intros Hs. specialize (IH Hs).
  destruct (Str.rstrip chars s) eqn:E.
  - destruct (Str.mem a chars); simpl; [done|]. by case_decide.
  - simpl. destruct (decide (a = c)); [done|]. exact IH.
Qed.




End StringFacts.

(** ** [sanitize_filename] *)

Section SanitizeFacts.

Implicit Types (s t r : string) (c d : ascii) (l : list ascii).

Let pass r := λ f char, Str.replace char r f.

Lemma mem_list c s : Str.mem c s = true ↔ c ∈ list_ascii_of_string s.
Proof.
  induction s as [|a s IH]; simpl.
  - split; [done|]. by intros ?%elem_of_nil.
  - rewrite elem_of_cons. case_decide; [|rewrite IH]; split; auto.
    intros [->|?]; done.
Qed.



Lemma replace_all_absent l r s :
  (∀ c, c ∈ l → Str.mem c s = false) → fold_left (pass r) l s = s.
Proof.
  revert s. induction l as [|c l IH]; intros s H; simpl; [done|].
  unfold pass at 2. rewrite replace_absent by (apply H; left).
  apply IH. intros d Hd. apply H. by right.
Qed.

Lemma replace_all_keeps_absent l r d s :
  Str.mem d r = false → Str.mem d s = false →
  Str.mem d (fold_left (pass r) l s) = false.
Proof.
  intros Hr. revert s. induction l as [|c l IH]; intros s Hs; simpl; [done|].
  apply IH. by apply replace_keeps_absent.
Qed.

Lemma replace_all_removes l r s c :
  (∀ d, d ∈ l → Str.mem d r = false) → c ∈ l →
  Str.mem c (fold_left (pass r) l s) = false.
Proof.
  revert s. induction l as [|c0 l IH]; intros s Hr Hc; [by apply elem_of_nil in Hc|].
  simpl. destruct (decide (c ∈ l)) as [Hin|Hnotin].
  - apply IH; [|done]. intros d Hd. apply Hr. by right.
  - apply elem_of_cons in Hc as [->|?]; [|done].
    apply replace_all_keeps_absent; [apply Hr; left|].
    apply replace_removes. apply Hr. left.
Qed.



Lemma underscore_valid d : d ∈ list_ascii_of_string invalid_chars → Str.mem d "_" = false.
Proof.
  intros Hd%mem_list. unfold invalid_chars in Hd. simpl in Hd.
  repeat case_decide; by subst.
Qed.

Lemma fallback_valid d : Str.mem d invalid_chars = true → Str.mem d "unnamed_file" = false.
Proof.
  intros Hd. unfold invalid_chars in Hd. simpl in Hd.
  repeat case_decide; by subst.
Qed.

Lemma sanitize_filename_nonempty s r : sanitize_filename s r ≠ "".
Proof. unfold sanitize_filename. by case_decide. Qed.

(** The result of [sanitize_filename] with the default replacement
    has no character of [invalid_chars]. *)
Lemma sanitize_filename_valid s c :
  Str.mem c invalid_chars = true → Str.mem c (sanitize_filename s "_") = false.
Proof.
  intros Hc. unfold sanitize_filename. case_decide; [by apply fallback_valid|].
  unfold Str.strip. apply rstrip_absent, lstrip_absent.
  apply (replace_all_removes _ "_"); [apply underscore_valid|by apply mem_list].
Qed.



End SanitizeFacts.

(** ** Filename generation *)

Section FormatFacts.

Implicit Types (md : Metadata) (items : list FmtItem) (ks : list string).









End FormatFacts.




(** C5 as the specification words it fails: with the pattern
    [{0} - {title}] and no metadata, the field [title] of the pattern is
    missing, and [generate_filename] does not return the name of the
    file: [str.format] raises [IndexError] at the field [{0}], which
    [generate_filename] does not catch.  The same holds for a pattern
    whose text is not well-formed before the missing field. *)
Lemma generate_filename_raises_before_missing_placeholder :
  let file_path := Pathlib.of_str "/music/song.mp3" in
  let md : Metadata := ∅ in
  pattern_of_kind (example_config "{0} - {title}") file_path = Some "{0} - {title}"
  ∧ md !! "title" = None
  ∧ FileRenamer.generate_filename (example_config "{0} - {title}") file_path md
    = Raise IndexError
  ∧ pattern_of_kind (example_config "a}b {title}") file_path = Some "a}b {title}"
  ∧ FileRenamer.generate_filename (example_config "a}b {title}") file_path md
    = Raise ValueError
  ∧ FileRenamer.generate_filename (example_config "{0} - {title}") file_path md
    ≠ Ret (Pathlib.name file_path).
Proof. repeat split; try reflexivity. discriminate. Qed.




(** ** Discovery of media files *)

Section SuffixFacts.

Lemma rfind_drop c s i : Str.rfind c s = Some i → ∃ r, Str.drop i s = String c r.
Proof.
  revert i. induction s as [|a s IH]; intros i; simpl; [done|].
  destruct (Str.rfind c s) as [j|] eqn:E.
  - intros [= <-]. simpl. by apply IH.
  - case_decide; [|done]. intros [= <-]. subst. by eexists.
Qed.

(** A suffix is empty or starts with a dot. *)
Lemma suffix_shape p : Pathlib.suffix p = "" ∨ ∃ r, Pathlib.suffix p = String "." r.
Proof.
  unfold Pathlib.suffix, Pathlib.suffix_index.
  destruct (Str.rfind "." (Pathlib.name p)) as [i|] eqn:E; [|by left].
  destruct (_ && _); [|by left]. right. by apply rfind_drop.
Qed.

Lemma lower_suffix_shape p :
  Str.lower (Pathlib.suffix p) = ""
  ∨ ∃ r, Str.lower (Pathlib.suffix p) = String "." r.
Proof.
  destruct (suffix_shape p) as [->|[r ->]]; [by left|right]. by eexists.
Qed.

Lemma stem_suffix p : Pathlib.stem p +:+ Pathlib.suffix p = Pathlib.name p.
Proof.
  unfold Pathlib.stem, Pathlib.suffix.
  destruct (Pathlib.suffix_index _); [apply take_drop|apply app_empty_r].
Qed.

End SuffixFacts.

(** C2.  With [supported_formats] a mapping from [audio] and [video] to
    their extension lists, the filter of [process_directory] looks the
    lowercased extension up among the keys of the mapping.  No file is
    then a media file, so no directory yields any file, and the files
    that the renamer and the metadata handler take for audio or video
    are among those left out. *)
Theorem media_filter_tests_mapping_keys
    (self : FileProcessor.t) (audio video : list string) :
  cfg_supported_formats (FileProcessor.config self)
    = Some (FmtDict {[ "audio" := audio; "video" := video ]}) →
  let cfg := FileProcessor.config self in
  (∀ file_path,
     FileProcessor._is_media_file file_path (cfg_supported_formats cfg)
     = bool_decide (Str.lower (Pathlib.suffix file_path) ∈ ["audio"; "video"]))
  ∧ (∀ file_path,
       FileProcessor._is_media_file file_path (cfg_supported_formats cfg) = false)
  ∧ (∀ w directory_path, FileProcessor._find_media_files self w directory_path = [])
  ∧ (∀ format_ok audio_tags audio_retag md5_hexdigest json_dump directory_path st,
       FileProcessor.process_directory format_ok audio_tags audio_retag
         md5_hexdigest json_dump self directory_path st = ([], st))
  ∧ (∀ file_path, Str.lower (Pathlib.suffix file_path) ∈ audio →
       FileRenamer._is_audio cfg file_path = Ret true
       ∧ MetadataHandler._is_audio cfg file_path = Ret true)
  ∧ (∀ file_path, Str.lower (Pathlib.suffix file_path) ∈ video →
       FileRenamer._is_video cfg file_path = Ret true
       ∧ MetadataHandler._is_video cfg file_path = Ret true).
Proof.
  intros Hfmt cfg.
  assert (Hkeys : ∀ file_path,
     FileProcessor._is_media_file file_path (cfg_supported_formats cfg)
     = bool_decide (Str.lower (Pathlib.suffix file_path) ∈ ["audio"; "video"])).
  { intros file_path. unfold FileProcessor._is_media_file, cfg. rewrite Hfmt. simpl.
    apply bool_decide_ext. set (x := Str.lower _).
    rewrite !elem_of_cons, elem_of_nil.
    destruct (decide (x = "audio")) as [->|?];
      [rewrite lookup_insert_eq; split; [by left|by eexists]|].
    rewrite lookup_insert_ne by done.
    destruct (decide (x = "video")) as [->|?];
      [rewrite lookup_singleton_eq; split; [by right; left|by eexists]|].
    rewrite lookup_singleton_ne by done.
    split; [by intros [? ?]|]. intros [?|[?|[]]]; done. }
  assert (Hnone : ∀ file_path,
     FileProcessor._is_media_file file_path (cfg_supported_formats cfg) = false).
  { intros file_path. rewrite Hkeys. apply bool_decide_eq_false.
    rewrite !elem_of_cons, elem_of_nil.
    destruct (lower_suffix_shape file_path) as [->|[r ->]];
      intros [?|[?|[]]]; done. }
  assert (Hfind : ∀ w directory_path,
     FileProcessor._find_media_files self w directory_path = []).
  { intros w directory_path. unfold FileProcessor._find_media_files.
    induction (FileProcessor.rglob w directory_path) as [|p l IH]; [done|].
    rewrite filter_cons, IH. fold cfg. rewrite Hnone, andb_false_r.
    by case_decide. }
  split_and!; [done|done|done|..].
  - intros. unfold FileProcessor.process_directory. by rewrite Hfind.
  - intros file_path Hin.
    unfold FileRenamer._is_audio, MetadataHandler._is_audio, formats_of_kind.
    fold cfg. unfold cfg. rewrite Hfmt. simpl.
    rewrite lookup_insert_eq. simpl. by rewrite bool_decide_eq_true_2.
  - intros file_path Hin.
    unfold FileRenamer._is_video, MetadataHandler._is_video, formats_of_kind.
    fold cfg. unfold cfg. rewrite Hfmt. simpl.
    rewrite lookup_insert_ne by done. rewrite lookup_singleton_eq. simpl.
    by rewrite bool_decide_eq_true_2.
Qed.

Lemma media_filter_tests_mapping_keys_witness :
  let self :=
    FileProcessor.mk (example_config "{artist} - {title}")
      (BackupManager.mk (Pathlib.of_str "./backups") false
         (Pathlib.of_str "./backups/backup_metadata.json")) in
  let song := Pathlib.of_str "/music/Song.MP3" in
  (∀ w directory_path, FileProcessor._find_media_files self w directory_path = [])
  ∧ FileProcessor._is_media_file song (cfg_supported_formats (FileProcessor.config self)) = false
  ∧ FileRenamer._is_audio (FileProcessor.config self) song = Ret true
  ∧ MetadataHandler._is_audio (FileProcessor.config self) song = Ret true.
Proof.
  intros self song.
  destruct (media_filter_tests_mapping_keys self [".mp3"; ".flac"] [".mp4"; ".mkv"] eq_refl)
    as (_ & Hnone & Hfind & _ & Haudio & _).
  split_and!; [exact Hfind|exact (Hnone song)|..];
    apply (Haudio song); vm_compute; by left.
Defined.

(** ** [get_unique_filename] *)

Section UniqueFacts.

Lemma pretty_N_char_digit x : Str.is_digit (pretty_N_char x) = true.
Proof. unfold pretty_N_char. by repeat case_match. Qed.

Lemma mem_pretty_N_go c x s :
  Str.is_digit c = false → Str.mem c (pretty_N_go x s) = Str.mem c s.
Proof.
  intros Hc. revert s. induction (N.lt_wf_0 x) as [x _ IH]; intros s.
  destruct (decide (x = 0%N)) as [->|Hx]; [done|].
  rewrite pretty_N_go_step by lia.
  rewrite IH by (apply N.div_lt; lia). simpl.
  case_decide as Heq; [|done].
  rewrite <-Heq, pretty_N_char_digit in Hc. done.
Qed.

Lemma mem_pretty_nat c (n : nat) : Str.is_digit c = false → Str.mem c (pretty n) = false.
Proof.
  intros Hc. unfold pretty, pretty_nat, pretty, pretty_N.
  case_decide; [|by rewrite mem_pretty_N_go].
  simpl. case_decide as Heq; [|done]. by rewrite <-Heq in Hc.
Qed.

Lemma split_no_sep c s : Str.mem c s = false → Str.split c s = [s].
Proof.
  induction s as [|a s IH]; simpl; [done|].
  case_decide; [done|]. intros Hs. by rewrite IH.
Qed.

Lemma split_parts_no_sep c s x : x ∈ Str.split c s → Str.mem c x = false.
Proof.
  revert x. induction s as [|a s IH]; intros x; simpl.
  - by intros ->%list_elem_of_singleton.
  - case_decide as Hac.
    + intros [->|Hx]%elem_of_cons; [done|by apply IH].
    + destruct (Str.split c s) as [|h t] eqn:E.
      * intros ->%list_elem_of_singleton. simpl. by rewrite decide_False.
      * intros [->|Hx]%elem_of_cons.
        -- simpl. rewrite decide_False by done. apply IH. by left.
        -- apply IH. by right.
Qed.

(** Every path made from a string, and every path joined to one, has
    the invariant [Pathlib.wf]. *)
Lemma wf_of_str s : Pathlib.wf (Pathlib.of_str s).
Proof.
  unfold Pathlib.wf, Pathlib.of_str. simpl. apply Forall_forall.
  intros x [Hc Hx]%list_elem_of_filter.
  split; [done|]. by apply (split_parts_no_sep _ s).
Qed.

Lemma wf_joinpath p s : Pathlib.wf p → Pathlib.wf (p // s).
Proof.
  intros Hp. unfold Pathlib.joinpath.
  destruct (Pathlib.anchored (Pathlib.of_str s)); [apply wf_of_str|].
  unfold Pathlib.wf. simpl. apply Forall_app. split; [done|apply wf_of_str].
Qed.

Lemma of_str_component s :
  Str.mem "/" s = false → Pathlib.is_component s = true →
  Pathlib.of_str s = mkPath false [s].
Proof.
  intros Hs Hc. unfold Pathlib.of_str. rewrite split_no_sep by done.
  rewrite filter_cons, filter_nil. rewrite decide_True by done.
  f_equal. destruct s as [|a s]; [done|].
  simpl in Hs. case_decide; [done|].
  destruct a as [[] [] [] [] [] [] [] []]; done.
Qed.

Lemma joinpath_component p s :
  Str.mem "/" s = false → Pathlib.is_component s = true →
  p // s = mkPath (Pathlib.anchored p) (Pathlib.parts p ++ [s]).
Proof. intros. unfold Pathlib.joinpath. by rewrite of_str_component. Qed.

Lemma name_no_slash p : Pathlib.wf p → Str.mem "/" (Pathlib.name p) = false.
Proof.
  unfold Pathlib.wf, Pathlib.name. intros Hwf.
  induction Hwf as [|c l [_ Hc] _ IH]; [done|].
  destruct l; [done|]. apply IH.
Qed.

Lemma unique_name_no_slash p k : Pathlib.wf p → Str.mem "/" (unique_name p k) = false.
Proof.
  intros Hwf%name_no_slash. unfold unique_name.
  rewrite !mem_app, mem_pretty_nat by done.
  unfold Pathlib.stem, Pathlib.suffix.
  destruct (Pathlib.suffix_index _); by rewrite ?mem_take, ?mem_drop, ?Hwf.
Qed.

Lemma unique_name_component p k : Pathlib.is_component (unique_name p k) = true.
Proof.
  assert (Str.mem "_" (unique_name p k) = true) as Hmem.
  { unfold unique_name. rewrite !mem_app. simpl. by rewrite orb_true_r. }
  unfold Pathlib.is_component.
  apply andb_true_intro; split; apply negb_true_iff, bool_decide_eq_false;
    intros Heq; by rewrite Heq in Hmem.
Qed.

Lemma unique_candidate_eq p k :
  Pathlib.wf p →
  unique_candidate p k
  = mkPath (Pathlib.anchored p) (removelast (Pathlib.parts p) ++ [unique_name p k]).
Proof.
  intros Hwf. unfold unique_candidate. fold (unique_name p k).
  by rewrite joinpath_component
    by auto using unique_name_no_slash, unique_name_component.
Qed.

Lemma unique_candidate_inj p i j :
  Pathlib.wf p → unique_candidate p i = unique_candidate p j → i = j.
Proof.
  intros Hwf. rewrite !unique_candidate_eq by done. intros [= H].
  apply app_inj_tail in H as [_ H]. unfold unique_name in H.
  apply String.app_inj in H. apply (String.app_inj "_") in H.
  apply app_inj_r in H. by apply pretty_nat_inj in H.
Qed.

(** The loop returns at the first free candidate from [counter] on. *)
Lemma unique_loop_first w p fuel counter q :
  unique_loop w p fuel counter = Some q →
  ∃ k, counter ≤ k < counter + fuel
       ∧ q = unique_candidate p k
       ∧ Fs.path_exists w (unique_candidate p k) = false
       ∧ ∀ j, counter ≤ j < k → Fs.path_exists w (unique_candidate p j) = true.
Proof.
  revert counter. induction fuel as [|fuel IH]; intros counter; simpl; [done|].
  destruct (Fs.path_exists w (unique_candidate p counter)) eqn:E; simpl.
  - intros (k & Hk & -> & Hfree & Hbelow)%IH. exists k. split_and!; [lia..|done|done|].
    intros j Hj. destruct (decide (j = counter)) as [->|]; [done|]. apply Hbelow. lia.
  - intros [= <-]. exists counter. split_and!; [lia..|done|done|]. intros j Hj. lia.
Qed.

(** With a free candidate within reach of the fuel, the loop returns. *)
Lemma unique_loop_returns w p fuel counter k :
  counter ≤ k < counter + fuel →
  Fs.path_exists w (unique_candidate p k) = false →
  is_Some (unique_loop w p fuel counter).
Proof.
  revert counter. induction fuel as [|fuel IH]; intros counter Hk Hfree; simpl; [lia|].
  destruct (Fs.path_exists w (unique_candidate p counter)) eqn:E; simpl; [|by eexists].
  apply IH; [|done]. destruct (decide (k = counter)) as [->|]; [congruence|lia].
Qed.

(** Among one candidate more than there are entries, one is free. *)
Lemma unique_candidate_free w p :
  Pathlib.wf p →
  ∃ k : nat, (1 ≤ k < 1 + S (size (w_nodes w)))%nat
       ∧ Fs.path_exists w (unique_candidate p k) = false.
Proof.
  intros Hwf. set (n := size (w_nodes w)).
  destruct (decide (Forall (λ k, Fs.path_exists w (unique_candidate p k) = true)
                           (seq 1 (S n)))) as [Hall|Hnot].
  - exfalso.
    set (X := list_to_set (unique_candidate p <$> seq 1 (S n)) : gset Path).
    assert (X ⊆ dom (w_nodes w)) as Hsub.
    { intros q [k [-> Hk]]%elem_of_list_to_set%list_elem_of_fmap.
      rewrite Forall_forall in Hall. specialize (Hall k Hk).
      apply elem_of_dom. unfold Fs.path_exists in Hall.
      by apply bool_decide_eq_true in Hall. }
    apply subseteq_size in Hsub. rewrite size_dom in Hsub. fold n in Hsub.
    assert (size X = S n) as HX.
    { unfold X. rewrite size_list_to_set.
      - by rewrite length_fmap, length_seq.
      - apply NoDup_fmap_2_strong; [|apply NoDup_seq].
        intros i j _ _. by apply unique_candidate_inj. }
    lia.
  - apply not_Forall_Exists in Hnot; [|intros k; apply _].
    apply Exists_exists in Hnot as (k & Hk%elem_of_seq & Hfree).
    exists k. split; [lia|]. by apply not_true_is_false.
Qed.

Lemma get_unique_filename_total w p :
  Pathlib.wf p → is_Some (get_unique_filename w p).
Proof.
  intros Hwf. unfold get_unique_filename, get_unique_filename_fuel.
  destruct (Fs.path_exists w p); cbn [negb]; [|by eexists].
  destruct (unique_candidate_free w p Hwf) as (k & Hk & Hfree).
  by apply (unique_loop_returns _ _ _ _ k).
Qed.

End UniqueFacts.

(** C7.  [get_unique_filename] returns its argument when nothing exists
    at it.  Otherwise it returns the candidate [stem_k.suffix], in the
    directory of the argument, for the least [k] from 1 on at which
    nothing exists; the loop has met every smaller [k], in order, and
    found it taken. *)
Theorem get_unique_filename_spec (w : World) (file_path : Path) :
  Pathlib.wf file_path →
  (Fs.path_exists w file_path = false →
     get_unique_filename w file_path = Some file_path)
  ∧ (Fs.path_exists w file_path = true →
     ∃ k : nat, (1 ≤ k)%nat
       ∧ get_unique_filename w file_path = Some (unique_candidate file_path k)
       ∧ Pathlib.name (unique_candidate file_path k)
         = Pathlib.stem file_path +:+ "_" +:+ pretty k +:+ Pathlib.suffix file_path
       ∧ Pathlib.parent (unique_candidate file_path k) = Pathlib.parent file_path
       ∧ Fs.path_exists w (unique_candidate file_path k) = false
       ∧ ∀ j : nat, (1 ≤ j < k)%nat →
           Fs.path_exists w (unique_candidate file_path j) = true).
Proof.
  intros Hwf. split; intros Hex.
  - unfold get_unique_filename, get_unique_filename_fuel. by rewrite Hex.
  - destruct (get_unique_filename_total w file_path Hwf) as [q Hq].
    pose proof Hq as Hq'.
    unfold get_unique_filename, get_unique_filename_fuel in Hq'.
    rewrite Hex in Hq'. cbn [negb] in Hq'.
    apply unique_loop_first in Hq' as (k & Hk & -> & Hfree & Hbelow).
    exists k. split_and!; [lia|done|..|done|done].
    + rewrite unique_candidate_eq by done. unfold Pathlib.name. simpl.
      by rewrite List.last_last.
    + rewrite unique_candidate_eq by done. unfold Pathlib.parent. simpl.
      by rewrite removelast_last.
Qed.

(** ** The file system *)

(** A run that is seen to return [a] returns it in the state it leaves. *)
Lemma done_intro {S A} `{EqDecision A} (r : Res S A) (a : A) :
  (match r with Done a' _ => bool_decide (a' = a) | Fail _ _ => false end) = true →
  r = Done a (res_state r).
Proof. destruct r as [a' s|e s]; [|done]. by intros ->%bool_decide_eq_true. Qed.

Ltac unfold_monad :=
  unfold mbind, M_bind, mret, M_ret, try_except, gets, modify, raise,
    in_world, in_store, io, zoom, lift_exc, set_backup_metadata in *.

Section FsFacts.

Implicit Types (w : World) (p q : Path).

Lemma adds_dirs_refl a ps w : adds_dirs a ps w w.
Proof. repeat split. by left. Qed.

Lemma adds_dirs_trans a ps ps' w1 w2 w3 :
  ps `prefix_of` ps' →
  adds_dirs a ps w1 w2 → adds_dirs a ps' w2 w3 → adds_dirs a ps' w1 w3.
Proof.
  intros Hps (Hd1 & Hc1 & Hr1 & H1) (Hd2 & Hc2 & Hr2 & H2).
  split_and!; [congruence..|]. intros q.
  destruct (H2 q) as [E2|(E2 & Hm2 & Ha2 & Hn2 & Hp2)];
    destruct (H1 q) as [E1|(E1 & Hm1 & Ha1 & Hn1 & Hp1)].
  - left. congruence.
  - right. rewrite E2. split_and!; [done..|]. by etrans.
  - right. rewrite <-E1. done.
  - destruct Hm1 as [m Hm1]. congruence.
Qed.

Lemma os_mkdir_done p w w' :
  Fs.os_mkdir p w = Done tt w' →
  w_nodes w !! p = None
  ∧ Pathlib.parts p ≠ []
  ∧ w' = Fs.set_nodes <[p := mkNode KDir (Fs.current_time w)]> w.
Proof.
  unfold Fs.os_mkdir, Fs.path_exists.
  case_bool_decide as Hex; [done|]. repeat case_match; try done.
  intros [= <-]. split_and!; [|done..].
  by apply eq_None_not_Some.
Qed.

Lemma os_mkdir_fail p w e w' : Fs.os_mkdir p w = Fail e w' → w' = w.
Proof. unfold Fs.os_mkdir. repeat case_match; congruence. Qed.

Lemma os_mkdir_adds p w :
  adds_dirs (Pathlib.anchored p) (Pathlib.parts p) w (res_state (Fs.os_mkdir p w)).
Proof.
  destruct (Fs.os_mkdir p w) as [[] w'|e w'] eqn:E; simpl.
  - apply os_mkdir_done in E as (Hnone & Hparts & ->). repeat split; simpl.
    intros q. destruct (decide (q = p)) as [->|Hne].
    + right. rewrite lookup_insert_eq. split_and!; [done|by eexists|done..].
    + left. by rewrite lookup_insert_ne.
  - apply os_mkdir_fail in E as ->. apply adds_dirs_refl.
Qed.

Lemma is_dir_insert_dir p m w :
  Fs.is_dir (Fs.set_nodes <[p := mkNode KDir m]> w) p = true.
Proof. unfold Fs.is_dir, Fs.set_nodes. simpl. by rewrite lookup_insert_eq. Qed.

Lemma mkdir_exist_ok_adds p w :
  adds_dirs (Pathlib.anchored p) (Pathlib.parts p) w (res_state (Fs.mkdir_exist_ok p w)).
Proof.
  unfold Fs.mkdir_exist_ok. unfold_monad.
  pose proof (os_mkdir_adds p w) as H.
  destruct (Fs.os_mkdir p w) as [[] w'|e w'] eqn:E; simpl in *; [done|].
  destruct e; simpl; by destruct (Fs.is_dir w' p).
Qed.

Lemma mkdir_exist_ok_done p w w' :
  Fs.mkdir_exist_ok p w = Done tt w' → Fs.is_dir w' p = true.
Proof.
  unfold Fs.mkdir_exist_ok. unfold_monad.
  destruct (Fs.os_mkdir p w) as [[] w1|e w1] eqn:E.
  - apply os_mkdir_done in E as (_ & _ & ->). intros [= <-]. apply is_dir_insert_dir.
  - destruct e; try done; destruct (Fs.is_dir w1 p) eqn:Ed; congruence.
Qed.

Lemma mkdir_rev_adds a up w :
  adds_dirs a (rev up) w (res_state (Fs.mkdir_rev a up w)).
Proof.
  revert w. induction up as [|x up IH]; intros w.
  - simpl. unfold_monad.
    pose proof (os_mkdir_adds (mkPath a []) w) as H.
    destruct (Fs.os_mkdir _ w) as [[] w'|e w'] eqn:E; simpl in *; [done|].
    destruct e; simpl; try done; by destruct (Fs.is_dir w' _).
  - cbn [Fs.mkdir_rev]. set (p := mkPath a (rev (x :: up))). unfold_monad.
    pose proof (os_mkdir_adds p w) as H.
    destruct (Fs.os_mkdir p w) as [[] w'|e w'] eqn:E; simpl in *; [done|].
    apply os_mkdir_fail in E as ->.
    assert (Hother : adds_dirs a (rev up ++ [x]) w
              (res_state (if Fs.is_dir w p then Done tt w else Fail e w)))
      by (destruct (Fs.is_dir w p); apply adds_dirs_refl).
    destruct e; try exact Hother.
    specialize (IH w).
    destruct (Fs.mkdir_rev a up w) as [[] w1|e1 w1]; simpl in *.
    + eapply adds_dirs_trans; [|exact IH|apply (mkdir_exist_ok_adds p)].
      by apply prefix_app_r.
    + eapply adds_dirs_trans; [|exact IH|apply adds_dirs_refl].
      by apply prefix_app_r.
Qed.

Lemma mkdir_rev_done a up w w' :
  Fs.mkdir_rev a up w = Done tt w' → Fs.is_dir w' (mkPath a (rev up)) = true.
Proof.
  destruct up as [|x up]; cbn [Fs.mkdir_rev]; unfold_monad.
  - destruct (Fs.os_mkdir _ w) as [[] w1|e w1] eqn:E.
    + apply os_mkdir_done in E as (_ & _ & ->). intros [= <-]. apply is_dir_insert_dir.
    + destruct e; try done; destruct (Fs.is_dir w1 _) eqn:Ed; congruence.
  - set (p := mkPath a (rev (x :: up))).
    destruct (Fs.os_mkdir p w) as [[] w1|e w1] eqn:E.
    + apply os_mkdir_done in E as (_ & _ & ->). intros [= <-]. apply is_dir_insert_dir.
    + destruct e; try (destruct (Fs.is_dir w1 p) eqn:Ed; congruence).
      destruct (Fs.mkdir_rev a up w1) as [[] w2|e2 w2]; [|done].
      apply mkdir_exist_ok_done.
Qed.

Lemma path_eta p : mkPath (Pathlib.anchored p) (Pathlib.parts p) = p.
Proof. by destruct p. Qed.

Lemma mkdir_parents_adds p w :
  adds_dirs (Pathlib.anchored p) (Pathlib.parts p) w (res_state (Fs.mkdir_parents p w)).
Proof.
  unfold Fs.mkdir_parents.
  rewrite <-(rev_involutive (Pathlib.parts p)) at 1. apply mkdir_rev_adds.
Qed.

Lemma mkdir_parents_done p w w' :
  Fs.mkdir_parents p w = Done tt w' → Fs.is_dir w' p = true.
Proof.
  unfold Fs.mkdir_parents. intros H%mkdir_rev_done.
  by rewrite rev_involutive, path_eta in H.
Qed.

(** On a directory that is there, nothing happens. *)
Lemma mkdir_parents_existing p w :
  Fs.is_dir w p = true → Fs.mkdir_parents p w = Done tt w.
Proof.
  intros Hdir. unfold Fs.mkdir_parents.
  assert (Fs.os_mkdir p w = Fail FileExistsError w) as Hmk.
  { unfold Fs.os_mkdir, Fs.path_exists. rewrite bool_decide_eq_true_2; [done|].
    unfold Fs.is_dir in Hdir. destruct (w_nodes w !! p); [by eexists|done]. }
  destruct (rev (Pathlib.parts p)) as [|x up] eqn:E; cbn [Fs.mkdir_rev];
    unfold_monad; rewrite <-E, rev_involutive, path_eta, Hmk; simpl;
    by rewrite Hdir.
Qed.

End FsFacts.

Section CopyFacts.

Implicit Types (w : World) (src dst : Path).

Lemma copy2_done src dst w w' :
  Fs.copy2 src dst w = Done tt w' →
  ∃ data mtime,
    w_nodes w !! src = Some (mkNode (KFile data) mtime)
    ∧ copy_target w src dst ≠ src
    ∧ (src ∉ w_denied w)
    ∧ Fs.check_target w (copy_target w src dst) = None
    ∧ w' = Fs.set_readonly (Fs.copy_mode src (copy_target w src dst))
             (Fs.set_nodes <[copy_target w src dst := mkNode (KFile data) mtime]> w).
Proof.
  unfold Fs.copy2, Fs.check_write. fold (copy_target w src dst).
  destruct (w_nodes w !! src) as [[[data|] mtime]|]; [|done..].
  destruct (decide (copy_target w src dst = src)); [done|].
  destruct (decide (src ∈ w_denied w)); [done|].
  destruct (Fs.check_target w _) eqn:E; [done|].
  destruct (_ && _); [done|].
  intros [= <-]. by exists data, mtime.
Qed.

(** A copy that is made does not go onto a read-only file. *)
Lemma copy2_writable src dst w w' :
  Fs.copy2 src dst w = Done tt w' →
  Fs.is_file w (copy_target w src dst) = true → copy_target w src dst ∉ w_readonly w.
Proof.
  unfold Fs.copy2, Fs.check_write. fold (copy_target w src dst).
  destruct (w_nodes w !! src) as [[[data|] mtime]|]; [|done..].
  destruct (decide (copy_target w src dst = src)); [done|].
  destruct (decide (src ∈ w_denied w)); [done|].
  destruct (Fs.check_target w _) eqn:E; [done|].
  intros Hrun Hfile. rewrite Hfile in Hrun. simpl in Hrun.
  by case_bool_decide.
Qed.


Lemma copy_mode_other src dst (ro : gset Path) q :
  q ≠ dst → q ∈ Fs.copy_mode src dst ro ↔ q ∈ ro.
Proof.
  intros Hq. unfold Fs.copy_mode. case_decide as Hsrc.
  - rewrite elem_of_union, elem_of_singleton. split; [by intros [?|?]|by left].
  - rewrite elem_of_difference, elem_of_singleton. split; [by intros [? _]|done].
Qed.

Lemma check_write_intro w p :
  Fs.check_target w p = None → (Fs.is_file w p = true → p ∉ w_readonly w) →
  Fs.check_write w p = None.
Proof.
  intros Hcheck Hro. unfold Fs.check_write. rewrite Hcheck.
  destruct (Fs.is_file w p); simpl; [|done].
  by rewrite bool_decide_eq_false_2 by auto.
Qed.

Lemma check_write_none w p : Fs.check_write w p = None → Fs.check_target w p = None.
Proof. unfold Fs.check_write. by destruct (Fs.check_target w p). Qed.


Lemma copy2_fail src dst w e w' : Fs.copy2 src dst w = Fail e w' → w' = w.
Proof. unfold Fs.copy2. repeat case_match; congruence. Qed.

Lemma check_target_none w p :
  Fs.check_target w p = None →
  Fs.is_dir w p = false ∧ Fs.is_dir w (Pathlib.parent p) = true ∧ p ∉ w_denied w.
Proof.
  unfold Fs.check_target.
  destruct (Fs.is_dir w p); [done|].
  destruct (Fs.is_dir w (Pathlib.parent p)); [|done]. simpl.
  by case_decide.
Qed.

Lemma check_target_intro w p :
  Fs.is_dir w p = false → Fs.is_dir w (Pathlib.parent p) = true → p ∉ w_denied w →
  Fs.check_target w p = None.
Proof.
  intros H1 H2 H3. unfold Fs.check_target. rewrite H1, H2. simpl.
  by rewrite decide_False.
Qed.

End CopyFacts.

(** ** [restore_backup] *)

Section RestoreFacts.

Context (self : BackupManager.t).
Implicit Types (l : list Entry) (b : Path) (st : Store).

Lemma get_original_path_none l b :
  (∀ e, e ∈ l → ¬ records e b) → BackupManager._get_original_path l b = Ret None.
Proof.
  induction l as [|e l IH]; intros H; simpl; [done|].
  rewrite decide_False by (apply H; left).
  apply IH. intros e' He'. apply H. by right.
Qed.


Lemma restore_backup_no_record b rp st :
  (∀ e, e ∈ st_backup_metadata st → ¬ records e b) →
  BackupManager.restore_backup self b rp st = Done false st.
Proof.
  intros H. unfold BackupManager.restore_backup. unfold_monad.
  rewrite get_original_path_none by done. simpl. by destruct st.
Qed.


Lemma parent_not_longer p :
  Pathlib.parts p ≠ [] → ¬ Pathlib.parts p `prefix_of` Pathlib.parts (Pathlib.parent p).
Proof.
  intros Hne Hpre%prefix_length. simpl in Hpre.
  destruct (Pathlib.parts p) as [|x l] using rev_ind; [done|].
  rewrite removelast_last, length_app in Hpre. simpl in Hpre. lia.
Qed.






End RestoreFacts.




(** The last words of C8 fail too: the backup of a read-only file is
    read-only, and so is the file that the first restore makes; the
    second restore cannot write it and returns false. *)
Lemma restore_backup_twice_read_only :
  let self := example_manager true in
  let b := Pathlib.of_str "/backups/song_20231114_221320.mp3" in
  let r1 := BackupManager.restore_backup self b None store_with_readonly_backup in
  let r2 := BackupManager.restore_backup self b None (res_state r1) in
  r1 = Done true (res_state r1)
  ∧ Fs.file_data (st_world (res_state r1)) (Pathlib.of_str "/music/album/song.mp3")
    = Some "ID3"
  ∧ r2 = Done false (res_state r2).
Proof.
  intros self b r1 r2. split_and!.
  - apply (done_intro r1 true). vm_compute. reflexivity.
  - vm_compute. reflexivity.
  - apply (done_intro r2 false). vm_compute. reflexivity.
Qed.

(** ** [create_backup] *)

Section CreateFacts.

Context (md5_hexdigest : string → string) (json_dump : list Entry → string).
Implicit Types (self : BackupManager.t) (st : Store) (p : Path).

Lemma create_backup_disabled self p st :
  BackupManager.backup_enabled self = false →
  BackupManager.create_backup md5_hexdigest json_dump self p st = Done None st.
Proof. intros H. unfold BackupManager.create_backup. by rewrite H. Qed.

(** What a successful [create_backup] has done. *)
Lemma create_backup_done self p st bp st' :
  BackupManager.create_backup md5_hexdigest json_dump self p st = Done (Some bp) st' →
  let w := st_world st in
  let l := st_backup_metadata st in
  let t0 := w_clock w (w_reads w) in
  let t1 := w_clock w (S (w_reads w)) in
  ∃ data mtime,
    BackupManager.backup_enabled self = true
    ∧ bp = BackupManager.backup_dir self
           // (Pathlib.stem p +:+ "_" +:+ i_stamp t0 +:+ Pathlib.suffix p)
    ∧ w_nodes w !! p = Some (mkNode (KFile data) mtime)
    ∧ (p ∉ w_denied w)
    ∧ copy_target w p bp ≠ p
    ∧ Fs.check_target w (copy_target w p bp) = None
    ∧ st_backup_metadata st' = l ++ [backup_entry md5_hexdigest p bp t1 data]
    ∧ st_world st'
      = res_state
          (Fs.write_text (BackupManager.metadata_file self)
             (json_dump (l ++ [backup_entry md5_hexdigest p bp t1 data]))
             (ticked 2 (Fs.set_readonly (Fs.copy_mode p (copy_target w p bp))
                          (Fs.set_nodes
                             <[copy_target w p bp := mkNode (KFile data) mtime]> w)))).
Proof.
  destruct st as [w l]. unfold BackupManager.create_backup.
  destruct (BackupManager.backup_enabled self); [|done]. cbn [negb].
  unfold BackupManager._add_backup_entry, BackupManager._save_backup_metadata,
    BackupManager._calculate_file_hash, Fs.now.
  unfold_monad. simpl.
  set (t0 := w_clock w (w_reads w)).
  set (bp0 := BackupManager.backup_dir self // _).
  set (w1 := mkWorld (w_nodes w) (w_denied w) (w_clock w) (S (w_reads w)) (w_readonly w)).
  destruct (Fs.copy2 p bp0 w1) as [[] w2|e w2] eqn:Ecopy; simpl; [|done].
  apply copy2_done in Ecopy as (data & mtime & Hp & Hne & Hden & Hcheck & ->).
  change (copy_target w1 p bp0) with (copy_target w p bp0) in *.
  change (Fs.check_target w1 (copy_target w p bp0))
    with (Fs.check_target w (copy_target w p bp0)) in Hcheck.
  simpl in Hp, Hden.
  assert (E : <[copy_target w p bp0 := mkNode (KFile data) mtime]> (w_nodes w) !! p
              = Some (mkNode (KFile data) mtime))
    by (by rewrite lookup_insert_ne).
  unfold Fs.stat_size, Fs.read_bytes. simpl.
  rewrite E. simpl. rewrite E. simpl.
  rewrite decide_False by done. simpl.
  fold (backup_entry md5_hexdigest p bp0 (w_clock w (S (w_reads w))) data).
  set (entry := backup_entry _ _ _ _ _).
  set (w3 := mkWorld _ _ _ _ _).
  intros Hrun. exists data, mtime.
  assert (st' = mkStore (res_state (Fs.write_text (BackupManager.metadata_file self)
                                      (json_dump (l ++ [entry])) w3)) (l ++ [entry])
          ∧ bp = bp0) as [-> ->].
  { destruct (Fs.write_text _ _ w3); simpl in Hrun; by simplify_eq. }
  by split_and!.
Qed.

End CreateFacts.

(** C10, as the code has it.  The entry appended by a successful
    [create_backup] has exactly the keys [original_path], [backup_path],
    [created_at], [file_size] and [file_hash].  The two paths are the
    strings of the path that was given and of the path that is returned
    (absolute only when those are); [created_at] is the ISO form of the
    second reading of the clock; [file_size] and [file_hash] are the
    length and the MD5 hex digest of the content of the original file. *)
Theorem create_backup_entry
    (md5_hexdigest : string → string) (json_dump : list Entry → string)
    (self : BackupManager.t) (p bp : Path) (st st' : Store) :
  BackupManager.create_backup md5_hexdigest json_dump self p st = Done (Some bp) st' →
  ∃ entry data,
    st_backup_metadata st' = st_backup_metadata st ++ [entry]
    ∧ Fs.file_data (st_world st) p = Some data
    ∧ dom entry = ({[ "original_path"; "backup_path"; "created_at";
                      "file_size"; "file_hash" ]} : gset string)
    ∧ entry !! "original_path" = Some (JStr (Pathlib.to_str p))
    ∧ entry !! "backup_path" = Some (JStr (Pathlib.to_str bp))
    ∧ entry !! "created_at"
      = Some (JStr (i_iso (w_clock (st_world st) (S (w_reads (st_world st))))))
    ∧ entry !! "file_size" = Some (JNum (Z.of_nat (String.length data)))
    ∧ entry !! "file_hash" = Some (JStr (md5_hexdigest data)).
Proof.
  intros (data & mtime & _ & _ & Hp & _ & _ & _ & Hl & _)%create_backup_done.
  eexists _, data. split; [exact Hl|].
  split; [unfold Fs.file_data; by rewrite Hp|].
  split; [unfold backup_entry, BackupManager.new_entry;
          rewrite !dom_insert_L, dom_singleton_L; set_solver|].
  by split_and!.
Qed.

Lemma create_backup_entry_witness :
  let p := Pathlib.of_str "song.mp3" in
  let bp := Pathlib.of_str "backups/song_20231114_221320.mp3" in
  let st' := res_state (BackupManager.create_backup example_md5 example_dump
                          relative_manager p relative_store) in
  ∃ entry data,
    st_backup_metadata st' = st_backup_metadata relative_store ++ [entry]
    ∧ Fs.file_data (st_world relative_store) p = Some data
    ∧ dom entry = ({[ "original_path"; "backup_path"; "created_at";
                      "file_size"; "file_hash" ]} : gset string)
    ∧ entry !! "original_path" = Some (JStr (Pathlib.to_str p))
    ∧ entry !! "backup_path" = Some (JStr (Pathlib.to_str bp))
    ∧ entry !! "created_at"
      = Some (JStr (i_iso (w_clock (st_world relative_store)
                             (S (w_reads (st_world relative_store))))))
    ∧ entry !! "file_size" = Some (JNum (Z.of_nat (String.length data)))
    ∧ entry !! "file_hash" = Some (JStr (example_md5 data)).
Proof.
  intros p bp st'.
  apply (create_backup_entry example_md5 example_dump relative_manager p bp
           relative_store st').
  apply (done_intro (BackupManager.create_backup example_md5 example_dump
                       relative_manager p relative_store) (Some bp)).
  vm_compute. reflexivity.
Defined.

(** C10 as the specification words it fails: after a successful backup
    of [song.mp3] into [./backups], the new entry has no key
    [content_hash] (the digest is under [file_hash]), and its two paths
    are relative. *)
Lemma create_backup_entry_not_as_specified :
  let p := Pathlib.of_str "song.mp3" in
  let r := BackupManager.create_backup example_md5 example_dump
             relative_manager p relative_store in
  let entry := default ∅ (last (st_backup_metadata (res_state r))) in
  r = Done (Some (Pathlib.of_str "backups/song_20231114_221320.mp3")) (res_state r)
  ∧ length (st_backup_metadata (res_state r)) = 1%nat
  ∧ entry !! "content_hash" = None
  ∧ entry !! "file_hash" = Some (JStr "md5 of ID3")
  ∧ entry !! "original_path" = Some (JStr "song.mp3")
  ∧ Str.startswith "song.mp3" "/" = false
  ∧ entry !! "backup_path" = Some (JStr "backups/song_20231114_221320.mp3")
  ∧ Str.startswith "backups/song_20231114_221320.mp3" "/" = false.
Proof.
  intros p r entry. split_and!.
  - apply (done_intro r (Some (Pathlib.of_str "backups/song_20231114_221320.mp3"))).
    vm_compute. reflexivity.
  - vm_compute. reflexivity.
  - vm_compute. reflexivity.
  - vm_compute. reflexivity.
  - vm_compute. reflexivity.
  - vm_compute. reflexivity.
  - vm_compute. reflexivity.
  - vm_compute. reflexivity.
Qed.

Lemma get_unique_filename_spec_witness :
  let w := world_with_collisions in
  let taken := Pathlib.of_str "/music/A - B.mp3" in
  let free := Pathlib.of_str "/music/C - D.mp3" in
  get_unique_filename w free = Some free
  ∧ get_unique_filename w taken = Some (Pathlib.of_str "/music/A - B_2.mp3")
  ∧ ∃ k : nat, (1 ≤ k)%nat
      ∧ get_unique_filename w taken = Some (unique_candidate taken k)
      ∧ Pathlib.name (unique_candidate taken k) = "A - B" +:+ "_" +:+ pretty k +:+ ".mp3"
      ∧ Pathlib.parent (unique_candidate taken k) = Pathlib.parent taken
      ∧ Fs.path_exists w (unique_candidate taken k) = false
      ∧ ∀ j : nat, (1 ≤ j < k)%nat → Fs.path_exists w (unique_candidate taken j) = true.
Proof.
  intros w taken free.
  assert (Hwf_taken : Pathlib.wf taken) by apply wf_of_str.
  assert (Hwf_free : Pathlib.wf free) by apply wf_of_str.
  split_and!.
  - apply (get_unique_filename_spec w free Hwf_free). vm_compute. reflexivity.
  - vm_compute. reflexivity.
  - apply (get_unique_filename_spec w taken Hwf_taken). vm_compute. reflexivity.
Defined.

(** ** Construction and the backup directory *)

Section ConstructionFacts.

Context (md5_hexdigest : string → string) (json_dump : list Entry → string)
        (json_load : string → option (list Entry)).
Implicit Types (self : BackupManager.t) (st : Store) (cfg : Config).

Lemma parent_joinpath p s :
  Str.mem "/" s = false → Pathlib.is_component s = true → Pathlib.parent (p // s) = p.
Proof.
  intros Hs Hc. rewrite joinpath_component by done.
  unfold Pathlib.parent. simpl. rewrite removelast_last. apply path_eta.
Qed.

Lemma joinpath_parts p s :
  Str.mem "/" s = false → Pathlib.is_component s = true →
  Pathlib.parts (p // s) = Pathlib.parts p ++ [s].
Proof. intros Hs Hc. by rewrite joinpath_component. Qed.

Lemma load_backup_metadata_world mf w :
  ∃ l, BackupManager._load_backup_metadata json_load mf w = Done l w
       ∧ (Fs.path_exists w mf = false → l = []).
Proof.
  unfold BackupManager._load_backup_metadata, Fs.read_bytes. unfold_monad.
  destruct (Fs.path_exists w mf); [|by eexists].
  destruct (w_nodes w !! mf) as [[[data|] mtime]|]; try (by eexists).
  case_decide; [by eexists|].
  destruct (json_load data); by eexists.
Qed.

(** What [__init__] does. *)
Lemma init_done cfg st self st1 :
  BackupManager.__init__ json_load cfg st = Done self st1 →
  let dir := config_backup_dir cfg in
  let enabled := default true (cfg_processing_backup_enabled cfg) in
  let w1 := if enabled then res_state (Fs.mkdir_parents dir (st_world st))
            else st_world st in
  self = BackupManager.mk dir enabled (dir // "backup_metadata.json")
  ∧ st_world st1 = w1
  ∧ (enabled = true → Fs.mkdir_parents dir (st_world st) = Done tt w1)
  ∧ (Fs.path_exists w1 (dir // "backup_metadata.json") = false →
     st_backup_metadata st1 = []).
Proof.
  destruct st as [w l0]. unfold BackupManager.__init__. fold (config_backup_dir cfg).
  set (dir := config_backup_dir cfg).
  destruct (default true (cfg_processing_backup_enabled cfg)) eqn:Een; unfold_monad; simpl.
  - destruct (Fs.mkdir_parents dir w) as [[] w1|e w1] eqn:Emk; simpl; [|done].
    destruct (load_backup_metadata_world (dir // "backup_metadata.json") w1)
      as (l & -> & Hl). simpl.
    intros [= <- <-]. by split_and!.
  - destruct (load_backup_metadata_world (dir // "backup_metadata.json") w)
      as (l & -> & Hl). simpl.
    intros [= <- <-]. by split_and!.
Qed.

(** With backups disabled and no ledger, no call changes anything. *)
Lemma run_op_disabled self w op :
  BackupManager.backup_enabled self = false →
  run_op md5_hexdigest json_dump self (mkStore w []) op = mkStore w [].
Proof.
  intros Hoff. destruct op as [p|b rp|p|days]; cbn [run_op].
  - by rewrite create_backup_disabled.
  - rewrite restore_backup_no_record; [done|]. by intros e ?%elem_of_nil.
  - unfold BackupManager.list_backups. unfold_monad. by destruct p.
  - unfold BackupManager.cleanup_old_backups. by rewrite Hoff.
Qed.

Lemma run_ops_disabled self w ops :
  BackupManager.backup_enabled self = false →
  run_ops md5_hexdigest json_dump self ops (mkStore w []) = mkStore w [].
Proof.
  intros Hoff. induction ops as [|op ops IH]; [done|].
  unfold run_ops in *. simpl. by rewrite run_op_disabled.
Qed.

End ConstructionFacts.

(** C9, as the code has it.  With backups disabled, [create_backup]
    returns none and changes nothing, construction leaves the world as
    it is, and no sequence of calls on the manager creates the backup
    directory.  With backups enabled, the backup directory exists as
    soon as the manager is constructed; the ledger file is not written by
    the construction, and is there after the first successful backup
    (when it can be written). *)
Theorem backup_directory_creation
    (md5_hexdigest : string → string) (json_dump : list Entry → string)
    (json_load : string → option (list Entry))
    (cfg : Config) (st st1 : Store) (self : BackupManager.t) :
  BackupManager.__init__ json_load cfg st = Done self st1 →
  let w := st_world st in
  let dir := BackupManager.backup_dir self in
  let mf := BackupManager.metadata_file self in
  (BackupManager.backup_enabled self = false →
     (∀ p st2, BackupManager.create_backup md5_hexdigest json_dump self p st2
               = Done None st2)
     ∧ st_world st1 = w
     ∧ (consistent w → ∀ ops,
          Fs.is_dir (st_world (run_ops md5_hexdigest json_dump self ops st1)) dir = true →
          Fs.is_dir w dir = true))
  ∧ (BackupManager.backup_enabled self = true →
     Fs.is_dir (st_world st1) dir = true
     ∧ w_nodes (st_world st1) !! mf = w_nodes w !! mf
     ∧ (∀ p bp st2 st3,
          BackupManager.create_backup md5_hexdigest json_dump self p st2
            = Done (Some bp) st3 →
          Fs.is_dir (st_world st2) dir = true →
          Fs.is_dir (st_world st2) mf = false →
          mf ∉ w_denied (st_world st2) →
          Fs.is_file (st_world st3) mf = true)).
Proof.
  intros (-> & Hw1 & Hmk & Hledger)%init_done. simpl.
  set (dir := config_backup_dir cfg) in *.
  set (mf := dir // "backup_metadata.json") in *.
  assert (Hparent : Pathlib.parent mf = dir) by (by apply parent_joinpath).
  assert (Hparts : Pathlib.parts mf = Pathlib.parts dir ++ ["backup_metadata.json"])
    by (by apply joinpath_parts).
  split; intros Hen; rewrite Hen in *.
  - split_and!; [intros; by apply create_backup_disabled|done|].
    intros Hcons ops Hdir.
    destruct (Fs.is_dir (st_world st) dir) eqn:Edir; [done|exfalso].
    assert (Fs.path_exists (st_world st) mf = false) as Hnomf.
    { apply bool_decide_eq_false. intros Hex.
      assert (Pathlib.parts mf ≠ []) as Hne
        by (rewrite Hparts; by destruct (Pathlib.parts dir)).
      pose proof (Hcons mf Hex Hne) as Hd. rewrite Hparent in Hd. congruence. }
    specialize (Hledger Hnomf).
    destruct st1 as [w1 l1]. simpl in Hw1, Hledger. subst w1 l1.
    rewrite run_ops_disabled in Hdir by done. simpl in Hdir. congruence.
  - specialize (Hmk eq_refl).
    pose proof (mkdir_parents_adds dir (st_world st)) as (_ & _ & _ & Hadd).
    rewrite Hmk in Hadd. simpl in Hadd. rewrite Hw1, Hmk. simpl.
    split_and!.
    + by apply mkdir_parents_done in Hmk.
    + destruct (Hadd mf) as [->|(_ & _ & _ & _ & Hpre%prefix_length)]; [done|].
      rewrite Hparts, length_app in Hpre. simpl in Hpre. lia.
    + intros p bp st2 st3 Hrun Hdir Hmfdir Hmfden.
      apply create_backup_done in Hrun
        as (data & mtime & _ & _ & _ & _ & _ & Hcheck & _ & ->). simpl in *.
      apply check_target_none in Hcheck as (Htdir & _ & _).
      set (target := copy_target (st_world st2) p bp) in *.
      set (w' := ticked 2 _).
      assert (Fs.check_target w' mf = None) as Hmf.
      { apply check_target_intro; [| |done].
        - unfold Fs.is_dir, w' in *. simpl.
          destruct (decide (target = mf)) as [->|];
            [by rewrite lookup_insert_eq|by rewrite lookup_insert_ne].
        - rewrite Hparent. unfold Fs.is_dir, w' in *. simpl.
          rewrite lookup_insert_ne; [done|]. intros ->. congruence. }
      unfold Fs.write_text, Fs.check_write. rewrite Hmf.
      destruct (Fs.is_file w' mf) eqn:Efile; simpl.
      * destruct (bool_decide _); simpl; [done|].
        unfold Fs.is_file. simpl. by rewrite lookup_insert_eq.
      * unfold Fs.is_file. simpl. by rewrite lookup_insert_eq.
Qed.

Lemma backup_directory_creation_witness :
  let r := BackupManager.__init__ example_load enabled_config fresh_store in
  let st1 := res_state r in
  let st3 := res_state (BackupManager.create_backup example_md5 example_dump
                          relative_manager (Pathlib.of_str "song.mp3") st1) in
  r = Done relative_manager st1
  ∧ Fs.is_dir (st_world st1) (Pathlib.of_str "backups") = true
  ∧ Fs.path_exists (st_world st1) (Pathlib.of_str "backups/backup_metadata.json") = false
  ∧ Fs.is_file (st_world st3) (Pathlib.of_str "backups/backup_metadata.json") = true.
Proof.
  intros r st1 st3.
  assert (Hinit : r = Done relative_manager st1)
    by (apply (done_intro r relative_manager); vm_compute; reflexivity).
  destruct (backup_directory_creation example_md5 example_dump example_load
              enabled_config fresh_store st1 relative_manager Hinit)
    as [_ Hon].
  destruct (Hon eq_refl) as (Hdir & Hmf & Hfirst).
  split_and!; [exact Hinit|exact Hdir|vm_compute; reflexivity|].
  apply (Hfirst (Pathlib.of_str "song.mp3")
           (Pathlib.of_str "backups/song_20231114_221320.mp3") st1 st3).
  - apply (done_intro _ (Some (Pathlib.of_str "backups/song_20231114_221320.mp3"))).
    vm_compute. reflexivity.
  - exact Hdir.
  - vm_compute. reflexivity.
  - vm_compute. intros H. discriminate H.
Defined.

(** C9 as the specification words it fails: with backups enabled, the
    backup directory does not exist before the manager is constructed
    and exists right after, before any backup is asked for. *)
Lemma init_creates_backup_directory :
  let r := BackupManager.__init__ example_load enabled_config fresh_store in
  BackupManager.backup_enabled relative_manager = true
  ∧ Fs.path_exists (st_world fresh_store) (Pathlib.of_str "backups") = false
  ∧ r = Done relative_manager (res_state r)
  ∧ Fs.is_dir (st_world (res_state r)) (Pathlib.of_str "backups") = true.
Proof.
  intros r. split_and!.
  - reflexivity.
  - vm_compute. reflexivity.
  - apply (done_intro r relative_manager). vm_compute. reflexivity.
  - vm_compute. reflexivity.
Qed.

(** ** [cleanup_old_backups] *)

Section CleanupFacts.

Implicit Types (self : BackupManager.t) (st : Store) (e : Entry) (es : list Entry).






End CleanupFacts.





(** ** [process_file] *)

Section ProcessFacts.

Lemma keeps_in_store {A} (m : M Store A) : keeps_flags (in_store m).
Proof. intros [st r]. unfold in_store, zoom. simpl. by destruct (m st). Qed.

Lemma keeps_io {A} (m : M World A) : keeps_flags (io m).
Proof. apply keeps_in_store. Qed.

Lemma keeps_lift_exc {A} (x : Exc A) : keeps_flags (lift_exc x : M Proc A).
Proof. intros p. by destruct x. Qed.

Lemma keeps_mret {A} (a : A) : keeps_flags (mret a : M Proc A).
Proof. done. Qed.

Lemma keeps_add_warning msg : keeps_flags (add_warning msg).
Proof. done. Qed.

Lemma keeps_set_metadata md : keeps_flags (set_metadata md).
Proof. done. Qed.

Lemma keeps_set_new_path q : keeps_flags (set_new_path q).
Proof. done. Qed.

Lemma keeps_bind {A B} (m : M Proc A) (k : A → M Proc B) :
  keeps_flags m → (∀ a, keeps_flags (k a)) → keeps_flags (m ≫= k).
Proof.
  intros Hm Hk p. unfold mbind, M_bind. specialize (Hm p).
  destruct (m p) as [a p1|e p1]; simpl in *; [|done].
  by rewrite Hk.
Qed.

Lemma settles_bind {A} (m : M Proc A) (k : A → M Proc unit) :
  keeps_flags m → (∀ a, settles (k a)) → settles (m ≫= k).
Proof.
  intros Hm Hk p Hp. unfold mbind, M_bind. specialize (Hm p).
  destruct (m p) as [a p1|e p1]; simpl in *; [|congruence].
  apply Hk. congruence.
Qed.

Lemma settles_add_error msg : settles (add_error msg).
Proof.
  intros [st r] [= Hs He]. simpl in *. right. split; [done|].
  by destruct (errors r).
Qed.

Lemma settles_set_success : settles set_success.
Proof. intros [st r] [= Hs He]. simpl in *. left. by rewrite He. Qed.

End ProcessFacts.

Section ProcessFileFacts.

Context (format_ok : Path → string → bool)
        (audio_tags : Path → string → Metadata)
        (audio_retag : Path → string → Metadata → option string)
        (md5_hexdigest : string → string)
        (json_dump : list Entry → string).

Lemma io_unfold {A} (m : M World A) p :
  io m p = match m (st_world (pr_store p)) with
           | Done a w => Done a (with_world w p)
           | Fail e w => Fail e (with_world w p)
           end.
Proof. unfold io, in_store, in_world, zoom. by destruct (m _). Qed.

Lemma process_file_steps_settles (self : FileProcessor.t) (file_path : Path) :
  settles (FileProcessor.process_file_steps format_ok audio_tags audio_retag
             md5_hexdigest json_dump self file_path).
Proof.
  unfold FileProcessor.process_file_steps.
  apply settles_bind; [apply keeps_io|]. intros valid.
  destruct valid; cbn [negb]; [|apply settles_add_error].
  apply settles_bind.
  { destruct (default true _); [|apply keeps_mret].
    apply keeps_bind; [apply keeps_in_store|].
    intros [bp|]; [apply keeps_mret|apply keeps_add_warning]. }
  intros _. apply settles_bind; [apply keeps_io|]. intros md.
  apply settles_bind; [apply keeps_set_metadata|]. intros _.
  apply settles_bind; [apply keeps_lift_exc|]. intros new_filename.
  case_decide; [apply settles_add_error|].
  apply settles_bind; [apply keeps_io|]. intros new_path.
  apply settles_bind; [apply keeps_set_new_path|]. intros _.
  apply settles_bind.
  { destruct (default true _); [|apply keeps_mret].
    apply keeps_bind; [apply keeps_io|].
    intros [|]; [apply keeps_mret|apply keeps_add_warning]. }
  intros _. apply settles_bind; [apply keeps_io|].
  intros [|]; [apply settles_set_success|apply settles_add_error].
Qed.

End ProcessFileFacts.

(** C4.  In the result of [process_file], success and errors exclude
    each other and one of them is there: a result with an error has
    [success = false], and a result without error has [success = true]
    whatever its warnings are.  The steps that can fail a file are the two
    validations, the extraction of the metadata, the new name and the
    rename.  When each of them succeeds in the state that the steps before
    it have left, the result has [success = true] and no error, whatever
    the backup of step 2 and the update of step 6 have come to: each of
    the two that failed has left its warning and nothing else. *)
Theorem process_file_success_iff_no_error
    (format_ok : Path → string → bool)
    (audio_tags : Path → string → Metadata)
    (audio_retag : Path → string → Metadata → option string)
    (md5_hexdigest : string → string) (json_dump : list Entry → string)
    (self : FileProcessor.t) (file_path : Path) (st : Store) :
  let cfg := FileProcessor.config self in
  let run :=
    FileProcessor.process_file format_ok audio_tags audio_retag
      md5_hexdigest json_dump self file_path st in
  let result := run.1 in
  (errors result ≠ [] → success result = false)
  ∧ (errors result = [] → success result = true)
  ∧ ∀ (backup_failed update_failed : bool) (st2 : Store) (md : Metadata)
      (w3 w5 w6 : World) (new_filename : string) (new_path : Path),
      (* step 1 *)
      FileValidator.validate_file format_ok file_path (st_world st)
        = Done true (st_world st) →
      (* step 2, which may fail *)
      (if default true (cfg_backup_enabled cfg) then
         ∃ backup_path,
           BackupManager.create_backup md5_hexdigest json_dump
             (FileProcessor.backup_manager self) file_path st = Done backup_path st2
           ∧ backup_failed = bool_decide (backup_path = None)
       else st2 = st ∧ backup_failed = false) →
      (* steps 3 to 5 *)
      MetadataHandler.extract_metadata audio_tags cfg file_path (st_world st2)
        = Done md w3 →
      FileRenamer.generate_filename cfg file_path md = Ret new_filename →
      new_filename ≠ "" →
      FileRenamer.rename_file file_path new_filename w3 = Done new_path w5 →
      (* step 6, which may fail *)
      (if default true (cfg_update_metadata cfg) then
         ∃ ok,
           MetadataHandler.update_metadata audio_retag cfg new_path md w5 = Done ok w6
           ∧ update_failed = negb ok
       else w6 = w5 ∧ update_failed = false) →
      (* step 7 *)
      FileValidator.validate_file format_ok new_path w6 = Done true w6 →
      run = (mkResult true file_path (Some new_path) md []
               ((if backup_failed then ["Failed to create backup"] else [])
                ++ (if update_failed then ["Failed to update metadata"] else [])),
             mkStore w6 (st_backup_metadata st2)).
Proof.
  intros cfg run result. subst result run. split_and!.
  1,2: unfold FileProcessor.process_file; simpl;
    set (p0 := mkProc st _);
    pose proof (process_file_steps_settles format_ok audio_tags audio_retag
                  md5_hexdigest json_dump self file_path p0 eq_refl) as H;
    unfold try_except;
    destruct (FileProcessor.process_file_steps _ _ _ _ _ _ _ p0) as [[] p1|e p1];
    simpl; [destruct H as [[= -> ->]|[-> Hne]]; done|injection H as -> ->; done].
  intros backup_failed update_failed st2 md w3 w5 w6 new_filename new_path
    Hvalid Hbackup Hmd Hname Hne Hrename Hupdate Hfinal.
  unfold FileProcessor.process_file. cbv zeta.
  set (warn2 := if backup_failed then ["Failed to create backup"] else []).
  set (warn6 := if update_failed then ["Failed to update metadata"] else []).
  set (p0 := mkProc st _).
  assert (FileProcessor.process_file_steps format_ok audio_tags audio_retag
            md5_hexdigest json_dump self file_path p0
          = Done tt (mkProc (mkStore w6 (st_backup_metadata st2))
                            (mkResult true file_path (Some new_path) md []
                                      (warn2 ++ warn6)))) as Hsteps; [|
    unfold try_except; by rewrite Hsteps].
  unfold FileProcessor.process_file_steps. fold cfg.
  (* step 1 *)
  unfold mbind at 1, M_bind at 1. rewrite io_unfold. simpl pr_store. simpl st_world.
  rewrite Hvalid. cbn [negb].
  (* step 2 *)
  unfold mbind at 1, M_bind at 1.
  assert (Hstep2 :
    (if default true (cfg_backup_enabled cfg) then
       in_store (BackupManager.create_backup md5_hexdigest json_dump
                   (FileProcessor.backup_manager self) file_path)
       ≫= λ backup_path : option Path,
            match backup_path with
            | Some _ => mret tt
            | None => add_warning "Failed to create backup"
            end
     else mret tt) (with_world (st_world st) p0)
    = Done tt (mkProc st2 (mkResult false file_path None ∅ [] warn2))).
  { unfold with_world, p0, warn2. destruct st as [w l]. simpl in *.
    destruct (default true (cfg_backup_enabled cfg)).
    - destruct Hbackup as (backup_path & Hbackup & ->).
      unfold mbind, M_bind, in_store, zoom. simpl. rewrite Hbackup.
      by destruct backup_path.
    - by destruct Hbackup as [-> ->]. }
  rewrite Hstep2. clear Hstep2.
  (* steps 3 to 5 *)
  unfold mbind at 1, M_bind at 1. rewrite io_unfold. simpl pr_store.
  rewrite Hmd.
  unfold mbind at 1, M_bind at 1. unfold set_metadata at 1, update_result at 1, modify at 1.
  unfold mbind at 1, M_bind at 1. rewrite Hname. simpl lift_exc. unfold mret at 1, M_ret at 1.
  rewrite decide_False by done.
  unfold mbind at 1, M_bind at 1. rewrite io_unfold. simpl pr_store. simpl st_world.
  rewrite Hrename.
  unfold mbind at 1, M_bind at 1. unfold set_new_path at 1, update_result at 1, modify at 1.
  (* step 6 *)
  unfold mbind at 1, M_bind at 1.
  set (p5 := mkProc _ _).
  assert (Hstep6 :
    (if default true (cfg_update_metadata cfg) then
       io (MetadataHandler.update_metadata audio_retag cfg new_path md)
       ≫= λ ok : bool,
            if negb ok then add_warning "Failed to update metadata" else mret tt
     else mret tt) p5
    = Done tt (mkProc (mkStore w6 (st_backup_metadata st2))
                      (mkResult false file_path (Some new_path) md []
                                (warn2 ++ warn6)))).
  { unfold p5, warn6. destruct (default true (cfg_update_metadata cfg)).
    - destruct Hupdate as (ok & Hupdate & ->).
      unfold mbind, M_bind. rewrite io_unfold. simpl. rewrite Hupdate.
      destruct ok; simpl; [by rewrite app_nil_r|done].
    - destruct Hupdate as [-> ->]. simpl. by rewrite app_nil_r. }
  rewrite Hstep6. clear Hstep6.
  (* step 7 *)
  unfold mbind, M_bind. rewrite io_unfold. simpl pr_store. simpl st_world.
  by rewrite Hfinal.
Qed.

Lemma process_file_success_iff_no_error_witness :
  let self := FileProcessor.mk warning_config (example_manager false) in
  let file_path := Pathlib.of_str "/music/song.mp3" in
  let new_path := Pathlib.of_str "/music/A - B_2.mp3" in
  let st := mkStore world_with_collisions [] in
  let md := example_tags file_path "ID3" in
  let w3 := res_state (MetadataHandler.extract_metadata example_tags warning_config
                         file_path world_with_collisions) in
  let w5 := res_state (FileRenamer.rename_file file_path "A - B.mp3" w3) in
  let w6 := res_state (MetadataHandler.update_metadata example_retag_fails warning_config
                         new_path md w5) in
  FileProcessor.process_file example_format_ok example_tags example_retag_fails
    example_md5 example_dump self file_path st
  = (mkResult true file_path (Some new_path) md []
       (["Failed to create backup"] ++ ["Failed to update metadata"]),
     mkStore w6 []).
Proof.
  intros self file_path new_path st md w3 w5 w6.
  refine (proj2 (proj2 (process_file_success_iff_no_error
            example_format_ok example_tags example_retag_fails example_md5 example_dump
            self file_path st))
          true true st md w3 w5 w6 "A - B.mp3" new_path _ _ _ _ _ _ _ _).
  - reflexivity.
  - exists None. split; reflexivity.
  - apply (done_intro (MetadataHandler.extract_metadata example_tags warning_config
                         file_path world_with_collisions) md).
    vm_compute. reflexivity.
  - vm_compute. reflexivity.
  - discriminate.
  - apply (done_intro (FileRenamer.rename_file file_path "A - B.mp3" w3) new_path).
    vm_compute. reflexivity.
  - exists false. split; [|reflexivity].
    apply (done_intro (MetadataHandler.update_metadata example_retag_fails warning_config
                         new_path md w5) false).
    vm_compute. reflexivity.
  - reflexivity.
Defined.

(** [generate_filename] never returns the empty string for a file that
    has a name, so the test that guards step 4 of [process_file] never
    fires for such a file. *)
Lemma generate_filename_nonempty cfg file_path md new_filename :
  Pathlib.name file_path ≠ "" →
  FileRenamer.generate_filename cfg file_path md = Ret new_filename →
  new_filename ≠ "".
Proof.
  intros Hname. unfold FileRenamer.generate_filename, FileRenamer.fill_pattern.
  unfold mbind, exc_bind.
  destruct (FileRenamer._is_audio cfg file_path) as [[]|]; [| |done].
  - destruct (str_format _ md) as [s|[]]; intros [= <-];
      auto using sanitize_filename_nonempty.
  - destruct (FileRenamer._is_video cfg file_path) as [[]|]; [| |done].
    + destruct (str_format _ md) as [s|[]]; intros [= <-];
        auto using sanitize_filename_nonempty.
    + by intros [= <-].
Qed.

(** C1 on a run.  The file [/music/song.mp3] passes validation and has
    no tag, so both placeholders of the audio pattern are missing from
    the extracted metadata.
    [generate_filename] returns the name of the file, which is not
    empty: [process_file] records no error, renames the file to
    [song_1.mp3] and reports success. *)
Theorem process_file_renames_on_missing_placeholder :
  let cfg := example_config "{artist} - {title}" in
  let self := FileProcessor.mk cfg (example_manager false) in
  let file_path := Pathlib.of_str "/music/song.mp3" in
  let st := mkStore world_with_collisions [] in
  let out :=
    FileProcessor.process_file example_format_ok example_no_tags example_retag
      example_md5 example_dump self file_path st in
  (match FileValidator.validate_file example_format_ok file_path (st_world st) with
   | Done valid _ => valid
   | Fail _ _ => false
   end) = true
  ∧ pattern_of_kind cfg file_path = Some "{artist} - {title}"
  ∧ placeholders "{artist} - {title}" = Some ["artist"; "title"]
  ∧ metadata out.1 !! "artist" = None
  ∧ metadata out.1 !! "title" = None
  ∧ FileRenamer.generate_filename cfg file_path (metadata out.1) = Ret "song.mp3"
  ∧ errors out.1 = []
  ∧ success out.1 = true
  ∧ new_path out.1 = Some (Pathlib.of_str "/music/song_1.mp3")
  ∧ Fs.path_exists (st_world out.2) file_path = false
  ∧ Fs.file_data (st_world out.2) (Pathlib.of_str "/music/song_1.mp3") = Some "ID3".
Proof. intros cfg self file_path st out. split_and!; vm_compute; reflexivity. Qed.

(** * Further properties of the code *)

(** ** [sanitize_filename], once more *)

Section SanitizeMore.

Implicit Types (s t r chars : string) (c d : ascii).

Lemma rstrip_idem chars s : Str.rstrip chars (Str.rstrip chars s) = Str.rstrip chars s.
Proof.
  induction s as [|a s IH]; simpl; [done|].
  destruct (Str.rstrip chars s) as [|b t] eqn:E.
  - destruct (Str.mem a chars) eqn:Ea; simpl; [done|]. by rewrite Ea.
  - simpl in *. rewrite IH. done.
Qed.

Lemma lstrip_head chars s :
  Str.lstrip chars s = "" ∨ ∃ a r, Str.lstrip chars s = String a r ∧ Str.mem a chars = false.
Proof.
  induction s as [|a s IH]; simpl; [by left|].
  destruct (Str.mem a chars) eqn:E; [done|]. right. by exists a, s.
Qed.

Lemma rstrip_head chars a r :
  Str.mem a chars = false → ∃ r', Str.rstrip chars (String a r) = String a r'.
Proof.
  intros Ha. simpl. destruct (Str.rstrip chars r); [|by eexists].
  rewrite Ha. by eexists.
Qed.

Lemma strip_head chars s :
  Str.strip chars s = ""
  ∨ ∃ a r, Str.strip chars s = String a r ∧ Str.mem a chars = false.
Proof.
  unfold Str.strip. destruct (lstrip_head chars s) as [->|(a & r & -> & Ha)]; [by left|].
  right. destruct (rstrip_head chars a r Ha) as [r' ->]. by exists a, r'.
Qed.

Lemma strip_idem chars s : Str.strip chars (Str.strip chars s) = Str.strip chars s.
Proof.
  destruct (strip_head chars s) as [->|(a & r & E & Ha)]; [done|].
  unfold Str.strip at 1. rewrite E. simpl. rewrite Ha. rewrite <-E.
  unfold Str.strip. apply rstrip_idem.
Qed.

End SanitizeMore.

(** X1.  [sanitize_filename] is idempotent: a name that it has returned is
    returned as it is when it is sanitised again. *)
Theorem sanitize_filename_idempotent (filename : string) :
  sanitize_filename (sanitize_filename filename "_") "_" = sanitize_filename filename "_".
Proof.
  assert (Hid : ∀ r, (∀ c, Str.mem c invalid_chars = true → Str.mem c r = false) →
                     Str.strip " ." r = r → r ≠ "" → sanitize_filename r "_" = r).
  { intros r Hvalid Hstrip Hne. unfold sanitize_filename.
    rewrite replace_all_absent by (intros c Hc; apply Hvalid; by apply mem_list).
    rewrite Hstrip. by rewrite decide_False. }
  apply Hid.
  - intros c Hc. by apply sanitize_filename_valid.
  - unfold sanitize_filename. case_decide; [done|]. apply strip_idem.
  - apply sanitize_filename_nonempty.
Qed.

Lemma sanitize_filename_head s :
  ∃ a r, sanitize_filename s "_" = String a r ∧ Str.mem a " ." = false.
Proof.
  unfold sanitize_filename. case_decide as E; [by eexists _, _|].
  destruct (strip_head " ." (fold_left (λ f char, Str.replace char "_" f)
                               (list_ascii_of_string invalid_chars) s))
    as [E'|(a & r & E' & Ha)]; [done|].
  rewrite E'. by exists a, r.
Qed.

Lemma sanitize_filename_component s :
  Str.mem "/" (sanitize_filename s "_") = false
  ∧ Pathlib.is_component (sanitize_filename s "_") = true.
Proof.
  split; [by apply sanitize_filename_valid|].
  destruct (sanitize_filename_head s) as (a & r & -> & Ha).
  unfold Pathlib.is_component. simpl in Ha.
  repeat case_decide; try done.
  apply andb_true_intro; split; apply negb_true_iff, bool_decide_eq_false; congruence.
Qed.

(** X2.  A sanitised name is a single path component: joined to a directory,
    it names an entry of that directory, under the sanitised name, and it is
    neither [.] nor [..]. *)
Theorem sanitize_filename_stays_in_directory (directory : Path) (filename : string) :
  let name := sanitize_filename filename "_" in
  Pathlib.parent (directory // name) = directory
  ∧ Pathlib.name (directory // name) = name
  ∧ name ≠ ".." ∧ name ≠ ".".
Proof.
  intros name. destruct (sanitize_filename_component filename) as [Hslash Hcomp].
  fold name in Hslash, Hcomp. split_and!.
  - by apply parent_joinpath.
  - rewrite joinpath_component by done. unfold Pathlib.name. simpl. apply List.last_last.
  - destruct (sanitize_filename_head filename) as (a & r & E & Ha). fold name in E.
    rewrite E. intros [= -> _]. done.
  - destruct (sanitize_filename_head filename) as (a & r & E & Ha). fold name in E.
    rewrite E. intros [= -> _]. done.
Qed.

(** ** [create_directory_safe], [copy_file_safe] and [move_file_safe] *)

Section DirectoryFacts.

Implicit Types (w : World) (p q : Path).






(** A path that is longer than every directory added is not added. *)
Lemma adds_dirs_longer a ps w w' q :
  adds_dirs a ps w w' → ¬ Pathlib.parts q `prefix_of` ps →
  w_nodes w' !! q = w_nodes w !! q.
Proof. intros (_ & _ & _ & H) Hq. destruct (H q) as [?|(_ & _ & _ & _ & ?)]; done. Qed.

Lemma adds_dirs_keeps a ps w w' q n :
  adds_dirs a ps w w' → w_nodes w !! q = Some n → w_nodes w' !! q = Some n.
Proof. intros (_ & _ & _ & H) Hq. destruct (H q) as [->|(? & _)]; congruence. Qed.

Lemma same_entry_refl n : same_entry n n.
Proof. unfold same_entry. by destruct (n_kind n). Qed.


Lemma kept_lookup w w' q : w_nodes w' !! q = w_nodes w !! q → kept w w' q.
Proof. intros E n Hn. exists n. split; [congruence|apply same_entry_refl]. Qed.


Lemma adds_dirs_kept a ps w w' q : adds_dirs a ps w w' → kept w w' q.
Proof.
  intros Hadd n Hn. exists n. split; [|apply same_entry_refl].
  by apply (adds_dirs_keeps a ps w).
Qed.



End DirectoryFacts.


Section CopyMoveFacts.

Implicit Types (w : World) (src dst p q : Path).

(** Making the parents of a path leaves the path itself as it is. *)
Lemma mkdir_parent_frame dst w :
  Pathlib.parts dst ≠ [] →
  w_nodes (res_state (Fs.mkdir_parents (Pathlib.parent dst) w)) !! dst = w_nodes w !! dst.
Proof.
  intros Hne. eapply adds_dirs_longer; [apply mkdir_parents_adds|].
  by apply parent_not_longer.
Qed.

Lemma is_dir_lookup w w' p :
  w_nodes w' !! p = w_nodes w !! p → Fs.is_dir w' p = Fs.is_dir w p.
Proof. unfold Fs.is_dir. by intros ->. Qed.

Lemma path_exists_lookup w p : Fs.path_exists w p = false → w_nodes w !! p = None.
Proof. intros H%bool_decide_eq_false. by apply eq_None_not_Some. Qed.

(** The parents of an anchor that is missing cannot be made. *)
Lemma mkdir_parents_anchor p w :
  Pathlib.parts p = [] → Fs.path_exists w p = false →
  ∃ e, Fs.mkdir_parents (Pathlib.parent p) w = Fail e w.
Proof.
  intros Hparts Hex. unfold Fs.mkdir_parents, Pathlib.parent. rewrite Hparts. simpl.
  unfold try_except, Fs.os_mkdir. simpl.
  assert (mkPath (Pathlib.anchored p) [] = p) as -> by (destruct p; simpl in *; by subst).
  rewrite Hex. simpl. by eexists.
Qed.

(** The rename of an entry that is no directory. *)
Lemma rename_done src dst w w' :
  Fs.rename src dst w = Done tt w' →
  Fs.is_dir w src = false →
  ∃ data mtime,
    w_nodes w !! src = Some (mkNode (KFile data) mtime)
    ∧ (src ∉ w_denied w)
    ∧ Fs.check_target w dst = None
    ∧ w' = Fs.set_readonly (λ ro, Fs.copy_mode src dst ro ∖ ({[src]} ∖ {[dst]}))
             (Fs.set_nodes (λ m, <[dst := mkNode (KFile data) mtime]> (delete src m)) w).
Proof.
  unfold Fs.rename, Fs.is_dir.
  destruct (w_nodes w !! src) as [[[data|] mtime]|]; [|done..].
  destruct (decide (src ∈ w_denied w)); [done|].
  destruct (Fs.check_target w dst) eqn:E; [done|].
  intros [= <-] _. by exists data, mtime.
Qed.

Lemma rename_fail src dst w e w' : Fs.rename src dst w = Fail e w' → w' = w.
Proof. unfold Fs.rename. repeat case_match; congruence. Qed.

Lemma unlink_done p w w' :
  Fs.unlink p w = Done tt w' →
  w' = Fs.set_readonly (λ ro, ro ∖ {[p]}) (Fs.set_nodes (delete p) w).
Proof. unfold Fs.unlink. repeat case_match; congruence. Qed.


End CopyMoveFacts.

(** X4.  [copy_file_safe] without [overwrite] never raises and keeps every
    entry that was there, whatever it returns: a file with its content
    and modification time, a directory as a directory. *)
Theorem copy_file_safe_never_overwrites (source destination : Path) (w : World) :
  ∃ ok w',
    copy_file_safe source destination false w = Done ok w'
    ∧ ∀ q, kept w w' q.
Proof.
  unfold copy_file_safe. unfold_monad.
  destruct (Fs.path_exists w destination) eqn:Eex; simpl.
  { exists false, w. split; [done|]. intros q. by apply kept_lookup. }
  destruct (decide (Pathlib.parts destination = [])) as [Hparts|Hparts].
  { destruct (mkdir_parents_anchor destination w Hparts Eex) as [e ->]. simpl.
    exists false, w. split; [done|]. intros q. by apply kept_lookup. }
  pose proof (mkdir_parents_adds (Pathlib.parent destination) w) as Hadd.
  pose proof (mkdir_parent_frame destination w Hparts) as Hdst.
  destruct (Fs.mkdir_parents (Pathlib.parent destination) w) as [[] w1|e1 w1];
    simpl in Hadd, Hdst.
  2:{ exists false, w1. split; [done|]. intros q. by eapply adds_dirs_kept. }
  apply path_exists_lookup in Eex.
  destruct (Fs.copy2 source destination w1) as [[] w2|e2 w2] eqn:Ecopy; simpl.
  2:{ apply copy2_fail in Ecopy as ->. exists false, w1. split; [done|].
      intros q. by eapply adds_dirs_kept. }
  apply copy2_done in Ecopy as (data & mtime & _ & _ & _ & _ & ->).
  exists true. eexists. split; [done|]. intros q n Hq. simpl.
  assert (copy_target w1 source destination = destination) as ->.
  { unfold copy_target, Fs.is_dir. by rewrite Hdst, Eex. }
  exists n. split; [|apply same_entry_refl].
  rewrite lookup_insert_ne by congruence.
  by apply (adds_dirs_keeps _ _ _ _ q n Hadd).
Qed.

(** X5.  When [copy_file_safe] returns true for a destination that is
    neither a directory nor a bare anchor, the source is as it was and the
    destination is a file with its content and modification time, in a
    directory; [get_file_size] and [calculate_file_hash] give the same on
    both. *)
Theorem copy_file_safe_copies (hashlib_new : string → option (string → string))
    (source destination : Path) (overwrite : bool) (algorithm : string) (w w' : World) :
  copy_file_safe source destination overwrite w = Done true w' →
  Fs.is_dir w destination = false →
  Pathlib.parts destination ≠ [] →
  ∃ data mtime,
    w_nodes w !! source = Some (mkNode (KFile data) mtime)
    ∧ w_nodes w' !! source = Some (mkNode (KFile data) mtime)
    ∧ w_nodes w' !! destination = Some (mkNode (KFile data) mtime)
    ∧ Fs.is_dir w' (Pathlib.parent destination) = true
    ∧ get_file_size destination w' = get_file_size source w'
    ∧ calculate_file_hash hashlib_new destination algorithm w'
      = calculate_file_hash hashlib_new source algorithm w'.
Proof.
  intros Hrun Hnodir Hparts. revert Hrun. unfold copy_file_safe. unfold_monad.
  destruct (Fs.path_exists w destination && negb overwrite); simpl; [done|].
  pose proof (mkdir_parents_adds (Pathlib.parent destination) w) as Hadd.
  pose proof (mkdir_parent_frame destination w Hparts) as Hdst.
  destruct (Fs.mkdir_parents (Pathlib.parent destination) w) as [[] w1|e1 w1];
    simpl in Hadd, Hdst; [|done].
  destruct (Fs.copy2 source destination w1) as [[] w2|e2 w2] eqn:Ecopy; simpl; [|done].
  intros [= <-].
  apply copy2_done in Ecopy as (data & mtime & Hsrc & Hne & Hsden & Hcheck & ->).
  assert (copy_target w1 source destination = destination) as Htarget.
  { unfold copy_target. by rewrite (is_dir_lookup w w1 _ Hdst), Hnodir. }
  rewrite Htarget in *.
  apply check_target_none in Hcheck as (_ & Hpar & Hdden).
  assert (w_nodes w !! source = Some (mkNode (KFile data) mtime)) as Hsrc0.
  { destruct Hadd as (_ & _ & _ & H).
    destruct (H source) as [<-|(_ & [m Hm] & _)]; [done|congruence]. }
  exists data, mtime. simpl.
  rewrite lookup_insert_eq, lookup_insert_ne by done.
  split_and!; [done..| | |].
  - unfold Fs.is_dir in *. simpl. rewrite lookup_insert_ne; [done|].
    intros Heq. rewrite <-Heq in Hpar. unfold Fs.is_dir in Hnodir.
    rewrite <-Hdst in Hnodir. by rewrite Hnodir in Hpar.
  - unfold get_file_size, try_except_os, Fs.stat_size. simpl.
    rewrite lookup_insert_eq. rewrite lookup_insert_ne by done. by rewrite Hsrc.
  - unfold calculate_file_hash, Fs.read_bytes. unfold_monad. simpl.
    destruct (hashlib_new algorithm); [|done]. simpl.
    rewrite lookup_insert_eq. rewrite lookup_insert_ne by done. rewrite Hsrc.
    by rewrite !decide_False by done.
Qed.

Lemma copy_file_safe_copies_witness :
  let source := Pathlib.of_str "/music/song.mp3" in
  let destination := Pathlib.of_str "/copies/2023/song.mp3" in
  let w' := res_state (copy_file_safe source destination false world_with_collisions) in
  ∃ data mtime,
    w_nodes world_with_collisions !! source = Some (mkNode (KFile data) mtime)
    ∧ w_nodes w' !! source = Some (mkNode (KFile data) mtime)
    ∧ w_nodes w' !! destination = Some (mkNode (KFile data) mtime)
    ∧ Fs.is_dir w' (Pathlib.parent destination) = true
    ∧ get_file_size destination w' = get_file_size source w'
    ∧ calculate_file_hash (λ _, Some example_md5) destination "md5" w'
      = calculate_file_hash (λ _, Some example_md5) source "md5" w'.
Proof.
  intros source destination w'.
  apply (copy_file_safe_copies (λ _, Some example_md5) source destination false "md5"
           world_with_collisions w').
  - apply (done_intro (copy_file_safe source destination false world_with_collisions) true).
    vm_compute. reflexivity.
  - vm_compute. reflexivity.
  - vm_compute. discriminate.
Defined.

Section MoveFacts.

Implicit Types (w : World) (src dst p q : Path).

(** What the move proper has done to a source that is no directory when
    it returns: by the rename or by the copy and the removal, the file
    is at the new place and no longer at the old one. *)
Lemma rename_or_copy_done src dst0 dst w w' :
  rename_or_copy src dst0 dst w = Done tt w' →
  Fs.is_dir w src = false →
  Fs.is_dir w dst = false →
  ∃ data mtime,
    w_nodes w !! src = Some (mkNode (KFile data) mtime)
    ∧ Fs.check_target w dst = None
    ∧ w_nodes w' = <[dst := mkNode (KFile data) mtime]> (delete src (w_nodes w)).
Proof.
  intros Hrun Hsrcdir Hnodir. revert Hrun. unfold rename_or_copy, try_except_os. unfold_monad.
  destruct (Fs.rename src dst w) as [[] w1|e w1] eqn:Eren.
  - intros [= <-].
    apply rename_done in Eren as (data & mtime & Hsrc & _ & Hcheck & ->); [|done].
    by exists data, mtime.
  - apply rename_fail in Eren as ->. destruct (is_os_error e); [|done].
    rewrite Hsrcdir.
    destruct (Fs.copy2 src dst w) as [[] w2|e2 w2] eqn:Ecopy; [|done].
    apply copy2_done in Ecopy as (data & mtime & Hsrc & Hne & _ & Hcheck & ->).
    unfold copy_target in *. rewrite Hnodir in *.
    intros ->%unlink_done. exists data, mtime. split_and!; [done..|].
    simpl. by rewrite delete_insert_ne.
Qed.


(** A directory is not moved to a place within itself. *)
Lemma rename_or_copy_into_itself src dst w :
  Fs.is_dir w src = true → Fs.within src dst = true → dst ≠ src →
  ∃ e, rename_or_copy src dst dst w = Fail e w.
Proof.
  intros Hdir Hin Hne. unfold rename_or_copy, try_except_os. unfold_monad.
  assert (∃ e, Fs.rename src dst w = Fail e w ∧ is_os_error e = true) as (e & -> & ->).
  { unfold Fs.rename. unfold Fs.is_dir in Hdir.
    destruct (w_nodes w !! src) as [[[data|] mtime]|]; [done| |done].
    destruct (decide (src ∈ w_denied w)); [by eexists|].
    rewrite decide_False by done.
    destruct (negb (Fs.is_dir w (Pathlib.parent dst))).
    - destruct (Fs.is_file w (Pathlib.parent dst)); by eexists.
    - rewrite Hin. by eexists. }
  rewrite Hdir, Hin. by eexists.
Qed.

(** A directory made on the way to the parent of a path holds the path. *)
Lemma adds_dirs_within dst w w1 q :
  adds_dirs (Pathlib.anchored dst) (Pathlib.parts (Pathlib.parent dst)) w w1 →
  Fs.is_dir w q = false → Fs.is_dir w1 q = true →
  Fs.within q dst = true ∧ dst ≠ q.
Proof.
  intros (_ & _ & _ & H) Hq Hq1. unfold Fs.is_dir in *.
  destruct (H q) as [E|(_ & _ & Ha & Hp & Hpre)]; [by rewrite E, Hq in Hq1|].
  simpl in Hpre. split.
  - unfold Fs.within. rewrite bool_decide_eq_true_2 by done. simpl.
    apply bool_decide_eq_true. etrans; [exact Hpre|].
    destruct (Pathlib.parts dst) as [|x l _] using rev_ind; [done|].
    rewrite removelast_last. by apply prefix_app_r.
  - intros ->. apply prefix_length in Hpre.
    destruct (Pathlib.parts q) as [|x l _] using rev_ind; [done|].
    rewrite removelast_last, length_app in Hpre. simpl in Hpre. lia.
Qed.

End MoveFacts.

(** X6.  When [move_file_safe] returns true for a source that is no
    directory and a destination that is neither a directory nor a bare
    anchor, the file that was at the source is at the destination, with
    its content and modification time, and nothing is at the source any
    more (unless the two are the same path). *)
Theorem move_file_safe_moves (source destination : Path) (overwrite : bool) (w w' : World) :
  move_file_safe source destination overwrite w = Done true w' →
  Fs.is_dir w source = false →
  Fs.is_dir w destination = false →
  Pathlib.parts destination ≠ [] →
  ∃ data mtime,
    w_nodes w !! source = Some (mkNode (KFile data) mtime)
    ∧ w_nodes w' !! destination = Some (mkNode (KFile data) mtime)
    ∧ (source ≠ destination → w_nodes w' !! source = None)
    ∧ Fs.is_dir w' (Pathlib.parent destination) = true.
Proof.
  intros Hrun Hsrcdir Hnodir Hparts. revert Hrun. unfold move_file_safe. unfold_monad.
  destruct (Fs.path_exists w destination && negb overwrite); simpl; [done|].
  pose proof (mkdir_parents_adds (Pathlib.parent destination) w) as Hadd.
  pose proof (mkdir_parent_frame destination w Hparts) as Hdst.
  destruct (Fs.mkdir_parents (Pathlib.parent destination) w) as [[] w1|e1 w1];
    simpl in Hadd, Hdst; [|done].
  assert (Fs.is_dir w1 destination = false) as Hnodir1
    by (by rewrite (is_dir_lookup w w1 _ Hdst)).
  destruct (Fs.is_dir w1 source) eqn:Hsrcdir1.
  { (* the source was made on the way: it is not moved into itself *)
    destruct (adds_dirs_within destination w w1 source Hadd Hsrcdir Hsrcdir1)
      as [Hin Hne].
    unfold shutil_move. unfold_monad. rewrite Hnodir1.
    by destruct (rename_or_copy_into_itself source destination w1 Hsrcdir1 Hin Hne)
      as [e ->]. }
  unfold shutil_move. unfold_monad. rewrite Hnodir1.
  destruct (rename_or_copy source destination destination w1) as [[] w2|e2 w2] eqn:Emove;
    [|done].
  intros [= <-].
  apply rename_or_copy_done in Emove as (data & mtime & Hsrc & Hcheck & Hnodes); [|done..].
  apply check_target_none in Hcheck as (_ & Hpar & _).
  exists data, mtime. rewrite Hnodes, lookup_insert_eq. split_and!; [|done| |].
  - destruct Hadd as (_ & _ & _ & H).
    destruct (H source) as [<-|(_ & [m Hm] & _)]; [done|congruence].
  - intros Hne. rewrite lookup_insert_ne by done. apply lookup_delete_eq.
  - unfold Fs.is_dir in *. rewrite Hnodes.
    assert (Pathlib.parent destination ≠ destination) as Hpne.
    { intros Heq. rewrite Heq in Hpar. by rewrite Hnodir1 in Hpar. }
    rewrite lookup_insert_ne by done.
    destruct (decide (Pathlib.parent destination = source)) as [Heq|Hpne'];
      [|by rewrite lookup_delete_ne].
    rewrite Heq, Hsrc in Hpar. done.
Qed.

Lemma move_file_safe_moves_witness :
  let source := Pathlib.of_str "/music/song.mp3" in
  let destination := Pathlib.of_str "/sorted/2023/song.mp3" in
  let w' := res_state (move_file_safe source destination false world_with_collisions) in
  ∃ data mtime,
    w_nodes world_with_collisions !! source = Some (mkNode (KFile data) mtime)
    ∧ w_nodes w' !! destination = Some (mkNode (KFile data) mtime)
    ∧ (source ≠ destination → w_nodes w' !! source = None)
    ∧ Fs.is_dir w' (Pathlib.parent destination) = true.
Proof.
  intros source destination w'.
  apply (move_file_safe_moves source destination false world_with_collisions w').
  - apply (done_intro (move_file_safe source destination false world_with_collisions) true).
    vm_compute. reflexivity.
  - vm_compute. reflexivity.
  - vm_compute. reflexivity.
  - vm_compute. discriminate.
Defined.

(** A directory is moved with all that is in it. *)
Example move_file_safe_moves_directory :
  let source := Pathlib.of_str "/music" in
  let destination := Pathlib.of_str "/moved" in
  let r := move_file_safe source destination false world_with_collisions in
  r = Done true (res_state r)
  ∧ Fs.is_dir (res_state r) destination = true
  ∧ Fs.file_data (res_state r) (Pathlib.of_str "/moved/song.mp3") = Some "ID3"
  ∧ Fs.path_exists (res_state r) source = false
  ∧ Fs.path_exists (res_state r) (Pathlib.of_str "/music/song.mp3") = false.
Proof.
  intros source destination r. split_and!.
  - apply (done_intro r true). vm_compute. reflexivity.
  - vm_compute. reflexivity.
  - vm_compute. reflexivity.
  - vm_compute. reflexivity.
  - vm_compute. reflexivity.
Qed.



(** ** [rename_file] and the names that [generate_filename] returns *)

Section RenameFacts.

Implicit Types (w : World) (p q : Path).

Lemma get_unique_filename_fresh w p q :
  get_unique_filename w p = Some q → Fs.path_exists w q = false.
Proof.
  unfold get_unique_filename, get_unique_filename_fuel.
  destruct (Fs.path_exists w p) eqn:E; cbn [negb].
  - by intros (k & _ & -> & Hfree & _)%unique_loop_first.
  - by intros [= <-].
Qed.

Lemma get_unique_filename_parent w p q :
  Pathlib.wf p → get_unique_filename w p = Some q → Pathlib.parent q = Pathlib.parent p.
Proof.
  intros Hwf. unfold get_unique_filename, get_unique_filename_fuel.
  destruct (Fs.path_exists w p) eqn:E; cbn [negb].
  - intros (k & _ & -> & _)%unique_loop_first.
    rewrite unique_candidate_eq by done. unfold Pathlib.parent. simpl.
    by rewrite removelast_last.
  - by intros [= <-].
Qed.

Lemma rename_file_done old new_name w q w' :
  FileRenamer.rename_file old new_name w = Done q w' →
  Fs.is_dir w old = false →
  ∃ data mtime,
    get_unique_filename w (Pathlib.parent old // new_name) = Some q
    ∧ w_nodes w !! old = Some (mkNode (KFile data) mtime)
    ∧ w_nodes w !! q = None
    ∧ Fs.check_target w q = None
    ∧ w_nodes w' = <[q := mkNode (KFile data) mtime]> (delete old (w_nodes w))
    ∧ w_denied w' = w_denied w
    ∧ w_clock w' = w_clock w.
Proof.
  unfold FileRenamer.rename_file. unfold_monad.
  destruct (get_unique_filename w _) as [q'|] eqn:Eq; [|done].
  destruct (Fs.rename old q' w) as [[] w1|e w1] eqn:Eren; [|done].
  intros [= <- <-] Hdir.
  apply rename_done in Eren as (data & mtime & Hold & _ & Hcheck & ->); [|done].
  exists data, mtime. split_and!; [done..| |done|done|done|done].
  by apply path_exists_lookup, (get_unique_filename_fresh w _ q' Eq).
Qed.



Lemma rebase_within src dst q : Fs.within dst (Fs.rebase src dst q) = true.
Proof.
  unfold Fs.within, Fs.rebase. simpl. rewrite bool_decide_eq_true_2 by done. simpl.
  apply bool_decide_eq_true. by apply prefix_app_r.
Qed.




Lemma move_tree_elsewhere src dst (m : gmap Path Node) q :
  Fs.within dst q = false →
  Fs.move_tree src dst m !! q = if Fs.within src q then None else m !! q.
Proof.
  intros Hout. unfold Fs.move_tree.
  rewrite lookup_union_r.
  - destruct (Fs.within src q) eqn:E.
    + apply map_lookup_filter_None. right. intros n _. simpl. congruence.
    + destruct (m !! q) as [n|] eqn:Hq.
      * apply map_lookup_filter_Some. split; [done|]. simpl. done.
      * apply map_lookup_filter_None. by left.
  - apply not_elem_of_list_to_map_1.
    intros ([q1 n1] & -> & ([q0 n0] & [= -> ->] & _)%list_elem_of_fmap)%list_elem_of_fmap.
    simpl in Hout. by rewrite rebase_within in Hout.
Qed.

Lemma within_refl d : Fs.within d d = true.
Proof. unfold Fs.within. by rewrite !bool_decide_eq_true_2. Qed.


Lemma rename_dir_done src dst w w' mtime :
  w_nodes w !! src = Some (mkNode KDir mtime) →
  Fs.path_exists w dst = false →
  Fs.rename src dst w = Done tt w' →
  w_nodes w' = Fs.move_tree src dst (w_nodes w) ∧ Fs.within src dst = false.
Proof.
  intros Hsrc Hfree. unfold Fs.rename. rewrite Hsrc.
  destruct (decide (src ∈ w_denied w)); [done|].
  destruct (decide (dst = src)) as [->|_].
  { unfold Fs.path_exists in Hfree. by rewrite Hsrc in Hfree. }
  destruct (negb _); [done|].
  destruct (Fs.within src dst); [done|].
  destruct (Fs.is_file w dst); [done|].
  destruct (_ && _); [done|].
  destruct (decide (dst ∈ w_denied w)); [done|].
  by intros [= <-].
Qed.

Lemma wf_parent p : Pathlib.wf p → Pathlib.wf (Pathlib.parent p).
Proof.
  unfold Pathlib.wf, Pathlib.parent. simpl. intros Hwf.
  destruct (Pathlib.parts p) as [|x l _] using rev_ind; [done|].
  rewrite removelast_last. by apply Forall_app in Hwf as [? _].
Qed.

Lemma name_component p :
  Pathlib.wf p → Pathlib.parts p ≠ [] → Pathlib.is_component (Pathlib.name p) = true.
Proof.
  unfold Pathlib.wf, Pathlib.name. intros Hwf Hne.
  destruct (Pathlib.parts p) as [|x l _] using rev_ind; [done|].
  rewrite List.last_last. apply Forall_app in Hwf as [_ Hx].
  by apply Forall_singleton in Hx as [? _].
Qed.

(** A path beside another one does not hold it. *)
Lemma sibling_not_within q p :
  Pathlib.parent q = Pathlib.parent p → Pathlib.parts q ≠ [] → q ≠ p →
  Fs.within q p = false.
Proof.
  intros [= Ha Hl] Hparts Hne. apply not_true_is_false.
  unfold Fs.within. intros [_ Hpre%bool_decide_eq_true]%andb_true_iff.
  apply Hne. destruct q as [a lq], p as [b lp]. simpl in *. f_equal; [done|].
  destruct lq as [|x l _] using rev_ind; [done|].
  destruct lp as [|y l' _] using rev_ind.
  { apply prefix_nil_inv in Hpre. by destruct l. }
  rewrite !removelast_last in Hl. subst l'.
  apply prefix_app_inv, prefix_cons_inv_1 in Hpre. by subst.
Qed.

Lemma get_unique_filename_parts w p q :
  Pathlib.wf p → Pathlib.parts p ≠ [] → get_unique_filename w p = Some q →
  Pathlib.parts q ≠ [].
Proof.
  intros Hwf Hparts. unfold get_unique_filename, get_unique_filename_fuel.
  destruct (Fs.path_exists w p) eqn:E; cbn [negb].
  - intros (k & _ & -> & _)%unique_loop_first.
    rewrite unique_candidate_eq by done. simpl. by intros ?%app_nil_r_inv.
  - by intros [= <-].
Qed.

(** Where a renamed entry was, there is nothing. *)
Lemma rename_file_away old new_name w q w' :
  Pathlib.wf old → Str.mem "/" new_name = false → Pathlib.is_component new_name = true →
  FileRenamer.rename_file old new_name w = Done q w' →
  q ≠ old ∧ Pathlib.parent q = Pathlib.parent old ∧ w_nodes w' !! old = None.
Proof.
  intros Hwf Hslash Hcomp E.
  assert (get_unique_filename w (Pathlib.parent old // new_name) = Some q
          ∧ Fs.rename old q w = Done tt w') as [Hq Eren].
  { revert E. unfold FileRenamer.rename_file. unfold_monad.
    destruct (get_unique_filename w _) as [q'|] eqn:Eq; [|done].
    destruct (Fs.rename old q' w) as [[] w1|e w1] eqn:Eren; [|done].
    by intros [= <- <-]. }
  pose proof (get_unique_filename_fresh w _ q Hq) as Hfree.
  assert (Pathlib.parent q = Pathlib.parent old) as Hpar.
  { rewrite (get_unique_filename_parent _ _ _ (wf_joinpath _ _ (wf_parent _ Hwf)) Hq).
    by apply parent_joinpath. }
  assert (q ≠ old) as Hne.
  { intros ->. revert Eren. unfold Fs.rename.
    by rewrite (path_exists_lookup _ _ Hfree). }
  split_and!; [done..|].
  destruct (Fs.is_dir w old) eqn:Hdir.
  - unfold Fs.is_dir in Hdir.
    destruct (w_nodes w !! old) as [[[data|] mtime]|] eqn:Hold; [done| |done].
    destruct (rename_dir_done old q w w' mtime Hold Hfree Eren) as [-> _].
    rewrite move_tree_elsewhere, within_refl; [done|].
    apply sibling_not_within; [done| |done].
    apply (get_unique_filename_parts w (Pathlib.parent old // new_name));
      [by apply wf_joinpath, wf_parent| |done].
    rewrite joinpath_parts by done. by intros ?%app_nil_r_inv.
  - apply rename_file_done in E as (data & mtime & _ & _ & _ & _ & -> & _); [|done].
    rewrite lookup_insert_ne by done. apply lookup_delete_eq.
Qed.

(** The names that [generate_filename] returns. *)
Lemma generate_filename_cases cfg p md n :
  FileRenamer.generate_filename cfg p md = Ret n →
  n = Pathlib.name p ∨ ∃ s, n = sanitize_filename s "_".
Proof.
  unfold FileRenamer.generate_filename, FileRenamer.fill_pattern.
  unfold mbind, exc_bind.
  destruct (FileRenamer._is_audio cfg p) as [[]|]; [| |done].
  - destruct (str_format _ md) as [s|[]]; intros [= <-]; eauto.
  - destruct (FileRenamer._is_video cfg p) as [[]|]; [| |done].
    + destruct (str_format _ md) as [s|[]]; intros [= <-]; eauto.
    + intros [= <-]. by left.
Qed.

Lemma generate_filename_component cfg p md n :
  Pathlib.wf p → FileRenamer.generate_filename cfg p md = Ret n → n ≠ "" →
  Str.mem "/" n = false ∧ Pathlib.is_component n = true.
Proof.
  intros Hwf [->|[s ->]]%generate_filename_cases Hne.
  - split; [by apply name_no_slash|]. apply name_component; [done|].
    intros Hparts. unfold Pathlib.name in Hne. by rewrite Hparts in Hne.
  - apply sanitize_filename_component.
Qed.

End RenameFacts.


(** A directory is renamed with its tree. *)
Example rename_file_renames_directory :
  let r := FileRenamer.rename_file (Pathlib.of_str "/music") "tunes" world_with_collisions in
  r = Done (Pathlib.of_str "/tunes") (res_state r)
  ∧ Fs.file_data (res_state r) (Pathlib.of_str "/tunes/song.mp3") = Some "ID3"
  ∧ Fs.path_exists (res_state r) (Pathlib.of_str "/music/song.mp3") = false.
Proof.
  intros r. split_and!.
  - apply (done_intro r (Pathlib.of_str "/tunes")). vm_compute. reflexivity.
  - vm_compute. reflexivity.
  - vm_compute. reflexivity.
Qed.

(** X10.  Whatever the configuration and the metadata say, the name that
    [generate_filename] returns for a file is a single path component: it
    has no slash and is neither empty nor a dot, and it is two dots only if
    that is the name of the file; joining it to a directory gives a path in
    that directory. *)
Theorem generate_filename_single_component
    (cfg : Config) (file_path : Path) (md : Metadata) (new_filename : string) :
  Pathlib.wf file_path → Pathlib.parts file_path ≠ [] →
  FileRenamer.generate_filename cfg file_path md = Ret new_filename →
  Str.mem "/" new_filename = false
  ∧ Pathlib.is_component new_filename = true
  ∧ (new_filename = ".." → Pathlib.name file_path = "..")
  ∧ ∀ directory, Pathlib.parent (directory // new_filename) = directory
                 ∧ Pathlib.name (directory // new_filename) = new_filename.
Proof.
  intros Hwf Hparts Hgen.
  assert (new_filename ≠ "") as Hne.
  { apply (generate_filename_nonempty cfg file_path md); [|done].
    pose proof (name_component file_path Hwf Hparts) as Hc.
    intros Heq. by rewrite Heq in Hc. }
  destruct (generate_filename_component cfg file_path md new_filename Hwf Hgen Hne)
    as [Hslash Hcomp].
  split_and!; [done..| |].
  - apply generate_filename_cases in Hgen as [->|[s ->]]; [done|].
    destruct (sanitize_filename_head s) as (a & r & -> & Ha). by intros [= -> _].
  - intros directory. split.
    + by apply parent_joinpath.
    + rewrite joinpath_component by done. unfold Pathlib.name. simpl. apply List.last_last.
Qed.

Lemma generate_filename_single_component_witness :
  let cfg := example_config "{artist}/{title}" in
  let file_path := Pathlib.of_str "/music/song.mp3" in
  let md : Metadata := {[ "artist" := VStr ".."; "title" := VStr "../../etc/passwd" ]} in
  FileRenamer.generate_filename cfg file_path md = Ret "_.._.._etc_passwd.mp3"
  ∧ Str.mem "/" "_.._.._etc_passwd.mp3" = false
  ∧ Pathlib.is_component "_.._.._etc_passwd.mp3" = true
  ∧ ("_.._.._etc_passwd.mp3" = ".." → Pathlib.name file_path = "..")
  ∧ ∀ directory, Pathlib.parent (directory // "_.._.._etc_passwd.mp3") = directory
                 ∧ Pathlib.name (directory // "_.._.._etc_passwd.mp3")
                   = "_.._.._etc_passwd.mp3".
Proof.
  intros cfg file_path md.
  assert (Hgen : FileRenamer.generate_filename cfg file_path md = Ret "_.._.._etc_passwd.mp3")
    by (vm_compute; reflexivity).
  split; [exact Hgen|].
  apply (generate_filename_single_component cfg file_path md "_.._.._etc_passwd.mp3").
  - apply wf_of_str.
  - vm_compute. discriminate.
  - exact Hgen.
Defined.

(** ** [process_file] and [process_directory], step by step *)

Section PipelineFacts.

Context (format_ok : Path → string → bool)
        (audio_tags : Path → string → Metadata)
        (audio_retag : Path → string → Metadata → option string)
        (md5_hexdigest : string → string)
        (json_dump : list Entry → string).

Implicit Types (p : Proc) (w : World) (q : Path).

Lemma keeps_field_in_store {A B} (f : ProcessingResult → B) (m : M Store A) :
  keeps_field f (in_store m).
Proof. intros [st r]. unfold in_store, zoom. simpl. by destruct (m st). Qed.

Lemma keeps_field_io {A B} (f : ProcessingResult → B) (m : M World A) :
  keeps_field f (io m).
Proof. apply keeps_field_in_store. Qed.

Lemma keeps_field_lift_exc {A B} (f : ProcessingResult → B) (x : Exc A) :
  keeps_field f (lift_exc x : M Proc A).
Proof. intros p. by destruct x. Qed.

Lemma keeps_field_mret {A B} (f : ProcessingResult → B) (a : A) :
  keeps_field f (mret a : M Proc A).
Proof. done. Qed.

Lemma keeps_field_bind {A B C} (f : ProcessingResult → C) (m : M Proc A) (k : A → M Proc B) :
  keeps_field f m → (∀ a, keeps_field f (k a)) → keeps_field f (m ≫= k).
Proof.
  intros Hm Hk p. unfold mbind, M_bind. specialize (Hm p).
  destruct (m p) as [a p1|e p1]; simpl in *; [|done].
  by rewrite Hk.
Qed.

Lemma validate_file_run file_path w :
  ∃ valid, FileValidator.validate_file format_ok file_path w = Done valid w
           ∧ (valid = true → Fs.is_file w file_path = true).
Proof.
  unfold FileValidator.validate_file, FormatDetector.validate_file, gets.
  eexists. split; [done|].
  destruct (Fs.path_exists w file_path); cbn [negb]; [|done].
  by destruct (Fs.is_file w file_path).
Qed.

(** Writing the tags touches the file itself and nothing else. *)
Lemma update_metadata_frame cfg file_path md w :
  ∀ q, q ≠ file_path →
    w_nodes (res_state (MetadataHandler.update_metadata audio_retag cfg file_path md w)) !! q
    = w_nodes w !! q.
Proof.
  intros q Hq. unfold MetadataHandler.update_metadata, AudioProcessor.update_metadata,
    VideoProcessor.update_metadata, Fs.read_bytes, Fs.write_text.
  unfold_monad.
  destruct (MetadataHandler._is_audio cfg file_path) as [[]|]; simpl; [| |done].
  - destruct (w_nodes w !! file_path) as [[[data|] mtime]|]; simpl; [|done..].
    case_decide; simpl; [done|].
    destruct (audio_retag file_path data md); simpl; [|done].
    destruct (Fs.check_write w file_path); simpl; [done|].
    by rewrite lookup_insert_ne.
  - by destruct (MetadataHandler._is_video cfg file_path) as [[]|].
Qed.

(** There are no tags to write to a directory. *)
Lemma update_metadata_directory cfg file_path md w :
  Fs.is_dir w file_path = true →
  w_nodes (res_state (MetadataHandler.update_metadata audio_retag cfg file_path md w))
  = w_nodes w.
Proof.
  unfold Fs.is_dir. intros Hdir.
  unfold MetadataHandler.update_metadata, AudioProcessor.update_metadata,
    VideoProcessor.update_metadata, Fs.read_bytes.
  unfold_monad.
  destruct (MetadataHandler._is_audio cfg file_path) as [[]|]; simpl; [| |done].
  - by destruct (w_nodes w !! file_path) as [[[data|] mtime]|].
  - by destruct (MetadataHandler._is_video cfg file_path) as [[]|].
Qed.

(** The second step leaves the result as it is but for a warning. *)
Lemma backup_step_keeps {B} (f : ProcessingResult → B) (self : FileProcessor.t) file_path :
  (∀ r msg, f (mkResult (success r) (original_path r) (new_path r) (metadata r)
                 (errors r) (warnings r ++ [msg])) = f r) →
  keeps_field f
    (if default true (cfg_backup_enabled (FileProcessor.config self)) then
       backup_path ← in_store
         (BackupManager.create_backup md5_hexdigest json_dump
            (FileProcessor.backup_manager self) file_path);
       match backup_path with
       | None => add_warning "Failed to create backup"
       | Some _ => mret tt
       end
     else mret tt).
Proof.
  intros Hf. destruct (default true _); [|apply keeps_field_mret].
  apply keeps_field_bind; [apply keeps_field_in_store|].
  intros [bp|]; [apply keeps_field_mret|]. intros [st r]. simpl. apply Hf.
Qed.

Lemma update_step_keeps {B} (f : ProcessingResult → B) cfg target md :
  (∀ r msg, f (mkResult (success r) (original_path r) (new_path r) (metadata r)
                 (errors r) (warnings r ++ [msg])) = f r) →
  keeps_field f
    (if default true (cfg_update_metadata cfg) then
       ok ← io (MetadataHandler.update_metadata audio_retag cfg target md);
       if negb ok then add_warning "Failed to update metadata" else mret tt
     else mret tt).
Proof.
  intros Hf. destruct (default true _); [|apply keeps_field_mret].
  apply keeps_field_bind; [apply keeps_field_io|].
  intros [|]; [apply keeps_field_mret|]. intros [st r]. simpl. apply Hf.
Qed.

Lemma update_step_frame cfg target md p q :
  q ≠ target ∨ Fs.is_dir (st_world (pr_store p)) target = true →
  w_nodes (st_world (pr_store (res_state
    ((if default true (cfg_update_metadata cfg) then
        ok ← io (MetadataHandler.update_metadata audio_retag cfg target md);
        if negb ok then add_warning "Failed to update metadata" else mret tt
      else mret tt) p)))) !! q
  = w_nodes (st_world (pr_store p)) !! q.
Proof.
  intros Hq. destruct (default true _); [|done].
  unfold mbind, M_bind. rewrite io_unfold.
  assert (w_nodes (res_state (MetadataHandler.update_metadata audio_retag cfg target md
                                (st_world (pr_store p)))) !! q
          = w_nodes (st_world (pr_store p)) !! q) as H.
  { destruct Hq as [Hq|Hdir]; [by apply update_metadata_frame|].
    by rewrite update_metadata_directory. }
  destruct (MetadataHandler.update_metadata _ _ _ _ _) as [[|] w'|e w']; simpl in *; done.
Qed.

(** What a run of the steps that ends in success has done. *)
Lemma process_file_steps_success (self : FileProcessor.t) (file_path : Path) p p' :
  Pathlib.wf file_path →
  success (pr_result p) = false →
  FileProcessor.process_file_steps format_ok audio_tags audio_retag
    md5_hexdigest json_dump self file_path p = Done tt p' →
  success (pr_result p') = true →
  ∃ q, new_path (pr_result p') = Some q
       ∧ q ≠ file_path
       ∧ Pathlib.parent q = Pathlib.parent file_path
       ∧ Fs.is_file (st_world (pr_store p')) q = true
       ∧ w_nodes (st_world (pr_store p')) !! file_path = None.
Proof.
  intros Hwf Hs0. unfold FileProcessor.process_file_steps.
  set (cfg := FileProcessor.config self).
  (* Step 1 *)
  unfold mbind at 1, M_bind at 1. rewrite io_unfold.
  destruct (validate_file_run file_path (st_world (pr_store p))) as (valid & -> & _).
  destruct valid; cbn [negb].
  2:{ intros [= <-]. simpl. congruence. }
  assert (success (pr_result (with_world (st_world (pr_store p)) p)) = false) as Hs1 by done.
  revert Hs1. generalize (with_world (st_world (pr_store p)) p). clear p Hs0. intros p Hs1.
  (* Step 2 *)
  unfold mbind at 1, M_bind at 1.
  pose proof (backup_step_keeps success self file_path (λ _ _, eq_refl) p) as Hs2.
  fold cfg in Hs2.
  match type of Hs2 with success (pr_result (res_state ?r)) = _ =>
    destruct r as [[] p2|e p2] end; simpl in Hs2; [|done].
  rewrite Hs1 in Hs2. clear p Hs1.
  (* Step 3 *)
  unfold mbind at 1, M_bind at 1. rewrite io_unfold.
  destruct (MetadataHandler.extract_metadata audio_tags cfg file_path _) as [md w3|e w3];
    [|done].
  unfold mbind at 1, M_bind at 1. unfold set_metadata at 1, update_result at 1, modify at 1.
  set (p3 := mkProc _ _).
  assert (success (pr_result p3) = false) as Hs3 by done.
  clearbody p3. clear p2 Hs2.
  (* Step 4 *)
  unfold mbind at 1, M_bind at 1.
  destruct (FileRenamer.generate_filename cfg file_path md) as [n|e] eqn:Egen; simpl; [|done].
  case_decide as Hn.
  { intros [= <-]. simpl. congruence. }
  destruct (generate_filename_component cfg file_path md n Hwf Egen Hn) as [Hslash Hcomp].
  (* Step 5 *)
  unfold mbind at 1, M_bind at 1. rewrite io_unfold.
  destruct (FileRenamer.rename_file file_path n _) as [q w5|e w5] eqn:Eren; [|done].
  destruct (rename_file_away file_path n _ q w5 Hwf Hslash Hcomp Eren)
    as (Hne & Hpar & Hgone).
  unfold mbind at 1, M_bind at 1. unfold set_new_path at 1, update_result at 1, modify at 1.
  set (p5 := mkProc _ _).
  assert (success (pr_result p5) = false) as Hs5 by done.
  assert (new_path (pr_result p5) = Some q) as Hn5 by done.
  assert (w_nodes (st_world (pr_store p5)) !! file_path = None) as Hgone5 by done.
  clearbody p5. clear p3 Hs3 Eren Hgone.
  (* Step 6 *)
  unfold mbind at 1, M_bind at 1.
  pose proof (update_step_keeps success cfg q md (λ _ _, eq_refl) p5) as Hs6.
  pose proof (update_step_keeps new_path cfg q md (λ _ _, eq_refl) p5) as Hn6.
  pose proof (update_step_frame cfg q md p5 file_path (or_introl (not_eq_sym Hne)))
    as Hgone6.
  match type of Hs6 with success (pr_result (res_state ?r)) = _ =>
    destruct r as [[] p6|e p6] end; simpl in Hs6, Hn6, Hgone6; [|done].
  rewrite Hs5 in Hs6. rewrite Hn5 in Hn6. rewrite Hgone5 in Hgone6. clear p5 Hs5 Hn5 Hgone5.
  (* Step 7 *)
  unfold mbind at 1, M_bind at 1. rewrite io_unfold.
  destruct (validate_file_run q (st_world (pr_store p6))) as (valid & -> & Hfile).
  destruct valid.
  2:{ intros [= <-]. simpl. congruence. }
  intros [= <-] _. exists q. simpl. split_and!; [done..|by apply Hfile|done].
Qed.

End PipelineFacts.

(** X11.  A file that does not pass the first validation is left alone: the
    result carries the one error, and neither the file system nor the ledger
    changes. *)
Theorem process_file_rejects_invalid_file
    (format_ok : Path → string → bool)
    (audio_tags : Path → string → Metadata)
    (audio_retag : Path → string → Metadata → option string)
    (md5_hexdigest : string → string) (json_dump : list Entry → string)
    (self : FileProcessor.t) (file_path : Path) (st : Store) :
  FileValidator.validate_file format_ok file_path (st_world st)
    = Done false (st_world st) →
  FileProcessor.process_file format_ok audio_tags audio_retag
    md5_hexdigest json_dump self file_path st
  = (mkResult false file_path None ∅ ["File validation failed"] [], st).
Proof.
  intros Hvalid. unfold FileProcessor.process_file. cbv zeta.
  set (p0 := mkProc st _).
  assert (FileProcessor.process_file_steps format_ok audio_tags audio_retag
            md5_hexdigest json_dump self file_path p0
          = Done tt (mkProc st (mkResult false file_path None ∅
                                  ["File validation failed"] []))) as Hrun.
  { unfold FileProcessor.process_file_steps.
    unfold mbind at 1, M_bind at 1. rewrite io_unfold. unfold p0. cbn [pr_store].
    rewrite Hvalid. simpl. by destruct st. }
  unfold try_except. by rewrite Hrun.
Qed.

Lemma process_file_rejects_invalid_file_witness :
  let self := FileProcessor.mk (example_config "{artist} - {title}") (example_manager true) in
  FileProcessor.process_file example_format_ok example_tags example_retag
    example_md5 example_dump self (Pathlib.of_str "/music/missing.mp3")
    (mkStore world_with_collisions [])
  = (mkResult false (Pathlib.of_str "/music/missing.mp3") None ∅
       ["File validation failed"] [],
     mkStore world_with_collisions []).
Proof.
  intros self.
  apply (process_file_rejects_invalid_file example_format_ok example_tags example_retag
           example_md5 example_dump self (Pathlib.of_str "/music/missing.mp3")
           (mkStore world_with_collisions [])).
  vm_compute. reflexivity.
Defined.

(** X12.  A file that is processed with success has moved: the result names
    a new path in the directory of the file, other than its old path; a file
    is there when [process_file] returns, and nothing is at the old path. *)
Theorem process_file_success_moves_file
    (format_ok : Path → string → bool)
    (audio_tags : Path → string → Metadata)
    (audio_retag : Path → string → Metadata → option string)
    (md5_hexdigest : string → string) (json_dump : list Entry → string)
    (self : FileProcessor.t) (file_path : Path) (st : Store) :
  Pathlib.wf file_path →
  let out := FileProcessor.process_file format_ok audio_tags audio_retag
               md5_hexdigest json_dump self file_path st in
  success out.1 = true →
  ∃ q, new_path out.1 = Some q
       ∧ q ≠ file_path
       ∧ Pathlib.parent q = Pathlib.parent file_path
       ∧ Fs.is_file (st_world out.2) q = true
       ∧ Fs.path_exists (st_world out.2) file_path = false.
Proof.
  intros Hwf. unfold FileProcessor.process_file. cbv zeta. simpl.
  set (p0 := mkProc st _).
  pose proof (process_file_steps_settles format_ok audio_tags audio_retag
                md5_hexdigest json_dump self file_path p0 eq_refl) as Hsettle.
  pose proof (process_file_steps_success format_ok audio_tags audio_retag
                md5_hexdigest json_dump self file_path p0) as Hpost.
  unfold try_except.
  destruct (FileProcessor.process_file_steps _ _ _ _ _ _ _ p0) as [[] p1|e p1].
  - simpl. intros Hs. destruct (Hpost p1 Hwf eq_refl eq_refl Hs) as (q & ? & ? & ? & ? & Hgone).
    exists q. split_and!; [done..|].
    apply bool_decide_eq_false. rewrite Hgone. by intros [? ?].
  - simpl. injection Hsettle as Hs _. intros Hs'. congruence.
Qed.

Lemma process_file_success_moves_file_witness :
  let self := FileProcessor.mk warning_config (example_manager false) in
  let file_path := Pathlib.of_str "/music/song.mp3" in
  let out := FileProcessor.process_file example_format_ok example_tags example_retag_fails
               example_md5 example_dump self file_path (mkStore world_with_collisions []) in
  ∃ q, new_path out.1 = Some q
       ∧ q ≠ file_path
       ∧ Pathlib.parent q = Pathlib.parent file_path
       ∧ Fs.is_file (st_world out.2) q = true
       ∧ Fs.path_exists (st_world out.2) file_path = false.
Proof.
  intros self file_path out.
  apply (process_file_success_moves_file example_format_ok example_tags example_retag_fails
           example_md5 example_dump self file_path (mkStore world_with_collisions [])).
  - apply wf_of_str.
  - vm_compute. reflexivity.
Defined.

Section DirectoryRunFacts.

Context (format_ok : Path → string → bool)
        (audio_tags : Path → string → Metadata)
        (audio_retag : Path → string → Metadata → option string)
        (md5_hexdigest : string → string)
        (json_dump : list Entry → string).

Lemma steps_keep_original_path (self : FileProcessor.t) (file_path : Path) :
  keeps_field original_path
    (FileProcessor.process_file_steps format_ok audio_tags audio_retag
       md5_hexdigest json_dump self file_path).
Proof.
  unfold FileProcessor.process_file_steps.
  apply keeps_field_bind; [apply keeps_field_io|]. intros valid.
  destruct valid; cbn [negb]; [|done].
  apply keeps_field_bind; [by apply backup_step_keeps|]. intros _.
  apply keeps_field_bind; [apply keeps_field_io|]. intros md.
  apply keeps_field_bind; [done|]. intros _.
  apply keeps_field_bind; [apply keeps_field_lift_exc|]. intros new_filename.
  case_decide; [done|].
  apply keeps_field_bind; [apply keeps_field_io|]. intros q.
  apply keeps_field_bind; [done|]. intros _.
  apply keeps_field_bind; [by apply update_step_keeps|]. intros _.
  apply keeps_field_bind; [apply keeps_field_io|].
  intros [|]; done.
Qed.

Lemma process_file_original_path (self : FileProcessor.t) (file_path : Path) (st : Store) :
  original_path (FileProcessor.process_file format_ok audio_tags audio_retag
                   md5_hexdigest json_dump self file_path st).1 = file_path.
Proof.
  unfold FileProcessor.process_file. cbv zeta. cbn [fst].
  set (p0 := mkProc st _).
  pose proof (steps_keep_original_path self file_path p0) as H.
  unfold try_except.
  destruct (FileProcessor.process_file_steps _ _ _ _ _ _ _ p0) as [[] p1|e p1];
    simpl in *; done.
Qed.

Lemma process_all_original_paths (self : FileProcessor.t) (media_files : list Path) (st : Store) :
  original_path <$> (FileProcessor.process_all format_ok audio_tags audio_retag
                       md5_hexdigest json_dump self media_files st).1 = media_files.
Proof.
  revert st. induction media_files as [|file_path r IH]; intros st; [done|].
  cbn [FileProcessor.process_all].
  pose proof (process_file_original_path self file_path st) as H.
  destruct (FileProcessor.process_file _ _ _ _ _ _ _ _) as [result st1]. cbn [fst] in H.
  specialize (IH st1).
  destruct (FileProcessor.process_all _ _ _ _ _ _ _ _) as [results st2]. cbn [fst] in *.
  rewrite fmap_cons. by rewrite H, IH.
Qed.

End DirectoryRunFacts.

(** X13.  [process_directory] returns one result for each media file that
    was in the directory when it was called, in the order of the search, the
    result of a file carrying its path; what the run itself creates is not
    processed. *)
Theorem process_directory_one_result_per_file
    (format_ok : Path → string → bool)
    (audio_tags : Path → string → Metadata)
    (audio_retag : Path → string → Metadata → option string)
    (md5_hexdigest : string → string) (json_dump : list Entry → string)
    (self : FileProcessor.t) (directory_path : Path) (st : Store) :
  let results := (FileProcessor.process_directory format_ok audio_tags audio_retag
                    md5_hexdigest json_dump self directory_path st).1 in
  original_path <$> results
    = FileProcessor._find_media_files self (st_world st) directory_path
  ∧ length results
    = length (FileProcessor._find_media_files self (st_world st) directory_path).
Proof.
  unfold FileProcessor.process_directory. cbv zeta.
  pose proof (process_all_original_paths format_ok audio_tags audio_retag md5_hexdigest
                json_dump self
                (FileProcessor._find_media_files self (st_world st) directory_path) st) as H.
  split; [done|]. by rewrite <-H at 2; rewrite length_fmap.
Qed.

(** X14.  For a file that is not an audio file, no metadata is read and none
    is written: [extract_metadata] returns the empty mapping and
    [update_metadata] returns false, and the file system is as before. *)
Theorem metadata_of_other_files_untouched
    (audio_tags : Path → string → Metadata)
    (audio_retag : Path → string → Metadata → option string)
    (cfg : Config) (file_path : Path) (md : Metadata) (w : World) :
  MetadataHandler._is_audio cfg file_path = Ret false →
  MetadataHandler.extract_metadata audio_tags cfg file_path w = Done ∅ w
  ∧ MetadataHandler.update_metadata audio_retag cfg file_path md w = Done false w.
Proof.
  intros Haudio.
  unfold MetadataHandler.extract_metadata, MetadataHandler.update_metadata.
  rewrite Haudio. unfold_monad.
  assert (∃ v, MetadataHandler._is_video cfg file_path = Ret v) as [v ->].
  { revert Haudio. unfold MetadataHandler._is_audio, MetadataHandler._is_video,
      formats_of_kind. destruct (cfg_supported_formats cfg) as [[]|]; simpl; by eauto. }
  by destruct v.
Qed.

Lemma metadata_of_other_files_untouched_witness :
  let cfg := example_config "{artist} - {title}" in
  let file_path := Pathlib.of_str "/films/film.mkv" in
  MetadataHandler.extract_metadata example_tags cfg file_path world_with_collisions
    = Done ∅ world_with_collisions
  ∧ MetadataHandler.update_metadata example_retag cfg file_path
      {[ "title" := VStr "T" ]} world_with_collisions
    = Done false world_with_collisions.
Proof.
  intros cfg file_path.
  apply (metadata_of_other_files_untouched example_tags example_retag cfg file_path).
  vm_compute. reflexivity.
Defined.

(** ** The backup store, from backup to restore *)

Section BackupFacts.

Context (md5_hexdigest : string → string) (json_dump : list Entry → string).
Implicit Types (self : BackupManager.t) (st : Store) (p : Path).

(** The world after a successful backup, path by path. *)
Lemma create_backup_nodes self p bp st st' :
  BackupManager.create_backup md5_hexdigest json_dump self p st = Done (Some bp) st' →
  ∃ data mtime,
    w_nodes (st_world st) !! p = Some (mkNode (KFile data) mtime)
    ∧ (p ∉ w_denied (st_world st))
    ∧ copy_target (st_world st) p bp ≠ p
    ∧ Fs.check_target (st_world st) (copy_target (st_world st) p bp) = None
    ∧ w_denied (st_world st') = w_denied (st_world st)
    ∧ st_backup_metadata st'
      = st_backup_metadata st
          ++ [backup_entry md5_hexdigest p bp
                (w_clock (st_world st) (S (w_reads (st_world st)))) data]
    ∧ (∀ q, q ≠ BackupManager.metadata_file self →
         w_nodes (st_world st') !! q
         = <[copy_target (st_world st) p bp := mkNode (KFile data) mtime]>
             (w_nodes (st_world st)) !! q)
    ∧ (Fs.is_dir (st_world st') (BackupManager.metadata_file self)
       = Fs.is_dir (st_world st) (BackupManager.metadata_file self)
       ∨ copy_target (st_world st) p bp = BackupManager.metadata_file self).
Proof.
  intros (data & mtime & _ & _ & Hp & Hden & Hne & Hcheck & Hl & Hw)%create_backup_done.
  exists data, mtime. rewrite Hw, Hl. clear Hw Hl.
  set (w2 := ticked 2 _).
  unfold Fs.write_text.
  destruct (Fs.check_write w2 (BackupManager.metadata_file self)) eqn:Emf; simpl.
  - split_and!; [done..|].
    destruct (decide (copy_target (st_world st) p bp = BackupManager.metadata_file self))
      as [?|Hmf]; [by right|left].
    unfold Fs.is_dir. simpl. by rewrite lookup_insert_ne.
  - split_and!; [done..| |].
    + intros q Hq. by rewrite lookup_insert_ne.
    + destruct (decide (copy_target (st_world st) p bp = BackupManager.metadata_file self))
        as [?|Hmf]; [by right|left].
      apply check_write_none, check_target_none in Emf as (Hnodir & _).
      unfold Fs.is_dir in *. simpl in *. rewrite lookup_insert_eq.
      rewrite lookup_insert_ne in Hnodir by done.
      destruct (w_nodes (st_world st) !! BackupManager.metadata_file self) as [[[]]|]; done.
Qed.

End BackupFacts.

Section PathStringFacts.

Implicit Types (s t : string) (c : ascii) (p : Path).





End PathStringFacts.

Section BackupEntryFacts.

Context (md5_hexdigest : string → string).

Lemma backup_entry_lookup p bp t data :
  let entry := backup_entry md5_hexdigest p bp t data in
  entry !! "original_path" = Some (JStr (Pathlib.to_str p))
  ∧ entry !! "backup_path" = Some (JStr (Pathlib.to_str bp))
  ∧ entry !! "file_size" = Some (JNum (Z.of_nat (String.length data)))
  ∧ entry !! "file_hash" = Some (JStr (md5_hexdigest data)).
Proof. unfold backup_entry, BackupManager.new_entry. by split_and!. Qed.

End BackupEntryFacts.

(** X16.  After a successful [create_backup] into a path that is not a
    directory, the last entry that [list_backups] gives for the file is the
    new one, and its size and hash are what [get_file_size] and
    [calculate_file_hash] find on the backup file. *)
Theorem create_backup_is_recorded
    (hashlib_new : string → option (string → string))
    (md5_hexdigest : string → string) (json_dump : list Entry → string)
    (self : BackupManager.t) (file_path bp : Path) (st st' : Store) :
  BackupManager.create_backup md5_hexdigest json_dump self file_path st = Done (Some bp) st' →
  hashlib_new "md5" = Some md5_hexdigest →
  Fs.is_dir (st_world st) bp = false →
  bp ≠ BackupManager.metadata_file self →
  ∃ l entry size h,
    BackupManager.list_backups (Some file_path) st' = Done (l ++ [entry]) st'
    ∧ entry !! "backup_path" = Some (JStr (Pathlib.to_str bp))
    ∧ entry !! "file_size" = Some (JNum size)
    ∧ entry !! "file_hash" = Some (JStr h)
    ∧ get_file_size bp (st_world st') = Done size (st_world st')
    ∧ calculate_file_hash hashlib_new bp "md5" (st_world st') = Done (Some h) (st_world st').
Proof.
  intros Hrun Hmd5 Hnodir Hmf.
  apply create_backup_nodes in Hrun
    as (data & mtime & Hp & Hden & Hne & Hcheck & Hdenied & Hl & Hnodes & _).
  unfold copy_target in *. rewrite Hnodir in *.
  apply check_target_none in Hcheck as (_ & _ & Hbden).
  set (entry := backup_entry _ _ _ _ _) in Hl.
  destruct (backup_entry_lookup md5_hexdigest file_path bp
              (w_clock (st_world st) (S (w_reads (st_world st)))) data)
    as (Ho & Hb & Hs & Hh). fold entry in Ho, Hb, Hs, Hh.
  assert (w_nodes (st_world st') !! bp = Some (mkNode (KFile data) mtime)) as Hbp.
  { rewrite Hnodes by done. apply lookup_insert_eq. }
  eexists _, entry, _, _. split_and!; [|done..| |].
  - unfold BackupManager.list_backups. unfold_monad. rewrite Hl.
    rewrite filter_app, filter_cons, filter_nil. by rewrite decide_True.
  - unfold get_file_size, try_except_os, Fs.stat_size. by rewrite Hbp.
  - unfold calculate_file_hash, Fs.read_bytes. unfold_monad. rewrite Hmd5, Hbp.
    by rewrite decide_False by (by rewrite Hdenied).
Qed.

Lemma create_backup_is_recorded_witness :
  let p := Pathlib.of_str "song.mp3" in
  let bp := Pathlib.of_str "backups/song_20231114_221320.mp3" in
  let st' := res_state (BackupManager.create_backup example_md5 example_dump
                          relative_manager p relative_store) in
  ∃ l entry size h,
    BackupManager.list_backups (Some p) st' = Done (l ++ [entry]) st'
    ∧ entry !! "backup_path" = Some (JStr (Pathlib.to_str bp))
    ∧ entry !! "file_size" = Some (JNum size)
    ∧ entry !! "file_hash" = Some (JStr h)
    ∧ get_file_size bp (st_world st') = Done size (st_world st')
    ∧ calculate_file_hash (λ _, Some example_md5) bp "md5" (st_world st')
      = Done (Some h) (st_world st').
Proof.
  intros p bp st'.
  apply (create_backup_is_recorded (λ _, Some example_md5) example_md5 example_dump
           relative_manager p bp relative_store st').
  - apply (done_intro (BackupManager.create_backup example_md5 example_dump
                         relative_manager p relative_store) (Some bp)).
    vm_compute. reflexivity.
  - reflexivity.
  - vm_compute. reflexivity.
  - vm_compute. discriminate.
Defined.



(** X18.  The ledger survives a restart. After a successful backup by a
    manager made from a configuration, into a path that is not a directory
    and not the ledger file, with the backup directory in place and the
    ledger file writable (it is no directory, access to it is not denied
    and it is not read-only), a manager made anew from the same
    configuration is the same manager, finds the ledger as the first one
    left it, and changes nothing (given that the JSON text of the ledger is
    read back as the ledger). *)
Theorem ledger_survives_restart
    (md5_hexdigest : string → string) (json_dump : list Entry → string)
    (json_load : string → option (list Entry))
    (cfg : Config) (st0 st0' : Store) (self : BackupManager.t)
    (file_path bp : Path) (st st1 : Store) :
  BackupManager.__init__ json_load cfg st0 = Done self st0' →
  BackupManager.create_backup md5_hexdigest json_dump self file_path st = Done (Some bp) st1 →
  Fs.is_dir (st_world st) (BackupManager.backup_dir self) = true →
  Fs.is_dir (st_world st) (BackupManager.metadata_file self) = false →
  BackupManager.metadata_file self ∉ w_denied (st_world st) →
  BackupManager.metadata_file self ∉ w_readonly (st_world st) →
  Fs.is_dir (st_world st) bp = false →
  bp ≠ BackupManager.metadata_file self →
  json_load (json_dump (st_backup_metadata st1)) = Some (st_backup_metadata st1) →
  BackupManager.__init__ json_load cfg st1 = Done self st1.
Proof.
  intros (-> & _)%init_done Hrun Hdir Hmfnodir Hmfden Hmfro Hbpnodir Hbpmf Hcodec.
  simpl in *.
  set (dir := config_backup_dir cfg) in *.
  set (mf := dir // "backup_metadata.json") in *.
  assert (Hparent : Pathlib.parent mf = dir) by (by apply parent_joinpath).
  apply create_backup_done in Hrun
    as (data & mtime & Hen & _ & Hp & Hden & Hne & Hcheck & Hl & Hw). simpl in *.
  apply check_target_none in Hcheck as (Htnodir & _ & _).
  set (target := copy_target (st_world st) file_path bp) in *.
  set (l1 := st_backup_metadata st ++ _) in *.
  assert (target ≠ dir) as Htd by (intros Heq; congruence).
  assert (mf ≠ dir) as Hmd by (intros Heq; congruence).
  assert (target ≠ mf) as Htm.
  { unfold target, copy_target. by rewrite Hbpnodir. }
  set (w' := ticked 2 _) in Hw.
  assert (Fs.check_write w' mf = None) as Hmf.
  { apply check_write_intro.
    - apply check_target_intro; [| |done].
      + unfold Fs.is_dir, w' in *. simpl. by rewrite lookup_insert_ne.
      + rewrite Hparent. unfold Fs.is_dir, w' in *. simpl. by rewrite lookup_insert_ne.
    - intros _. unfold w'. simpl. by rewrite copy_mode_other. }
  unfold Fs.write_text in Hw. rewrite Hmf in Hw. simpl in Hw.
  destruct st1 as [w1 l1']. simpl in Hl, Hw. subst l1' w1.
  unfold BackupManager.__init__. fold dir. rewrite Hen. unfold_monad. simpl.
  rewrite mkdir_parents_existing.
  2:{ unfold Fs.is_dir in *. simpl. rewrite !lookup_insert_ne by done. exact Hdir. }
  simpl. fold mf.
  unfold BackupManager._load_backup_metadata, Fs.read_bytes, Fs.path_exists. unfold_monad.
  simpl. rewrite lookup_insert_eq.
  rewrite bool_decide_eq_true_2 by (by eexists). simpl. rewrite lookup_insert_eq.
  rewrite decide_False by done. simpl in *. by rewrite Hcodec.
Qed.

Lemma ledger_survives_restart_witness :
  let p := Pathlib.of_str "song.mp3" in
  let st := res_state (BackupManager.__init__ example_load_known enabled_config fresh_store) in
  let st1 := res_state (BackupManager.create_backup example_md5 example_dump
                          relative_manager p st) in
  BackupManager.__init__ example_load_known enabled_config st1 = Done relative_manager st1.
Proof.
  intros p st st1.
  apply (ledger_survives_restart example_md5 example_dump example_load_known
           enabled_config fresh_store st relative_manager p
           (Pathlib.of_str "backups/song_20231114_221320.mp3") st st1).
  - apply (done_intro (BackupManager.__init__ example_load_known enabled_config fresh_store)
             relative_manager).
    vm_compute. reflexivity.
  - apply (done_intro (BackupManager.create_backup example_md5 example_dump
                         relative_manager p st)
             (Some (Pathlib.of_str "backups/song_20231114_221320.mp3"))).
    vm_compute. reflexivity.
  - vm_compute. reflexivity.
  - vm_compute. reflexivity.
  - vm_compute. intros H. discriminate H.
  - vm_compute. intros H. discriminate H.
  - vm_compute. reflexivity.
  - vm_compute. discriminate.
  - apply (bool_decide_unpack _). vm_compute. exact I.
Defined.

Section CleanupFrameFacts.

Implicit Types (st : Store) (e : Entry) (es : list Entry).





End CleanupFrameFacts.



(** ** [validate_file] of the format detector *)

Lemma length_eqb_nil {A} (l : list A) : (length l =? 0)%nat = true ↔ l = [].
Proof. destruct l; simpl; split; done. Qed.

(** X20.  The verdict of [validate_file] and its list of reasons agree: the
    file is valid exactly when no reason is given. *)
Theorem validate_file_valid_iff_no_reason
    (guess_type : string → option string)
    (magic_from_buffer : string → option string)
    (mutagen_available ffmpeg_available : bool)
    (mutagen_file : Path → string → FormatChecks.Probe unit)
    (ffmpeg_probe : Path → string → FormatChecks.Probe (list (option string)))
    (supported_formats : option Formats) (file_path : Path) (w : World) :
  let r := FormatChecks.validate_file guess_type magic_from_buffer
             mutagen_available ffmpeg_available mutagen_file ffmpeg_probe
             supported_formats file_path w in
  r.1 = true ↔ r.2 = [].
Proof.
  unfold FormatChecks.validate_file. cbv zeta.
  destruct (Fs.path_exists w file_path); cbn [negb]; [|done].
  destruct (Fs.is_file w file_path); cbn [negb]; [|done].
  destruct (Fs.stat_size file_path w) as [size ?|e ?]; [|done].
  case_decide; [done|].
  destruct (Fs.read_bytes file_path w) as [data ?|e ?]; [|by destruct e].
  destruct (FormatChecks.truthy_format _); cbn [negb]; [|done].
  cbn [fst snd]. apply length_eqb_nil.
Qed.

(** X21.  Only the formats [.mp3] and [.flac] and the six video formats are
    looked into. A file that is not empty and can be read, whose lowercased
    extension is in the list of supported formats and is none of those
    eight, is valid whatever it holds and whatever the libraries would say. *)
Theorem validate_file_accepts_unchecked_formats
    (guess_type : string → option string)
    (magic_from_buffer : string → option string)
    (mutagen_available ffmpeg_available : bool)
    (mutagen_file : Path → string → FormatChecks.Probe unit)
    (ffmpeg_probe : Path → string → FormatChecks.Probe (list (option string)))
    (extensions : list string) (file_path : Path) (w : World) (data : string) (mtime : Z) :
  w_nodes w !! file_path = Some (mkNode (KFile data) mtime) →
  data ≠ "" →
  file_path ∉ w_denied w →
  Str.lower (Pathlib.suffix file_path) ∈ extensions →
  Str.lower (Pathlib.suffix file_path) ≠ "" →
  Str.lower (Pathlib.suffix file_path) ∉ [".mp3"; ".flac"] →
  Str.lower (Pathlib.suffix file_path) ∉ FormatChecks.video_formats →
  FormatChecks.validate_file guess_type magic_from_buffer
    mutagen_available ffmpeg_available mutagen_file ffmpeg_probe
    (Some (FmtList extensions)) file_path w = (true, []).
Proof.
  intros Hfile Hdata Hden Hext Hne Haudio Hvideo.
  unfold FormatChecks.validate_file, Fs.path_exists, Fs.is_file, Fs.stat_size, Fs.read_bytes.
  rewrite Hfile. rewrite bool_decide_eq_true_2 by (by eexists). cbn [negb].
  rewrite decide_False by (destruct data; [done|simpl; lia]).
  rewrite decide_False by done.
  unfold FormatChecks.detect_format. cbn [in_formats].
  rewrite bool_decide_eq_true_2 by done.
  cbn [FormatChecks.truthy_format]. unfold FormatChecks.nonempty.
  rewrite bool_decide_eq_false_2 by done. cbn [negb default from_option id].
  set (ext := Str.lower (Pathlib.suffix file_path)) in *.
  unfold FormatChecks._validate_format_specific.
  rewrite (bool_decide_eq_false_2 (ext ∈ FormatChecks.video_formats)) by done.
  case_bool_decide as Ha; [|done].
  unfold FormatChecks._validate_audio_file.
  rewrite !decide_False; [done|..].
  - intros Heq. apply Haudio. rewrite Heq. right. by left.
  - intros Heq. apply Haudio. rewrite Heq. by left.
Qed.

Lemma validate_file_accepts_unchecked_formats_witness :
  let w := mkWorld {[ Pathlib.of_str "/" := dir_node;
                      Pathlib.of_str "/notes.WAV" := file_node "not audio at all" 1650000000 ]}
                   ∅ example_clock 0 ∅ in
  FormatChecks.validate_file (λ _, None) (λ _, Some "text/plain") true true
    (λ _ _, FormatChecks.Raises "not an audio file")
    (λ _ _, FormatChecks.Raises "not a video file")
    (Some (FmtList [".mp3"; ".wav"])) (Pathlib.of_str "/notes.WAV") w = (true, []).
Proof.
  intros w.
  apply (validate_file_accepts_unchecked_formats (λ _, None) (λ _, Some "text/plain")
           true true (λ _ _, FormatChecks.Raises "not an audio file")
           (λ _ _, FormatChecks.Raises "not a video file")
           [".mp3"; ".wav"] (Pathlib.of_str "/notes.WAV") w "not audio at all" 1650000000).
  - vm_compute. reflexivity.
  - discriminate.
  - vm_compute. intros H. discriminate H.
  - apply (bool_decide_unpack _). vm_compute. exact I.
  - vm_compute. discriminate.
  - apply (bool_decide_unpack _). vm_compute. exact I.
  - apply (bool_decide_unpack _). vm_compute. exact I.
Defined.

(** ** The configuration: merge, environment and [load_config] *)

Section DictFacts.

Implicit Types (d base : Dict) (k key : string) (v value : PyVal).

Lemma dict_get_set key k value d :
  dict_get key (dict_set k value d) = if decide (k = key) then Some value else dict_get key d.
Proof.
  induction d as [|[k' v'] d IH]; simpl.
  - by case_decide.
  - destruct (decide (k' = k)) as [->|Hne]; simpl.
    + by case_decide.
    + rewrite IH. destruct (decide (k' = key)) as [->|]; [|done].
      by rewrite decide_False.
Qed.

Lemma deep_merge_cons base key value rest :
  deep_merge base ((key, value) :: rest)
  = deep_merge (dict_set key (merged_value (dict_get key base) value) base) rest.
Proof.
  unfold deep_merge at 1. simpl. unfold merged_value.
  destruct (dict_get key base) as [[]|], value; reflexivity.
Qed.

Lemma deep_merge_lookup base override key :
  NoDup (dict_keys override) →
  dict_get key (deep_merge base override)
  = match dict_get key override with
    | None => dict_get key base
    | Some value => Some (merged_value (dict_get key base) value)
    end.
Proof.
  revert base. induction override as [|[k v] rest IH]; intros base Hnd; [done|].
  apply NoDup_cons in Hnd as [Hk Hnd]. rewrite deep_merge_cons, IH by done. simpl.
  destruct (decide (k = key)) as [->|Hne].
  - assert (dict_get key rest = None) as ->.
    { clear -Hk. induction rest as [|[k' v'] rest IH]; simpl; [done|].
      unfold dict_keys in Hk. simpl in Hk. apply not_elem_of_cons in Hk as [? ?].
      rewrite decide_False by done. by apply IH. }
    rewrite dict_get_set. by rewrite decide_True.
  - rewrite dict_get_set, decide_False by done. done.
Qed.

End DictFacts.

(** X22.  [_merge_configs] key by key, for a user configuration whose keys
    are distinct: a key that the user configuration lacks keeps the value of
    the defaults; a key that both have with dictionaries for values gets the
    deep merge of the two; any other key of the user configuration gets the
    value given there as it is (a list replaces a list). *)
Theorem merge_configs_lookup (default user : Dict) (key : string) :
  NoDup (dict_keys user) →
  dict_get key (ConfigManager._merge_configs default user)
  = match dict_get key user with
    | None => dict_get key default
    | Some value =>
        match dict_get key default, value with
        | Some (PDict b), PDict o => Some (PDict (deep_merge b o))
        | _, _ => Some value
        end
    end.
Proof.
  intros Hnd. unfold ConfigManager._merge_configs. rewrite deep_merge_lookup by done.
  destruct (dict_get key user) as [value|]; [|done].
  unfold merged_value. by destruct (dict_get key default) as [[]|], value.
Qed.

Lemma merge_configs_lookup_witness :
  let user : Dict :=
    [ ("processing", PDict [("max_workers", PInt 8)]);
      ("supported_formats", PList [PStr ".mp3"]) ] in
  let default := ConfigManager._get_default_config_dict in
  dict_get "supported_formats" (ConfigManager._merge_configs default user)
  = match dict_get "supported_formats" user with
    | None => dict_get "supported_formats" default
    | Some value =>
        match dict_get "supported_formats" default, value with
        | Some (PDict b), PDict o => Some (PDict (deep_merge b o))
        | _, _ => Some value
        end
    end.
Proof.
  intros user default.
  apply (merge_configs_lookup default user "supported_formats").
  apply (bool_decide_unpack _). vm_compute. exact I.
Defined.

Section EnvironmentFacts.

Implicit Types (environ : list (string * string)) (config : Dict) (s : string).

Lemma apply_environment_overrides_lookup environ config config_key :
  dict_get config_key (ConfigManager._apply_environment_overrides environ config)
  = match env_override environ config_key with
    | Some value => Some (ConfigManager.env_value value)
    | None => dict_get config_key config
    end.
Proof.
  revert config. induction environ as [|[key value] rest IH]; intros config; [done|].
  unfold ConfigManager._apply_environment_overrides in *. simpl.
  rewrite IH. destruct (env_override rest config_key); [done|].
  destruct (Str.startswith key ConfigManager.env_prefix); simpl; [|done].
  rewrite dict_get_set. by case_bool_decide; [rewrite decide_True|rewrite decide_False].
Qed.

Lemma all_digits_pretty_N_go x s :
  Str.all Str.is_digit (pretty_N_go x s) = Str.all Str.is_digit s.
Proof.
  revert s. induction (N.lt_wf_0 x) as [x _ IH]; intros s.
  destruct (decide (x = 0%N)) as [->|Hx]; [done|].
  rewrite pretty_N_go_step by lia.
  rewrite IH by (apply N.div_lt; lia). simpl.
  by rewrite pretty_N_char_digit.
Qed.

Lemma digit_value_pretty_N_char x :
  (x < 10)%N → (Z.of_nat (nat_of_ascii (pretty_N_char x)) - 48)%Z = Z.of_N x.
Proof.
  intros Hx.
  assert (x = 0 ∨ x = 1 ∨ x = 2 ∨ x = 3 ∨ x = 4 ∨ x = 5 ∨ x = 6 ∨ x = 7 ∨ x = 8 ∨ x = 9)%N
    as Hcases by lia.
  repeat (destruct Hcases as [->|Hcases]; [reflexivity|]). by subst.
Qed.

Lemma int_of_digits_pretty_N_go x s :
  fold_left (λ acc a, (10 * acc + (Z.of_nat (nat_of_ascii a) - 48))%Z)
    (list_ascii_of_string (pretty_N_go x s)) 0%Z
  = fold_left (λ acc a, (10 * acc + (Z.of_nat (nat_of_ascii a) - 48))%Z)
      (list_ascii_of_string s) (Z.of_N x).
Proof.
  revert s. induction (N.lt_wf_0 x) as [x _ IH]; intros s.
  destruct (decide (x = 0%N)) as [->|Hx]; [done|].
  rewrite pretty_N_go_step by lia.
  rewrite IH by (apply N.div_lt; lia). simpl.
  rewrite digit_value_pretty_N_char by (apply N.mod_lt; lia).
  f_equal. rewrite (N.div_mod x 10) at 3 by lia. lia.
Qed.

Lemma pretty_N_nonempty (x : N) : pretty x ≠ "".
Proof.
  unfold pretty, pretty_N. case_decide; [done|].
  intros Heq. apply (f_equal String.length) in Heq. simpl in Heq.
  assert (∀ y s, String.length s ≤ String.length (pretty_N_go y s)) as Hlen.
  { clear. intros y. induction (N.lt_wf_0 y) as [y _ IH]; intros s.
    destruct (decide (y = 0%N)) as [->|Hy]; [done|].
    rewrite pretty_N_go_step by lia.
    etrans; [|apply IH; apply N.div_lt; lia]. simpl. lia. }
  destruct (decide (x = 0%N)) as [->|Hx]; [done|].
  rewrite pretty_N_go_step in Heq by lia.
  pose proof (Hlen (x `div` 10)%N (String (pretty_N_char (x `mod` 10)) "")) as H'.
  simpl in H'. lia.
Qed.

Lemma isdigit_pretty_N (x : N) : isdigit (pretty x) = true.
Proof.
  unfold isdigit. rewrite bool_decide_eq_false_2 by apply pretty_N_nonempty. simpl.
  unfold pretty, pretty_N. case_decide; [done|]. by rewrite all_digits_pretty_N_go.
Qed.

Lemma int_of_digits_pretty_N (x : N) : int_of_digits (pretty x) = Z.of_N x.
Proof.
  unfold int_of_digits, pretty, pretty_N. case_decide as Hx; [by subst|].
  by rewrite int_of_digits_pretty_N_go.
Qed.

(** A string of digits has no letter, so its lowercase form is itself. *)
Lemma lower_digits s : Str.all Str.is_digit s = true → Str.lower s = s.
Proof.
  induction s as [|a s IH]; simpl; [done|].
  intros [Ha Hs]%andb_true_iff. rewrite IH by done. f_equal.
  unfold Str.lower_char, Str.is_digit in *.
  apply andb_true_iff in Ha as [_ Ha%Nat.leb_le].
  destruct (65 <=? nat_of_ascii a)%nat eqn:E; [|done].
  apply Nat.leb_le in E. lia.
Qed.

End EnvironmentFacts.

Section EnvironmentValueFacts.

Lemma env_override_none environ config_key :
  (∀ key value, (key, value) ∈ environ →
     Str.startswith key ConfigManager.env_prefix = true →
     Str.lower (Str.drop (String.length ConfigManager.env_prefix) key) ≠ config_key) →
  env_override environ config_key = None.
Proof.
  induction environ as [|[key value] rest IH]; intros H; [done|]. simpl.
  rewrite IH by (intros k v Hin; apply (H k v); by right).
  destruct (Str.startswith key ConfigManager.env_prefix) eqn:E; [|done]. simpl.
  rewrite bool_decide_eq_false_2; [done|]. apply (H key value); [by left|done].
Qed.

Lemma pretty_Z_nonneg (z : Z) : (0 ≤ z)%Z → pretty z = pretty (Z.to_N z).
Proof. destruct z; [done|done|lia]. Qed.

Lemma env_value_digits s :
  isdigit s = true → ConfigManager.env_value s = PInt (int_of_digits s).
Proof.
  intros Hd. unfold ConfigManager.env_value. rewrite Hd.
  unfold isdigit in Hd. apply andb_true_iff in Hd as [_ Hall].
  rewrite lower_digits by done.
  rewrite bool_decide_eq_false_2; [done|].
  intros [->|[->|[]%elem_of_nil]%elem_of_cons]%elem_of_cons; done.
Qed.

End EnvironmentValueFacts.

(** X23.  [_apply_environment_overrides] sets top-level keys only.  The
    value under a key afterwards is the value of the last variable that
    names the key (its name is the prefix followed by the key in any case of
    letters), converted as [env_value] says; a key that no variable names
    keeps its value. *)
Theorem environment_overrides_top_level_keys
    (environ : list (string * string)) (config : Dict) :
  (∀ config_key,
     dict_get config_key (ConfigManager._apply_environment_overrides environ config)
     = match env_override environ config_key with
       | Some value => Some (ConfigManager.env_value value)
       | None => dict_get config_key config
       end)
  ∧ (∀ config_key,
       (∀ key value, (key, value) ∈ environ →
          Str.startswith key ConfigManager.env_prefix = true →
          Str.lower (Str.drop (String.length ConfigManager.env_prefix) key) ≠ config_key) →
       dict_get config_key (ConfigManager._apply_environment_overrides environ config)
       = dict_get config_key config).
Proof.
  split; intros config_key.
  - apply apply_environment_overrides_lookup.
  - intros Hnone. rewrite apply_environment_overrides_lookup.
    by rewrite env_override_none.
Qed.

(** X24.  The value that an environment variable gives: the words true and
    false in any case of letters are the booleans; a non-negative whole
    number in decimal is that number; a negative number, and the empty
    string, stay strings. *)
Theorem env_value_conversions :
  (∀ s, Str.lower s = "true" → ConfigManager.env_value s = PBool true)
  ∧ (∀ s, Str.lower s = "false" → ConfigManager.env_value s = PBool false)
  ∧ (∀ z : Z, (0 ≤ z)%Z → ConfigManager.env_value (pretty z) = PInt z)
  ∧ (∀ z : Z, (z < 0)%Z → ConfigManager.env_value (pretty z) = PStr (pretty z))
  ∧ ConfigManager.env_value "" = PStr "".
Proof.
  split_and!.
  - intros s Hs. unfold ConfigManager.env_value. rewrite Hs. done.
  - intros s Hs. unfold ConfigManager.env_value. rewrite Hs. done.
  - intros z Hz. rewrite pretty_Z_nonneg by done.
    rewrite env_value_digits by apply isdigit_pretty_N.
    rewrite int_of_digits_pretty_N. f_equal. lia.
  - intros [|x|x] Hz; [lia..|]. unfold ConfigManager.env_value.
    change (pretty (Z.neg x)) with ("-" +:+ pretty (N.pos x)). simpl. done.
  - done.
Qed.

Section LoadConfigFacts.

Context (yaml_safe_load : string → Exc PyVal).

Lemma load_yaml_world path w :
  res_state (ConfigManager.load_yaml yaml_safe_load path w) = w.
Proof.
  unfold ConfigManager.load_yaml, Fs.read_bytes. unfold_monad.
  destruct (w_nodes w !! path) as [[[data|] mtime]|]; simpl; [|done..].
  case_decide; simpl; [done|].
  destruct (yaml_safe_load data) as [v|e]; simpl; [|done].
  destruct v as [|b|n|s|l|d]; simpl; try done; by case_match.
Qed.

Lemma load_default_config_world self w :
  res_state (ConfigManager._load_default_config yaml_safe_load self w) = w.
Proof.
  unfold ConfigManager._load_default_config. unfold_monad.
  destruct (Fs.path_exists w _); [apply load_yaml_world|done].
Qed.

Lemma load_user_config_world self w :
  res_state (ConfigManager._load_user_config yaml_safe_load self w) = w.
Proof.
  unfold ConfigManager._load_user_config. unfold_monad.
  destruct (Fs.path_exists w _); [apply load_yaml_world|done].
Qed.

End LoadConfigFacts.

(** X25.  [load_config] reads and changes no file. The configuration that it
    returns is kept: every later call returns it as it is, whatever the
    files and the environment have become. On the first call, the value
    under a key is decided by the environment, then by the user file, then
    by the defaults. *)
Theorem load_config_precedence
    (yaml_safe_load : string → Exc PyVal) (environ : list (string * string))
    (self self' : ConfigManager.t) (w w' : World) (c : Dict) :
  ConfigManager.load_config yaml_safe_load environ self w = Done (c, self') w' →
  w' = w
  ∧ ConfigManager.config self' = Some c
  ∧ (∀ yaml_safe_load' environ' w2,
       ConfigManager.load_config yaml_safe_load' environ' self' w2 = Done (c, self') w2)
  ∧ (ConfigManager.config self = None →
     ∃ default user,
       ConfigManager._load_default_config yaml_safe_load self w = Done default w
       ∧ ConfigManager._load_user_config yaml_safe_load self w = Done user w
       ∧ (NoDup (dict_keys user) → ∀ key,
            dict_get key c
            = match env_override environ key with
              | Some value => Some (ConfigManager.env_value value)
              | None =>
                  match dict_get key user with
                  | Some value => Some (merged_value (dict_get key default) value)
                  | None => dict_get key default
                  end
              end)).
Proof.
  unfold ConfigManager.load_config.
  destruct (ConfigManager.config self) as [c0|] eqn:Ec.
  - unfold mret, M_ret. intros [= <- <- <-]. split_and!; [done..| |done].
    intros ? ? w2. by rewrite Ec.
  - unfold_monad.
    pose proof (load_default_config_world yaml_safe_load self w) as Hw1.
    destruct (ConfigManager._load_default_config yaml_safe_load self w)
      as [default w1|e w1]; simpl in Hw1; [subst w1|done].
    pose proof (load_user_config_world yaml_safe_load self w) as Hw2.
    destruct (ConfigManager._load_user_config yaml_safe_load self w)
      as [user w2|e w2]; simpl in Hw2; [subst w2|done].
    intros [= <- <- <-]. split_and!; [done..|].
    intros _. exists default, user. split_and!; [done..|].
    intros Hnd key. rewrite apply_environment_overrides_lookup.
    unfold ConfigManager._merge_configs. by rewrite deep_merge_lookup.
Qed.

Lemma done_value_intro {S A} (r : Res S A) (a : A) :
  (match r with Done a' _ => Some a' | Fail _ _ => None end) = Some a →
  r = Done a (res_state r).
Proof. destruct r as [a' s|e s]; [|done]. by intros [= ->]. Qed.

Lemma load_config_precedence_witness :
  let self := ConfigManager.__init__ (Pathlib.of_str "/app") None in
  let environ := [("MEDIA_MANAGER_LOG_LEVEL", "DEBUG"); ("HOME", "/root")] in
  let user := [ ("log_level", PStr "WARNING");
                ("processing", PDict [("max_workers", PInt 8)]) ] in
  let c := ConfigManager._apply_environment_overrides environ
             (ConfigManager._merge_configs ConfigManager._get_default_config_dict user) in
  let self' := ConfigManager.mk (ConfigManager.config_dir self) (Some c) in
  let w' := res_state (ConfigManager.load_config example_yaml environ self config_world) in
  w' = config_world
  ∧ ConfigManager.config self' = Some c
  ∧ (∀ yaml_safe_load' environ' w2,
       ConfigManager.load_config yaml_safe_load' environ' self' w2 = Done (c, self') w2)
  ∧ (ConfigManager.config self = None →
     ∃ default user,
       ConfigManager._load_default_config example_yaml self config_world
       = Done default config_world
       ∧ ConfigManager._load_user_config example_yaml self config_world
         = Done user config_world
       ∧ (NoDup (dict_keys user) → ∀ key,
            dict_get key c
            = match env_override environ key with
              | Some value => Some (ConfigManager.env_value value)
              | None =>
                  match dict_get key user with
                  | Some value => Some (merged_value (dict_get key default) value)
                  | None => dict_get key default
                  end
              end)).
Proof.
  intros self environ user c self' w'.
  apply (load_config_precedence example_yaml environ self self' config_world w' c).
  apply (done_value_intro
           (ConfigManager.load_config example_yaml environ self config_world) (c, self')).
  vm_compute. reflexivity.
Defined.

(** ** [process_files] of the command line *)

Section CommandFacts.

Context (format_ok : Path → string → bool)
        (audio_tags : Path → string → Metadata)
        (audio_retag : Path → string → Metadata → option string)
        (md5_hexdigest : string → string)
        (json_dump : list Entry → string)
        (json_load : string → option (list Entry)).

(** With the documented keys, no suffix is a key of the mapping. *)
Lemma is_media_file_documented_keys kinds file_path :
  (∀ key, is_Some (kinds !! key) → key = "audio" ∨ key = "video") →
  FileProcessor._is_media_file file_path (Some (FmtDict kinds)) = false.
Proof.
  intros Hkeys. unfold FileProcessor._is_media_file, in_formats.
  apply bool_decide_eq_false. intros [Ha|Hv]%Hkeys.
  - destruct (lower_suffix_shape file_path) as [E|[r E]]; rewrite E in Ha; done.
  - destruct (lower_suffix_shape file_path) as [E|[r E]]; rewrite E in Hv; done.
Qed.

Lemma find_media_files_documented_keys self kinds w directory_path :
  cfg_supported_formats (FileProcessor.config self) = Some (FmtDict kinds) →
  (∀ key, is_Some (kinds !! key) → key = "audio" ∨ key = "video") →
  FileProcessor._find_media_files self w directory_path = [].
Proof.
  intros Hfmt Hkeys. unfold FileProcessor._find_media_files. rewrite Hfmt.
  induction (FileProcessor.rglob w directory_path) as [|p l IH]; [done|].
  rewrite filter_cons, IH, (is_media_file_documented_keys _ _ Hkeys), andb_false_r.
  by case_decide.
Qed.

Lemma file_processor_init_config cfg st self st1 :
  FileProcessor.__init__ json_load cfg st = Done self st1 →
  FileProcessor.config self = cfg.
Proof.
  unfold FileProcessor.__init__. unfold_monad.
  destruct (formats_of_kind cfg "audio"); simpl; [|done].
  destruct (BackupManager.__init__ json_load cfg st); simpl; [|done].
  by intros [= <- _].
Qed.

End CommandFacts.

(** X26.  [process_files] with a list of extensions as [supported_formats]
    raises [AttributeError] while the processor is built, before anything is
    read or written: no backup directory is made and no file is processed. *)
Theorem process_files_rejects_format_list
    (format_ok : Path → string → bool)
    (audio_tags : Path → string → Metadata)
    (audio_retag : Path → string → Metadata → option string)
    (md5_hexdigest : string → string)
    (json_dump : list Entry → string)
    (json_load : string → option (list Entry))
    (path : Path) (cfg : Config) (exts : list string) (st : Store) :
  cfg_supported_formats cfg = Some (FmtList exts) →
  Commands.process_files format_ok audio_tags audio_retag md5_hexdigest json_dump
    json_load path cfg st = Fail AttributeError st.
Proof.
  intros Hfmt. unfold Commands.process_files, FileProcessor.__init__, formats_of_kind.
  rewrite Hfmt. reflexivity.
Qed.

Lemma process_files_rejects_format_list_witness :
  Commands.process_files (λ _ _, true) example_tags example_retag example_md5
    example_dump example_load (Pathlib.of_str "song.mp3") list_config fresh_store
  = Fail AttributeError fresh_store.
Proof.
  apply (process_files_rejects_format_list _ _ _ _ _ _ _ list_config
           [".mp3"; ".flac"; ".mp4"]).
  reflexivity.
Defined.

(** X27.  [process_files] on a directory, with [supported_formats] a mapping
    that has no other keys than [audio] and [video]: once the processor is
    built, no file is processed and nothing more changes. *)
Theorem process_files_directory_documented_formats
    (format_ok : Path → string → bool)
    (audio_tags : Path → string → Metadata)
    (audio_retag : Path → string → Metadata → option string)
    (md5_hexdigest : string → string)
    (json_dump : list Entry → string)
    (json_load : string → option (list Entry))
    (path : Path) (cfg : Config) (kinds : gmap string (list string))
    (self : FileProcessor.t) (st st1 : Store) :
  cfg_supported_formats cfg = Some (FmtDict kinds) →
  (∀ key, is_Some (kinds !! key) → key = "audio" ∨ key = "video") →
  FileProcessor.__init__ json_load cfg st = Done self st1 →
  Fs.is_dir (st_world st1) path = true →
  Commands.process_files format_ok audio_tags audio_retag md5_hexdigest json_dump
    json_load path cfg st = Done tt st1.
Proof.
  intros Hfmt Hkeys Hinit Hdir.
  pose proof (file_processor_init_config _ _ _ _ _ Hinit) as Hcfg.
  unfold Commands.process_files. unfold mbind at 1. unfold M_bind. rewrite Hinit.
  unfold_monad. rewrite Hdir. unfold FileProcessor.process_directory.
  rewrite (find_media_files_documented_keys self kinds); [|by rewrite Hcfg|done].
  reflexivity.
Qed.

Lemma process_files_directory_documented_formats_witness :
  let self := FileProcessor.mk enabled_config relative_manager in
  let st1 := res_state (FileProcessor.__init__ example_load enabled_config fresh_store) in
  Commands.process_files (λ _ _, true) example_tags example_retag example_md5
    example_dump example_load (Pathlib.of_str ".") enabled_config fresh_store
  = Done tt st1.
Proof.
  intros self st1.
  apply (process_files_directory_documented_formats _ _ _ _ _ _ _ enabled_config
           {[ "audio" := [".mp3"]; "video" := [".mp4"] ]} self fresh_store st1).
  - reflexivity.
  - intros key [exts Hkey].
    destruct (decide (key = "audio")) as [|Ha]; [by left|].
    destruct (decide (key = "video")) as [|Hv]; [by right|].
    by rewrite lookup_insert_ne, lookup_singleton_ne in Hkey.
  - apply (done_value_intro
             (FileProcessor.__init__ example_load enabled_config fresh_store) self).
    vm_compute. reflexivity.
  - vm_compute. reflexivity.
Defined.
